(** * Flight schedule parser and query tool: a shallow embedding of
    [flight_tool.py] and the properties of its validation and query engine.

    The Python functions [parse_iso_datetime], [validate_row],
    [parse_csv_files], [apply_filters] and [run_queries] are translated to
    Rocq functions of the same names.  Python values are a small universe
    [pyval]; dictionaries are insertion-ordered association lists; raised
    exceptions are explicit results of an error monad [M], and [try/except]
    is [try_except].  The library functions the tool calls ([str.strip],
    [str.isalnum], [float], [datetime.strptime], [datetime.strftime],
    [str], [repr]) are modelled after CPython 3.11 on the GNU C library.
    Opening and reading files and [json.load] are outside the embedding:
    [parse_csv_files] takes the file system as a function from paths to
    what [csv.DictReader] yields, [run_queries] the loaded document.

    Text is [string]: a character is a code point of the Latin-1 block
    (U+0000 to U+00FF), classified as the Unicode database classifies it. *)

From Stdlib Require Import Bool Ascii String List ZArith NArith Lia.
From Stdlib Require Import SpecFloat Permutation.
Import ListNotations.

Local Open Scope string_scope.
Local Open Scope Z_scope.

(* ================================================================== *)
(** * Python text *)
(* ================================================================== *)

Module PyStr.

Definition code (c : ascii) : Z := Z.of_N (N_of_ascii c).
Definition chr (n : Z) : ascii := ascii_of_N (Z.to_N n).

Definition in_range (lo hi : Z) (c : ascii) : bool :=
  (lo <=? code c) && (code c <=? hi).

(** [Py_UNICODE_ISSPACE]: what [str.strip()], [str.isspace()] and the
    regular expression class [\s] use. *)
Definition is_space (c : ascii) : bool :=
  in_range 9 13 c || in_range 28 32 c || (code c =? 133) || (code c =? 160).

(** [Py_UNICODE_ISDECIMAL]: the class [\d]; on Latin-1 the ten ASCII digits. *)
Definition is_decimal (c : ascii) : bool := in_range 48 57 c.

Definition digit_val (c : ascii) : Z := code c - 48.
Definition digit_chr (d : Z) : ascii := chr (48 + d).

(** Uppercase and lowercase letters ([Lu], and [Ll] with the ordinal
    indicators and the micro sign). *)
Definition is_upper_chr (c : ascii) : bool :=
  in_range 65 90 c || in_range 192 214 c || in_range 216 222 c.

Definition is_lower_chr (c : ascii) : bool :=
  in_range 97 122 c || (code c =? 170) || (code c =? 181) || (code c =? 186)
  || in_range 223 246 c || in_range 248 255 c.

Definition is_alpha_chr (c : ascii) : bool := is_upper_chr c || is_lower_chr c.

(** [str.isalnum] on one character: alphabetic, decimal, digit or numeric
    (superscripts one to three and the vulgar fractions). *)
Definition is_alnum_chr (c : ascii) : bool :=
  is_alpha_chr c || is_decimal c
  || (code c =? 178) || (code c =? 179) || (code c =? 185) || in_range 188 190 c.

(** [str.isprintable] on one character, used by [repr]. *)
Definition is_printable_chr (c : ascii) : bool :=
  negb (in_range 0 31 c || in_range 127 160 c || (code c =? 173)).

Definition lower_chr (c : ascii) : ascii :=
  if is_upper_chr c then chr (code c + 32) else c.

Fixpoint all_chars (p : ascii -> bool) (s : string) : bool :=
  match s with
  | EmptyString => true
  | String c s' => p c && all_chars p s'
  end.

Fixpoint any_chars (p : ascii -> bool) (s : string) : bool :=
  match s with
  | EmptyString => false
  | String c s' => p c || any_chars p s'
  end.

Fixpoint map_chars (f : ascii -> ascii) (s : string) : string :=
  match s with
  | EmptyString => EmptyString
  | String c s' => String (f c) (map_chars f s')
  end.

Definition is_empty (s : string) : bool :=
  match s with EmptyString => true | _ => false end.

Definition len (s : string) : Z := Z.of_nat (String.length s).

(** [str.lstrip()], [str.rstrip()] and [str.strip()] without argument. *)
Fixpoint lstrip (s : string) : string :=
  match s with
  | EmptyString => EmptyString
  | String c s' => if is_space c then lstrip s' else s
  end.

Fixpoint rstrip (s : string) : string :=
  match s with
  | EmptyString => EmptyString
  | String c s' =>
      let r := rstrip s' in
      if is_space c && is_empty r then EmptyString else String c r
  end.

Definition strip (s : string) : string := rstrip (lstrip s).

Definition lower (s : string) : string := map_chars lower_chr s.

(** [str.isalnum()], [str.isalpha()]: every character in the class and
    at least one character. *)
Definition isalnum (s : string) : bool := negb (is_empty s) && all_chars is_alnum_chr s.
Definition isalpha (s : string) : bool := negb (is_empty s) && all_chars is_alpha_chr s.

(** [str.isupper()]: no lowercase character and at least one uppercase
    one (Latin-1 has no titlecase character). *)
Definition isupper (s : string) : bool :=
  negb (any_chars is_lower_chr s) && any_chars is_upper_chr s.

(** Decimal rendering of a non-negative integer ([str(int)]), by fuel on
    the number of digits. *)
Fixpoint digits_fuel (fuel : nat) (n : Z) (acc : string) : string :=
  match fuel with
  | O => acc
  | S fuel' =>
      let acc' := String (digit_chr (n mod 10)) acc in
      if n <? 10 then acc' else digits_fuel fuel' (n / 10) acc'
  end.

Definition str_nat (n : Z) : string :=
  digits_fuel (S (Z.to_nat (Z.log2 n))) n EmptyString.

Definition str_int (n : Z) : string :=
  if n <? 0 then String "-" (str_nat (- n)) else str_nat n.

(** Value of a run of decimal digits, most significant first. *)
Fixpoint digits_value (s : string) (acc : Z) : Z :=
  match s with
  | EmptyString => acc
  | String c s' => digits_value s' (10 * acc + digit_val c)
  end.

(** ["%02d" % n]: at least two digits, zero-padded. *)
Definition pad2 (n : Z) : string :=
  if n <? 10 then String "0" (str_nat n) else str_nat n.

End PyStr.

(* ================================================================== *)
(** * Python floats: IEEE binary64, [float(str)] and [repr(float)] *)
(* ================================================================== *)

Module PyFloat.
Import PyStr.

Definition prec : Z := 53.
Definition emax : Z := 1024.

Definition float := spec_float.

Definition zero : float := S754_zero false.
Definition nan : float := S754_nan.

(** The comparisons [x <= y], [x < y], [x == y] of Python floats; every
    comparison with a NaN is false. *)
Definition leb (x y : float) : bool := SFleb x y.
Definition ltb (x y : float) : bool := SFltb x y.
Definition eqb (x y : float) : bool := SFeqb x y.

(** The binary64 number nearest to [m * 10^e] (ties to even), [m >= 0],
    with sign [neg]: what [strtod] returns for a decimal literal. *)
Definition of_decimal (neg : bool) (m e : Z) : float :=
  if m <=? 0 then S754_zero neg
  else if 0 <=? e then
    binary_normalize prec emax (cond_Zopp neg (m * 10 ^ e)) 0 neg
  else
    let '(q, e', l) := SFdiv_core_binary prec emax m 0 (10 ^ (- e)) 0 in
    binary_round_aux prec emax neg q e' l.

(** ** [float(s)] *)

(** The C-level strip of [float()]: ASCII white space, and the non-ASCII
    white space that is first rewritten to a blank. *)
Definition is_c_space (c : ascii) : bool :=
  in_range 9 13 c || (code c =? 32) || (code c =? 133) || (code c =? 160).

Fixpoint c_lstrip (s : string) : string :=
  match s with
  | EmptyString => EmptyString
  | String c s' => if is_c_space c then c_lstrip s' else s
  end.

Fixpoint c_rstrip (s : string) : string :=
  match s with
  | EmptyString => EmptyString
  | String c s' =>
      let r := c_rstrip s' in
      if is_c_space c && is_empty r then EmptyString else String c r
  end.

Definition is_underscore (c : ascii) : bool := code c =? 95.

(** Removal of the digit-grouping underscores: one is allowed only
    between two digits.  [prev] is the previous character, if any. *)
Fixpoint strip_underscores (prev : option ascii) (s : string) : option string :=
  match s with
  | EmptyString =>
      match prev with
      | Some p => if is_underscore p then None else Some EmptyString
      | None => Some EmptyString
      end
  | String c s' =>
      if is_underscore c then
        match prev with
        | Some p => if is_decimal p then strip_underscores (Some c) s' else None
        | None => None
        end
      else
        let bad :=
          match prev with
          | Some p => is_underscore p && negb (is_decimal c)
          | None => false
          end in
        if bad then None
        else match strip_underscores (Some c) s' with
             | Some r => Some (String c r)
             | None => None
             end
  end.

(** Longest prefix of ASCII digits and the rest. *)
Fixpoint span_digits (s : string) : string * string :=
  match s with
  | EmptyString => (EmptyString, EmptyString)
  | String c s' =>
      if is_decimal c then
        let '(d, r) := span_digits s' in (String c d, r)
      else (EmptyString, s)
  end.

Definition take_sign (s : string) : bool * string :=
  match s with
  | String "-" s' => (true, s')
  | String "+" s' => (false, s')
  | _ => (false, s)
  end.

(** The exponent part: [e] or [E], an optional sign, at least one digit.
    An [e] that no digit follows is not consumed. *)
Definition parse_exponent (s : string) : Z * string :=
  match s with
  | String c s' =>
      if (code c =? 101) || (code c =? 69) then
        let '(neg, s'') := take_sign s' in
        let '(d, r) := span_digits s'' in
        if is_empty d then (0, s)
        else (cond_Zopp neg (digits_value d 0), r)
      else (0, s)
  | EmptyString => (0, s)
  end.

(** [digits [. digits]] or [. digits], then the exponent; the result is
    the mantissa, the decimal exponent and the unread rest. *)
Definition parse_number (s : string) : option (Z * Z * string) :=
  let '(ip, r) := span_digits s in
  let '(fp, r') :=
    match r with
    | String "." r1 => span_digits r1
    | _ => (EmptyString, r)
    end in
  if is_empty ip && is_empty fp then None
  else
    let '(ex, r'') := parse_exponent r' in
    Some (digits_value (ip ++ fp) 0, ex - len fp, r'').

(** [inf], [infinity] and [nan], in any letter case. *)
Definition parse_inf_or_nan (neg : bool) (s : string) : option float :=
  let l := lower s in
  if (l =? "inf")%string || (l =? "infinity")%string then Some (S754_infinity neg)
  else if (l =? "nan")%string then Some S754_nan
  else None.

(** [float(s)] for a string [s]; [None] is the [ValueError] of a string
    that is no float literal. *)
Definition float_of_string (s : string) : option float :=
  match strip_underscores None (c_rstrip (c_lstrip s)) with
  | None => None
  | Some t =>
      if all_chars (fun c => code c <? 128) t then
        let '(neg, body) := take_sign t in
        match parse_number body with
        | Some (m, e, EmptyString) => Some (of_decimal neg m e)
        | Some _ => None
        | None => parse_inf_or_nan neg body
        end
      else None
  end.

(** ** [repr(x)]: the shortest decimal string that reads back as [x] *)

(** [x = num / den] for a positive finite [x = m * 2^e]. *)
Definition num_of (m : positive) (e : Z) : Z := if 0 <=? e then Zpos m * 2 ^ e else Zpos m.
Definition den_of (e : Z) : Z := if 0 <=? e then 1 else 2 ^ (- e).

(** [scaled num den p = floor (num / den / 10^p)]. *)
Definition scaled (num den p : Z) : Z :=
  if 0 <=? p then num / (den * 10 ^ p) else (num * 10 ^ (- p)) / den.

Fixpoint lower_k (fuel : nat) (num den k : Z) : Z :=
  match fuel with
  | O => k
  | S f => if scaled num den k <? 1 then lower_k f num den (k - 1) else k
  end.

Fixpoint raise_k (fuel : nat) (num den k : Z) : Z :=
  match fuel with
  | O => k
  | S f => if 1 <=? scaled num den (k + 1) then raise_k f num den (k + 1) else k
  end.

(** [floor (log10 (num / den))], from the binary logarithms. *)
Definition ilog10 (num den : Z) : Z :=
  let est := ((Z.log2 num - Z.log2 den) * 1233) / 4096 in
  raise_k 4 num den (lower_k 4 num den est).

(** The [n]-digit decimals just below and just above [x]; the one that
    reads back as [x] (the nearer one when both do). *)
Definition candidate (m : positive) (e : Z) (k : Z) (n : Z) : option (Z * Z) :=
  let num := num_of m e in
  let den := den_of e in
  let p := k - n + 1 in
  let lo := scaled num den p in
  let hi := lo + 1 in
  let back d := match of_decimal false d p with
                | S754_finite false m' e' => Pos.eqb m m' && (e =? e')
                | _ => false
                end in
  let lo_nearer :=
    if 0 <=? p then 2 * num <=? (lo + hi) * 10 ^ p * den
    else 2 * num * 10 ^ (- p) <=? (lo + hi) * den in
  match back lo, back hi with
  | true, true => Some (if lo_nearer then lo else hi, p)
  | true, false => Some (lo, p)
  | false, true => Some (hi, p)
  | false, false => None
  end.

Fixpoint shortest (fuel : nat) (m : positive) (e : Z) (k n : Z) : Z * Z :=
  match fuel with
  | O => (scaled (num_of m e) (den_of e) (k - n + 1), k - n + 1)
  | S f =>
      match candidate m e k n with
      | Some r => r
      | None => shortest f m e k (n + 1)
      end
  end.

Fixpoint drop_zeros (fuel : nat) (d p : Z) : Z * Z :=
  match fuel with
  | O => (d, p)
  | S f => if (d mod 10 =? 0) && (0 <? d) then drop_zeros f (d / 10) (p + 1) else (d, p)
  end.

Fixpoint zeros (n : nat) : string :=
  match n with O => EmptyString | S n' => String "0" (zeros n') end.

Fixpoint take (n : nat) (s : string) : string :=
  match n, s with
  | S n', String c s' => String c (take n' s')
  | _, _ => EmptyString
  end.

Fixpoint drop (n : nat) (s : string) : string :=
  match n, s with
  | S n', String c s' => drop n' s'
  | _, _ => s
  end.

(** The digits [ds] with the decimal point after [decpt] of them, in
    the layout of [repr]: exponent form below 1e-4 and from 1e16 on. *)
Definition layout (ds : string) (decpt : Z) : string :=
  if (decpt <=? -4) || (16 <? decpt) then
    let ex := decpt - 1 in
    let mant := match ds with
                | String c EmptyString => ds
                | String c r => String c (String "." r)
                | EmptyString => ds
                end in
    mant ++ "e" ++ (if ex <? 0 then "-" else "+") ++ pad2 (Z.abs ex)
  else if decpt <=? 0 then "0." ++ zeros (Z.to_nat (- decpt)) ++ ds
  else if len ds <=? decpt then ds ++ zeros (Z.to_nat (decpt - len ds)) ++ ".0"
  else take (Z.to_nat decpt) ds ++ "." ++ drop (Z.to_nat decpt) ds.

Definition repr_finite (m : positive) (e : Z) : string :=
  let k := ilog10 (num_of m e) (den_of e) in
  let '(d, p) := shortest 17 m e k 1 in
  let '(d', p') := drop_zeros 20 d p in
  let ds := str_nat d' in
  layout ds (len ds + p').

Definition repr (x : float) : string :=
  match x with
  | S754_nan => "nan"
  | S754_infinity s => if s then "-inf" else "inf"
  | S754_zero s => if s then "-0.0" else "0.0"
  | S754_finite s m e => (if s then "-" else "") ++ repr_finite m e
  end.

End PyFloat.

(* ================================================================== *)
(** * Python values, dictionaries, [repr] and [str] *)
(* ================================================================== *)

(** The values a CSV row, a stored record or a JSON query document holds. *)
#[warnings="-register-all"] Inductive pyval : Type :=
| PNone
| PBool (b : bool)
| PInt (n : Z)
| PFloat (x : PyFloat.float)
| PStr (s : string)
| PList (l : list pyval)
| PDict (d : list (string * pyval)).

(** A [dict] with text keys, in insertion order.  A dictionary built by
    Python has no repeated key; lookups take the first binding.  (The
    [None] key under which [csv.DictReader] files surplus cells is not
    represented.) *)
Definition dict := list (string * pyval).

Module PyVal.
Import PyStr.

Definition quote1 : ascii := chr 39.
Definition quote2 : ascii := chr 34.
Definition backslash : ascii := chr 92.

Definition hex_digit (n : Z) : ascii :=
  if n <? 10 then chr (48 + n) else chr (87 + n).

(** One character inside the quotes of [repr(str)]. *)
Definition escape_chr (q : ascii) (c : ascii) : string :=
  if Ascii.eqb c q || Ascii.eqb c backslash then String backslash (String c EmptyString)
  else if code c =? 9 then String backslash "t"
  else if code c =? 10 then String backslash "n"
  else if code c =? 13 then String backslash "r"
  else if is_printable_chr c then String c EmptyString
  else String backslash (String "x" (String (hex_digit (code c / 16))
                                        (String (hex_digit (code c mod 16)) EmptyString))).

Fixpoint escape (q : ascii) (s : string) : string :=
  match s with
  | EmptyString => EmptyString
  | String c s' => escape_chr q c ++ escape q s'
  end.

(** [repr(s)] of a string: single quotes, unless the text has a single
    quote and no double quote. *)
Definition repr_str (s : string) : string :=
  let q := if any_chars (Ascii.eqb quote1) s && negb (any_chars (Ascii.eqb quote2) s)
           then quote2 else quote1 in
  String q (escape q s ++ String q EmptyString).

Fixpoint py_repr (v : pyval) : string :=
  match v with
  | PNone => "None"
  | PBool b => if b then "True" else "False"
  | PInt n => str_int n
  | PFloat x => PyFloat.repr x
  | PStr s => repr_str s
  | PList l =>
      "[" ++ (fix items (l : list pyval) : string :=
                match l with
                | [] => EmptyString
                | x :: l' =>
                    match l' with
                    | [] => py_repr x
                    | _ :: _ => py_repr x ++ ", " ++ items l'
                    end
                end) l ++ "]"
  | PDict d =>
      "{" ++ (fix items (d : list (string * pyval)) : string :=
                match d with
                | [] => EmptyString
                | (k, x) :: d' =>
                    match d' with
                    | [] => repr_str k ++ ": " ++ py_repr x
                    | _ :: _ => repr_str k ++ ": " ++ py_repr x ++ ", " ++ items d'
                    end
                end) d ++ "}"
  end.

(** [str(v)]. *)
Definition py_str (v : pyval) : string :=
  match v with
  | PStr s => s
  | _ => py_repr v
  end.

(** Truth value of [v] in [if v] and [v or w]. *)
Definition truthy (v : pyval) : bool :=
  match v with
  | PNone => false
  | PBool b => b
  | PInt n => negb (n =? 0)
  | PFloat x => negb (PyFloat.eqb x PyFloat.zero)
  | PStr s => negb (is_empty s)
  | PList l => match l with [] => false | _ => true end
  | PDict d => match d with [] => false | _ => true end
  end.

Definition type_name (v : pyval) : string :=
  match v with
  | PNone => "NoneType"
  | PBool _ => "bool"
  | PInt _ => "int"
  | PFloat _ => "float"
  | PStr _ => "str"
  | PList _ => "list"
  | PDict _ => "dict"
  end.

Definition is_none (v : pyval) : bool :=
  match v with PNone => true | _ => false end.

(** ** Dictionaries *)

(** [d.get(k)], as an option. *)
Fixpoint dict_get (d : dict) (k : string) : option pyval :=
  match d with
  | [] => None
  | (k', v) :: d' => if (k' =? k)%string then Some v else dict_get d' k
  end.

(** [k in d]. *)
Definition dict_mem (d : dict) (k : string) : bool :=
  match dict_get d k with Some _ => true | None => false end.

(** [d.get(k, default)]. *)
Definition dict_get_default (d : dict) (k : string) (default : pyval) : pyval :=
  match dict_get d k with Some v => v | None => default end.

(** [d[k] = v]: the binding is replaced in place, or added at the end. *)
Fixpoint dict_set (d : dict) (k : string) (v : pyval) : dict :=
  match d with
  | [] => [(k, v)]
  | (k', v') :: d' =>
      if (k' =? k)%string then (k, v) :: d' else (k', v') :: dict_set d' k v
  end.

End PyVal.

(* ================================================================== *)
(** * Exceptions *)
(* ================================================================== *)

Inductive exn_class :=
| ValueError | KeyError | AttributeError | TypeError | FileNotFoundError | OtherError.

(** A raised exception: its class and the text of [str(e)]. *)
Record exn := Exn { exn_cls : exn_class ; exn_str : string }.

(** A computation that returns a value or raises. *)
Inductive M (A : Type) : Type :=
| Ret (a : A)
| Raise (e : exn).
Arguments Ret {A} a.
Arguments Raise {A} e.

Definition bind {A B : Type} (c : M A) (k : A -> M B) : M B :=
  match c with
  | Ret a => k a
  | Raise e => Raise e
  end.

(** [try: c  except Exception as e: h e]. *)
Definition try_except {A : Type} (c : M A) (h : exn -> M A) : M A :=
  match c with
  | Ret a => Ret a
  | Raise e => h e
  end.

Declare Scope py_scope.
Delimit Scope py_scope with py.
Notation "x <- c ;; k" := (bind c (fun x => k))
  (at level 61, c at next level, right associativity) : py_scope.
Notation "' p <- c ;; k" := (bind c (fun x => let 'p := x in k))
  (at level 61, p pattern, c at next level, right associativity) : py_scope.
Local Open Scope py_scope.

(** A list comprehension [[x for x in l if p x]] whose test may raise. *)
Fixpoint filterM {A : Type} (p : A -> M bool) (l : list A) : M (list A) :=
  match l with
  | [] => Ret []
  | a :: l' =>
      b <- p a ;;
      r <- filterM p l' ;;
      Ret (if b then a :: r else r)
  end.

Module PyOps.
Import PyStr PyVal.

(** [d[k]]: [KeyError] when the key is absent. *)
Definition dict_getitem (d : dict) (k : string) : M pyval :=
  match dict_get d k with
  | Some v => Ret v
  | None => Raise (Exn KeyError (repr_str k))
  end.

(** [v.strip()]: only a string has the method. *)
Definition strip_method (v : pyval) : M string :=
  match v with
  | PStr s => Ret (strip s)
  | _ => Raise (Exn AttributeError
                  ("'" ++ type_name v ++ "' object has no attribute 'strip'"))
  end.

(** [float(s)] of a string. *)
Definition py_float (s : string) : M PyFloat.float :=
  match PyFloat.float_of_string s with
  | Some x => Ret x
  | None => Raise (Exn ValueError ("could not convert string to float: " ++ repr_str s))
  end.

(** [a, b = v]: the two elements of an iterable of length two (a list,
    the characters of a string, the keys of a dictionary). *)
Definition unpack2 (v : pyval) : M (pyval * pyval) :=
  let of_list (l : list pyval) :=
    match l with
    | [a; b] => Ret (a, b)
    | _ :: _ :: _ :: _ => Raise (Exn ValueError "too many values to unpack (expected 2)")
    | _ => Raise (Exn ValueError
                    ("not enough values to unpack (expected 2, got "
                       ++ str_int (Z.of_nat (List.length l)) ++ ")"))
    end in
  match v with
  | PList l => of_list l
  | PStr s => of_list (map (fun c => PStr (String c EmptyString)) (list_ascii_of_string s))
  | PDict d => of_list (map (fun kv => PStr (fst kv)) d)
  | _ => Raise (Exn TypeError ("cannot unpack non-iterable " ++ type_name v ++ " object"))
  end.

End PyOps.

(* ================================================================== *)
(** * [datetime]: [strptime] and [strftime] for ["%Y-%m-%d %H:%M"] *)
(* ================================================================== *)

Module DateTime.
Import PyStr PyVal.

(** A naive [datetime] at minute resolution (seconds and microseconds
    are zero in every value the tool builds). *)
Record datetime := mkdt { year : Z ; month : Z ; day : Z ; hour : Z ; minute : Z }.

(** ** The regular expression of [_strptime.TimeRE] *)

Inductive regex :=
| Chr (c : ascii)
| Cls (p : ascii -> bool)
| Plus (p : ascii -> bool)
| Seq (r1 r2 : regex)
| Alt (r1 r2 : regex)
| Group (name : string) (r : regex).

Definition captures := list (string * string).

Section Matcher.
Context {A : Type}.

(** Greedy repetition of a character class: the longest run first,
    then shorter ones on backtracking. *)
Fixpoint star_cls (p : ascii -> bool) (s : string)
         (k : string -> string -> option A) : option A :=
  match s with
  | String c s' =>
      if p c then
        match star_cls p s' (fun t r => k (String c t) r) with
        | Some x => Some x
        | None => k EmptyString s
        end
      else k EmptyString s
  | EmptyString => k EmptyString s
  end.

(** Backtracking match of [r] at the start of [s]; the continuation
    gets the text [r] consumed, the captures and the rest, and the
    first alternative that lets the continuation succeed wins. *)
Fixpoint rmatch (r : regex) (s : string) (caps : captures)
         (k : string -> captures -> string -> option A) : option A :=
  match r with
  | Chr c =>
      match s with
      | String c' s' => if Ascii.eqb c c' then k (String c' EmptyString) caps s' else None
      | EmptyString => None
      end
  | Cls p =>
      match s with
      | String c' s' => if p c' then k (String c' EmptyString) caps s' else None
      | EmptyString => None
      end
  | Plus p =>
      match s with
      | String c' s' =>
          if p c' then star_cls p s' (fun t rest => k (String c' t) caps rest) else None
      | EmptyString => None
      end
  | Seq r1 r2 =>
      rmatch r1 s caps (fun t1 caps1 s1 =>
        rmatch r2 s1 caps1 (fun t2 caps2 s2 => k (t1 ++ t2) caps2 s2))
  | Alt r1 r2 =>
      match rmatch r1 s caps k with
      | Some x => Some x
      | None => rmatch r2 s caps k
      end
  | Group name r1 =>
      rmatch r1 s caps (fun t caps1 s1 => k t ((name, t) :: caps1) s1)
  end.
End Matcher.

Definition digit : regex := Cls is_decimal.
Definition range (lo hi : ascii) : regex := Cls (in_range (code lo) (code hi)).

(** [(?P<Y>\d\d\d\d)] *)
Definition re_Y : regex := Group "Y" (Seq digit (Seq digit (Seq digit digit))).
(** [(?P<m>1[0-2]|0[1-9]|[1-9])] *)
Definition re_m : regex :=
  Group "m" (Alt (Seq (Chr "1") (range "0" "2"))
            (Alt (Seq (Chr "0") (range "1" "9"))
                 (range "1" "9"))).
(** [(?P<d>3[0-1]|[1-2]\d|0[1-9]|[1-9]| [1-9])] *)
Definition re_d : regex :=
  Group "d" (Alt (Seq (Chr "3") (range "0" "1"))
            (Alt (Seq (range "1" "2") digit)
            (Alt (Seq (Chr "0") (range "1" "9"))
            (Alt (range "1" "9")
                 (Seq (Chr " ") (range "1" "9")))))).
(** [(?P<H>2[0-3]|[0-1]\d|\d)] *)
Definition re_H : regex :=
  Group "H" (Alt (Seq (Chr "2") (range "0" "3"))
            (Alt (Seq (range "0" "1") digit)
                 digit)).
(** [(?P<M>[0-5]\d|\d)] *)
Definition re_M : regex := Group "M" (Alt (Seq (range "0" "5") digit) digit).

(** The pattern of the format ["%Y-%m-%d %H:%M"]: the blank of the
    format stands for [\s+]. *)
Definition format_regex : regex :=
  Seq re_Y (Seq (Chr "-") (Seq re_m (Seq (Chr "-") (Seq re_d
    (Seq (Plus is_space) (Seq re_H (Seq (Chr ":") re_M))))))).

(** [format_regex.match(s)]: the captures and the unmatched rest. *)
Definition regex_match (s : string) : option (captures * string) :=
  rmatch format_regex s [] (fun _ caps rest => Some (caps, rest)).

Fixpoint group (caps : captures) (name : string) : string :=
  match caps with
  | [] => EmptyString
  | (n, t) :: caps' => if (n =? name)%string then t else group caps' name
  end.

(** [int(t)] of a captured group: digits, after an optional blank. *)
Definition int_of_group (t : string) : Z := digits_value (strip t) 0.

Definition is_leap (y : Z) : bool :=
  (y mod 4 =? 0) && (negb (y mod 100 =? 0) || (y mod 400 =? 0)).

Definition days_in_month (y m : Z) : Z :=
  if m =? 2 then (if is_leap y then 29 else 28)
  else if (m =? 4) || (m =? 6) || (m =? 9) || (m =? 11) then 30
  else 31.

Definition format_name : string := "'%Y-%m-%d %H:%M'".

(** [datetime.strptime(s, "%Y-%m-%d %H:%M")]. *)
Definition strptime (s : string) : M datetime :=
  match regex_match s with
  | None =>
      Raise (Exn ValueError
               ("time data " ++ repr_str s ++ " does not match format " ++ format_name))
  | Some (caps, rest) =>
      if negb (is_empty rest) then
        Raise (Exn ValueError ("unconverted data remains: " ++ rest))
      else
        let y := int_of_group (group caps "Y") in
        let m := int_of_group (group caps "m") in
        let d := int_of_group (group caps "d") in
        let hh := int_of_group (group caps "H") in
        let mm := int_of_group (group caps "M") in
        if negb ((1 <=? y) && (y <=? 9999)) then
          Raise (Exn ValueError ("year " ++ str_int y ++ " is out of range"))
        else if negb ((1 <=? m) && (m <=? 12)) then
          Raise (Exn ValueError "month must be in 1..12")
        else if negb ((1 <=? d) && (d <=? days_in_month y m)) then
          Raise (Exn ValueError "day is out of range for month")
        else Ret (mkdt y m d hh mm)
  end.

(** [dt.strftime("%Y-%m-%d %H:%M")].  [%m], [%d], [%H] and [%M] are
    two digits; [%Y] is the year as the C library prints it, which the
    GNU C library does without leading zeros. *)
Definition strftime (dt : datetime) : string :=
  str_int (year dt) ++ "-" ++ pad2 (month dt) ++ "-" ++ pad2 (day dt)
    ++ " " ++ pad2 (hour dt) ++ ":" ++ pad2 (minute dt).

(** Comparison of two naive datetimes: lexicographic on the fields. *)
Definition compare (a b : datetime) : comparison :=
  match year a ?= year b with
  | Eq => match month a ?= month b with
          | Eq => match day a ?= day b with
                  | Eq => match hour a ?= hour b with
                          | Eq => minute a ?= minute b
                          | c => c
                          end
                  | c => c
                  end
          | c => c
          end
  | c => c
  end.

Definition leb (a b : datetime) : bool :=
  match compare a b with Gt => false | _ => true end.

Definition ltb (a b : datetime) : bool :=
  match compare a b with Lt => true | _ => false end.

End DateTime.

(* ================================================================== *)
(** * [flight_tool.py] *)
(* ================================================================== *)

Import PyStr PyVal PyOps.

Definition REQUIRED_FIELDS : list string :=
  ["flight_id"; "origin"; "destination"; "departure_datetime"; "arrival_datetime"; "price"].

(** [parse_iso_datetime(s)]: strip, refuse the empty text, then
    [strptime]; every failure of [strptime] is raised again as the
    tool's own [ValueError]. *)
Definition parse_iso_datetime (v : pyval) : M DateTime.datetime :=
  s <- strip_method v ;;
  if is_empty s then Raise (Exn ValueError "empty datetime")
  else
    try_except (DateTime.strptime s)
      (fun _ => Raise (Exn ValueError
                         ("invalid datetime format (expected 'YYYY-MM-DD HH:MM'): " ++ s))).

(** The test of the presence loop:
    [f not in row or row[f] is None or str(row[f]).strip() == ""]. *)
Definition field_missing (row : dict) (f : string) : bool :=
  match dict_get row f with
  | None => true
  | Some v => is_none v || is_empty (strip (py_str v))
  end.

(** The presence loop: the first required field that is missing. *)
Fixpoint first_missing (fields : list string) (row : dict) : option string :=
  match fields with
  | [] => None
  | f :: fields' => if field_missing row f then Some f else first_missing fields' row
  end.

(** The loop that copies the extra fields of the row into the record. *)
Definition copy_extra_fields (row : dict) (flight : dict) : dict :=
  fold_left
    (fun (flight : dict) (kv : string * pyval) =>
       let '(k, v) := kv in
       if dict_mem flight k || is_none v then flight
       else
         let s := strip (py_str v) in
         if negb (is_empty s) then dict_set flight k (PStr s) else flight)
    row flight.

(** [validate_row(row, file, lineno)]: [(Some flight, "")] on success and
    [(None, error_msg)] on failure. *)
Definition validate_row (row : dict) (file : string) (lineno : Z)
  : M (option dict * string) :=
  match first_missing REQUIRED_FIELDS row with
  | Some f => Ret (None, "missing required field '" ++ f ++ "'")
  | None =>
    let fid := strip (py_str (dict_get_default row "flight_id" (PStr ""))) in
    if negb ((2 <=? len fid) && (len fid <=? 8) && isalnum fid) then
      Ret (None, "flight_id must be 2-8 alphanumeric characters")
    else
    let origin := strip (py_str (dict_get_default row "origin" (PStr ""))) in
    let dest := strip (py_str (dict_get_default row "destination" (PStr ""))) in
    if negb ((len origin =? 3) && isalpha origin && isupper origin) then
      Ret (None, "origin must be 3 uppercase letters")
    else if negb ((len dest =? 3) && isalpha dest && isupper dest) then
      Ret (None, "destination must be 3 uppercase letters")
    else
    match (v <- dict_getitem row "departure_datetime" ;; parse_iso_datetime v) with
    | Raise e => Ret (None, "departure_datetime parse error: " ++ exn_str e)
    | Ret dep =>
    match (v <- dict_getitem row "arrival_datetime" ;; parse_iso_datetime v) with
    | Raise e => Ret (None, "arrival_datetime parse error: " ++ exn_str e)
    | Ret arr =>
    if DateTime.leb arr dep then
      Ret (None, "arrival_datetime must be after departure_datetime")
    else
    match py_float (strip (py_str (dict_get_default row "price" PNone))) with
    | Raise _ => Ret (None, "price must be a positive float")
    | Ret price =>
    if PyFloat.leb price PyFloat.zero then
      Ret (None, "price must be a positive number")
    else
    let flight : dict :=
      [ ("flight_id", PStr fid);
        ("origin", PStr origin);
        ("destination", PStr dest);
        ("departure_datetime", PStr (DateTime.strftime dep));
        ("arrival_datetime", PStr (DateTime.strftime arr));
        ("price", PFloat price) ] in
    Ret (Some (copy_extra_fields row flight), "")
    end end end
  end.

(** ** Reading the CSV files *)

(** What a path gives when it is opened with [csv.DictReader]: [open]
    raises, or the reader yields rows and then ends or raises. *)
Inductive source :=
| OpenFails (e : exn)
| Reads (rows : list dict) (failure : option exn).

(** The two [except] clauses around one file. *)
Definition file_error (p : string) (e : exn) : string :=
  match exn_cls e with
  | FileNotFoundError => "file not found: " ++ p
  | _ => p ++ ": error reading file: " ++ exn_str e
  end.

Definition row_error (p : string) (lineno : Z) (err : string) (row : dict) : string :=
  p ++ ":" ++ str_int lineno ++ ": " ++ err ++ " -- " ++ py_repr (PDict row).

(** The loop over the rows of one file, from line [lineno] on; the lists
    [valid] and [errors] are the ones being appended to.  The third
    component is the exception that ended the loop, if any. *)
Fixpoint read_rows (p : string) (lineno : Z) (rows : list dict)
         (valid : list dict) (errors : list string)
  : list dict * list string * option exn :=
  match rows with
  | [] => (valid, errors, None)
  | row :: rows' =>
      match validate_row row p lineno with
      | Raise e => (valid, errors, Some e)
      | Ret (flight, err) =>
          (* [if flight:] is the truth value of the record *)
          match flight with
          | Some d =>
              if truthy (PDict d) then
                read_rows p (lineno + 1) rows' (valid ++ [d])%list errors
              else
                read_rows p (lineno + 1) rows' valid
                          (errors ++ [row_error p lineno err row])%list
          | None =>
              read_rows p (lineno + 1) rows' valid
                        (errors ++ [row_error p lineno err row])%list
          end
      end
  end.

(** One iteration of the loop over the paths. *)
Definition read_file (fs : string -> source) (p : string)
           (valid : list dict) (errors : list string) : list dict * list string :=
  match fs p with
  | OpenFails e => (valid, (errors ++ [file_error p e])%list)
  | Reads rows failure =>
      match read_rows p 2 rows valid errors with
      | (valid', errors', Some e) => (valid', (errors' ++ [file_error p e])%list)
      | (valid', errors', None) =>
          match failure with
          | Some e => (valid', (errors' ++ [file_error p e])%list)
          | None => (valid', errors')
          end
      end
  end.

(** [parse_csv_files(paths)], for the file system [fs]. *)
Definition parse_csv_files (fs : string -> source) (paths : list string)
  : list dict * list string :=
  fold_left (fun st p => read_file fs p (fst st) (snd st)) paths ([], []).

(** ** Queries *)

(** [q.get("filter") or {}], then [.items()]. *)
Definition filter_items (q : dict) : M dict :=
  match dict_get q "filter" with
  | None => Ret []
  | Some v =>
      if truthy v then
        match v with
        | PDict d => Ret d
        | _ => Raise (Exn AttributeError
                        ("'" ++ type_name v ++ "' object has no attribute 'items'"))
        end
      else Ret []
  end.

(** The test of one equality filter on one record. *)
Definition field_matches (k : string) (v : pyval) (f : dict) : bool :=
  (lower (py_str (dict_get_default f k (PStr ""))) =? lower (py_str v))%string.

(** The loop over the pairs of the filter. *)
Definition equality_filters (filt : dict) (flights : list dict) : list dict :=
  fold_left (fun res kv => filter (field_matches (fst kv) (snd kv)) res) filt flights.

Definition departure_between (q : dict) (res : list dict) : M (list dict) :=
  if dict_mem q "departure_between" then
    bounds <- dict_getitem q "departure_between" ;;
    '(start, end_) <- unpack2 bounds ;;
    start_dt <- parse_iso_datetime start ;;
    end_dt <- parse_iso_datetime end_ ;;
    filterM (fun f =>
               v <- dict_getitem f "departure" ;;
               d <- parse_iso_datetime v ;;
               Ret (DateTime.leb start_dt d && DateTime.leb d end_dt)) res
  else Ret res.

Definition arrival_before (q : dict) (res : list dict) : M (list dict) :=
  if dict_mem q "arrival_before" then
    bound <- dict_getitem q "arrival_before" ;;
    end_dt <- parse_iso_datetime bound ;;
    filterM (fun f =>
               v <- dict_getitem f "arrival" ;;
               d <- parse_iso_datetime v ;;
               Ret (DateTime.leb d end_dt)) res
  else Ret res.

Definition arrival_after (q : dict) (res : list dict) : M (list dict) :=
  if dict_mem q "arrival_after" then
    bound <- dict_getitem q "arrival_after" ;;
    start_dt <- parse_iso_datetime bound ;;
    filterM (fun f =>
               v <- dict_getitem f "arrival" ;;
               d <- parse_iso_datetime v ;;
               Ret (DateTime.leb start_dt d)) res
  else Ret res.

(** [apply_filters(flights, q)]. *)
Definition apply_filters (flights : list dict) (q : dict) : M (list dict) :=
  filt <- filter_items q ;;
  let res := equality_filters filt flights in
  res <- departure_between q res ;;
  res <- arrival_before q res ;;
  res <- arrival_after q res ;;
  Ret res.

(** [q.get("name") or f"q{qi}"]. *)
Definition query_name (q : dict) (qi : Z) : pyval :=
  match dict_get q "name" with
  | Some v => if truthy v then v else PStr ("q" ++ str_int qi)
  | None => PStr ("q" ++ str_int qi)
  end.

(** One query of the batch; an element that is no object has no [get]. *)
Definition run_query (flights : list dict) (qi : Z) (qv : pyval) : M pyval :=
  match qv with
  | PDict q =>
      let name := query_name q qi in
      matched <- apply_filters flights q ;;
      Ret (PDict [ ("name", name);
                   ("count", PInt (Z.of_nat (List.length matched)));
                   ("results", PList (map PDict matched)) ])
  | _ => Raise (Exn AttributeError
                  ("'" ++ type_name qv ++ "' object has no attribute 'get'"))
  end.

(** The loop [for qi, q in enumerate(data, start=qi)]. *)
Fixpoint run_queries_from (flights : list dict) (qi : Z) (data : list pyval)
  : M (list pyval) :=
  match data with
  | [] => Ret []
  | qv :: data' =>
      r <- run_query flights qi qv ;;
      rs <- run_queries_from flights (qi + 1) data' ;;
      Ret (r :: rs)
  end.

(** [run_queries(flights, queries_path)], for the document [data] that
    [json.load] read from [queries_path]. *)
Definition run_queries (flights : list dict) (data : pyval) : M pyval :=
  match data with
  | PList qs =>
      results <- run_queries_from flights 1 qs ;;
      Ret (PDict [ ("queries", PList results) ])
  | _ => Raise (Exn ValueError "queries JSON must be a list of query objects")
  end.

(* ================================================================== *)
(** * The rules of the specification *)
(* ================================================================== *)

(** The rules of the record validator as the specification words them,
    independent of the code above; the theorems compare the two. *)
Module Spec.

Definition num2 (a b : ascii) : Z := 10 * digit_val a + digit_val b.

Definition num4 (a b c d : ascii) : Z :=
  1000 * digit_val a + 100 * digit_val b + 10 * digit_val c + digit_val d.

(** The fields of a text in the exact lexical form [YYYY-MM-DD HH:MM]:
    sixteen characters, the digits and the three separators in place. *)
Definition datetime_fields (s : string) : option DateTime.datetime :=
  match s with
  | String y1 (String y2 (String y3 (String y4 (String s1
    (String m1 (String m2 (String s2
    (String d1 (String d2 (String s3
    (String h1 (String h2 (String s4
    (String n1 (String n2 EmptyString))))))))))))))) =>
      if all_chars is_decimal
           (String y1 (String y2 (String y3 (String y4 (String m1 (String m2
           (String d1 (String d2 (String h1 (String h2 (String n1 (String n2
            EmptyString))))))))))))
         && Ascii.eqb s1 "-" && Ascii.eqb s2 "-" && Ascii.eqb s3 " " && Ascii.eqb s4 ":"
      then Some (DateTime.mkdt (num4 y1 y2 y3 y4) (num2 m1 m2) (num2 d1 d2)
                               (num2 h1 h2) (num2 n1 n2))
      else None
  | _ => None
  end.

(** Month 01-12, day valid for the month and year, hour 00-23,
    minute 00-59. *)
Definition fields_in_range (dt : DateTime.datetime) : bool :=
  (1 <=? DateTime.month dt) && (DateTime.month dt <=? 12)
  && (1 <=? DateTime.day dt)
  && (DateTime.day dt <=? DateTime.days_in_month (DateTime.year dt) (DateTime.month dt))
  && (DateTime.hour dt <=? 23) && (DateTime.minute dt <=? 59).

(** A text of the grammar of rule 4. *)
Definition canonical_datetime (s : string) : bool :=
  match datetime_fields s with
  | Some dt => fields_in_range dt
  | None => false
  end.

(** The trimmed text of a field of the raw row. *)
Definition field_text (row : dict) (f : string) : option string :=
  match dict_get row f with
  | Some (PStr s) => Some (strip s)
  | _ => None
  end.

(** Rule 1 for one field: present and, once trimmed, not empty. *)
Definition present (row : dict) (f : string) : bool :=
  match field_text row f with
  | Some t => negb (is_empty t)
  | None => false
  end.

(** A field that is missing: absent, [None], or empty once trimmed. *)
Definition absent_none_or_blank (row : dict) (f : string) : Prop :=
  dict_get row f = None
  \/ dict_get row f = Some PNone
  \/ exists s, dict_get row f = Some (PStr s) /\ strip s = EmptyString.

(** Rule 2. *)
Definition flight_id_ok (t : string) : bool :=
  (2 <=? len t) && (len t <=? 8) && all_chars is_alnum_chr t.

(** Rule 3, for the origin and for the destination. *)
Definition airport_ok (t : string) : bool :=
  (len t =? 3) && all_chars is_upper_chr t.

(** Rule 6. *)
Definition price_ok (t : string) : bool :=
  match PyFloat.float_of_string t with
  | Some x => PyFloat.ltb PyFloat.zero x
  | None => false
  end.

Definition text_or_empty (row : dict) (f : string) : string :=
  match field_text row f with Some t => t | None => EmptyString end.

(** Rules 4 and 5 on the two trimmed datetime texts. *)
Definition datetimes_ok (dep arr : string) : bool :=
  match datetime_fields dep, datetime_fields arr with
  | Some d, Some a =>
      fields_in_range d && fields_in_range a && DateTime.ltb d a
  | _, _ => false
  end.

(** A row that satisfies every rule of the validation sequence. *)
Definition well_formed_row (row : dict) : bool :=
  forallb (present row) REQUIRED_FIELDS
  && flight_id_ok (text_or_empty row "flight_id")
  && airport_ok (text_or_empty row "origin")
  && airport_ok (text_or_empty row "destination")
  && datetimes_ok (text_or_empty row "departure_datetime")
                  (text_or_empty row "arrival_datetime")
  && price_ok (text_or_empty row "price").

(** The year of a datetime text is written with four significant
    digits: 1000 to 9999. *)
Definition year_from_1000 (s : string) : bool :=
  match datetime_fields s with
  | Some dt => 1000 <=? DateTime.year dt
  | None => false
  end.

(** The year of a datetime text is not 0000: [datetime] starts at the
    year 1. *)
Definition year_from_1 (s : string) : bool :=
  match datetime_fields s with
  | Some dt => 1 <=? DateTime.year dt
  | None => false
  end.

(** The equality filter as the specification words it: every pair of
    the filter matches, as lowercased text, a missing field being the
    empty text. *)
Definition record_matches (filt : dict) (f : dict) : bool :=
  forallb (fun kv =>
             (lower (py_str (dict_get_default f (fst kv) (PStr "")))
              =? lower (py_str (snd kv)))%string) filt.

End Spec.

(* ================================================================== *)
(** * Definitions for the statements *)
(* ================================================================== *)

Definition digit_chars : list ascii :=
  ["0"; "1"; "2"; "3"; "4"; "5"; "6"; "7"; "8"; "9"]%char.

(** The characters a text that [strptime] accepts is made of. *)
Definition datetime_chr (c : ascii) : bool :=
  is_decimal c || Ascii.eqb c "-" || Ascii.eqb c ":" || is_space c.

(** Every character a regular expression can consume satisfies [P]. *)
Fixpoint regex_chars (P : ascii -> bool) (r : DateTime.regex) : Prop :=
  match r with
  | DateTime.Chr c => P c = true
  | DateTime.Cls p | DateTime.Plus p => forall c, p c = true -> P c = true
  | DateTime.Seq r1 r2 | DateTime.Alt r1 r2 => regex_chars P r1 /\ regex_chars P r2
  | DateTime.Group _ r1 => regex_chars P r1
  end.

(** The part of [validate_row] after rules 1 to 3, for the trimmed
    [flight_id], [origin] and [destination]: the same text as in
    [validate_row], named so that lemmas can speak of it. *)
Definition datetime_and_price_rules (row : dict) (fid origin dest : string)
  : M (option dict * string) :=
  match bind (dict_getitem row "departure_datetime") (fun v => parse_iso_datetime v) with
  | Raise e => Ret (None, "departure_datetime parse error: " ++ exn_str e)
  | Ret dep =>
  match bind (dict_getitem row "arrival_datetime") (fun v => parse_iso_datetime v) with
  | Raise e => Ret (None, "arrival_datetime parse error: " ++ exn_str e)
  | Ret arr =>
  if DateTime.leb arr dep then
    Ret (None, "arrival_datetime must be after departure_datetime")
  else
  match py_float (strip (py_str (dict_get_default row "price" PNone))) with
  | Raise _ => Ret (None, "price must be a positive float")
  | Ret price =>
  if PyFloat.leb price PyFloat.zero then
    Ret (None, "price must be a positive number")
  else
  Ret (Some (copy_extra_fields row
               [ ("flight_id", PStr fid);
                 ("origin", PStr origin);
                 ("destination", PStr dest);
                 ("departure_datetime", PStr (DateTime.strftime dep));
                 ("arrival_datetime", PStr (DateTime.strftime arr));
                 ("price", PFloat price) ]), EmptyString)
  end end end.

Definition result_entry (name : pyval) (m : list dict) : pyval :=
  PDict [ ("name", name);
          ("count", PInt (Z.of_nat (List.length m)));
          ("results", PList (map PDict m)) ].

(** What one row contributes, by the result of [validate_row] on it. *)
Definition row_valid (p : string) (lineno : Z) (row : dict) : list dict :=
  match validate_row row p lineno with
  | Ret (Some d, _) => [d]
  | _ => []
  end.

Definition row_errors (p : string) (lineno : Z) (row : dict) : list string :=
  match validate_row row p lineno with
  | Ret (None, err) => [row_error p lineno err row]
  | _ => []
  end.

(** What the rows of one file contribute, the first row being on line
    [lineno]: the records and the error entries, in line order. *)
Fixpoint rows_valid (p : string) (lineno : Z) (rows : list dict) : list dict :=
  match rows with
  | [] => []
  | row :: rows' => row_valid p lineno row ++ rows_valid p (lineno + 1) rows'
  end.

Fixpoint rows_errors (p : string) (lineno : Z) (rows : list dict) : list string :=
  match rows with
  | [] => []
  | row :: rows' => row_errors p lineno row ++ rows_errors p (lineno + 1) rows'
  end.

(** What one source contributes. *)
Definition source_valid (fs : string -> source) (p : string) : list dict :=
  match fs p with
  | OpenFails _ => []
  | Reads rows _ => rows_valid p 2 rows
  end.

Definition source_errors (fs : string -> source) (p : string) : list string :=
  match fs p with
  | OpenFails e => [file_error p e]
  | Reads rows failure =>
      rows_errors p 2 rows
        ++ match failure with Some e => [file_error p e] | None => [] end
  end.

(** ** Sample rows, records and queries *)

Definition row_aa100 : dict :=
  [ ("flight_id", PStr "AA100"); ("origin", PStr "JFK"); ("destination", PStr "LAX");
    ("departure_datetime", PStr "2025-11-20 08:00");
    ("arrival_datetime", PStr "2025-11-20 11:00");
    ("price", PStr "199.99") ].

(** The two records of the query tests, as [validate_row] builds them. *)
Definition row_ua400 : dict :=
  [ ("flight_id", PStr "UA400"); ("origin", PStr "SFO"); ("destination", PStr "SEA");
    ("departure_datetime", PStr "2025-11-23 07:30");
    ("arrival_datetime", PStr "2025-11-23 09:00");
    ("price", PStr "120.00") ].

Definition row_missing_origin : dict :=
  [ ("flight_id", PStr "BA200"); ("origin", PStr "");
    ("destination", PStr "LHR");
    ("departure_datetime", PStr "2025-11-21 09:00");
    ("arrival_datetime", PStr "2025-11-21 19:00");
    ("price", PStr "299.50") ].

Definition row_with_times (dep arr : string) : dict :=
  [ ("flight_id", PStr "AA100"); ("origin", PStr "JFK"); ("destination", PStr "LAX");
    ("departure_datetime", PStr dep); ("arrival_datetime", PStr arr);
    ("price", PStr "199.99") ].

Definition row_price (price : string) : dict :=
  [ ("flight_id", PStr "AA100"); ("origin", PStr "JFK"); ("destination", PStr "LAX");
    ("departure_datetime", PStr "2025-11-20 08:00");
    ("arrival_datetime", PStr "2025-11-20 11:00");
    ("price", PStr price) ].

(** A row of the year 0000 satisfies the rules as they are worded and is
    rejected: [datetime] has no year 0. *)
Definition row_year_0000 : dict :=
  [ ("flight_id", PStr "AA100"); ("origin", PStr "JFK"); ("destination", PStr "LAX");
    ("departure_datetime", PStr "0000-01-01 00:00");
    ("arrival_datetime", PStr "0000-01-01 00:01");
    ("price", PStr "199.99") ].

(** A row of the year 0999: accepted, with a year of three significant
    digits. *)
Definition row_year_0999 : dict :=
  [ ("flight_id", PStr " AA100 "); ("origin", PStr "JFK"); ("destination", PStr "LAX");
    ("departure_datetime", PStr "0999-12-31 23:00");
    ("arrival_datetime", PStr "1000-01-01 01:00");
    ("price", PStr "199.99") ].

Definition flight_aa100 : dict :=
  [ ("flight_id", PStr "AA100"); ("origin", PStr "JFK"); ("destination", PStr "LAX");
    ("departure_datetime", PStr "2025-11-20 08:00");
    ("arrival_datetime", PStr "2025-11-20 11:00");
    ("price", PFloat (S754_finite false 7036522574045512 (-45))) ].

Definition flight_ua400 : dict :=
  [ ("flight_id", PStr "UA400"); ("origin", PStr "SFO"); ("destination", PStr "SEA");
    ("departure_datetime", PStr "2025-11-23 07:30");
    ("arrival_datetime", PStr "2025-11-23 09:00");
    ("price", PFloat (S754_finite false 8444249301319680 (-46))) ].

Definition query_november : dict :=
  [ ("departure_between", PList [PStr "2025-11-01 00:00"; PStr "2025-11-30 23:59"]) ].

Definition query_origin_jfk : dict := [ ("filter", PDict [ ("origin", PStr "jfk") ]) ].

(** The three rows of the end-to-end scenario, then a file that does not
    exist. *)
Definition sample_fs (p : string) : source :=
  if (p =? "flights.csv")%string then
    Reads [ row_aa100; row_missing_origin;
            row_with_times "2025-11-22 15:00" "2025-11-22 14:00" ] None
  else OpenFails (Exn FileNotFoundError "[Errno 2] No such file or directory").

(* ================================================================== *)
(** * Definitions for further properties *)
(* ================================================================== *)

(** The declarative reading of a regular expression: it consumes the
    text [t] and extends the captures [caps] to [caps']. *)
Fixpoint matches (r : DateTime.regex) (t : string)
         (caps caps' : DateTime.captures) : Prop :=
  match r with
  | DateTime.Chr c => t = String c EmptyString /\ caps' = caps
  | DateTime.Cls p => exists c, t = String c EmptyString /\ p c = true /\ caps' = caps
  | DateTime.Plus p => t <> EmptyString /\ all_chars p t = true /\ caps' = caps
  | DateTime.Seq r1 r2 =>
      exists t1 t2 caps1,
        t = t1 ++ t2 /\ matches r1 t1 caps caps1 /\ matches r2 t2 caps1 caps'
  | DateTime.Alt r1 r2 => matches r1 t caps caps' \/ matches r2 t caps caps'
  | DateTime.Group name r1 =>
      exists caps1, matches r1 t caps caps1 /\ caps' = (name, t) :: caps1
  end.

(** A datetime of the calendar: the ranges [datetime] itself enforces. *)
Definition valid_datetime (dt : DateTime.datetime) : Prop :=
  1 <= DateTime.year dt <= 9999
  /\ 1 <= DateTime.month dt <= 12
  /\ 1 <= DateTime.day dt <= DateTime.days_in_month (DateTime.year dt) (DateTime.month dt)
  /\ 0 <= DateTime.hour dt <= 23
  /\ 0 <= DateTime.minute dt <= 59.

(** One or two decimal digits; for the day, also a blank and a digit. *)
Definition short_number (t : string) : Prop :=
  1 <= len t <= 2 /\ all_chars is_decimal t = true.

Definition day_text (t : string) : Prop :=
  short_number t
  \/ exists c, t = String " " (String c EmptyString) /\ is_decimal c = true.

(** The [n] integers from [lo] on. *)
Definition zrange (lo n : Z) : list Z :=
  map (fun i => lo + Z.of_nat i) (seq 0 (Z.to_nat n)).

(** [str(y)] is four digits that read as [y]. *)
Definition four_digits (y : Z) : bool :=
  match str_int y with
  | String a (String b (String c (String d EmptyString))) =>
      is_decimal a && is_decimal b && is_decimal c && is_decimal d
      && (Spec.num4 a b c d =? y)
  | _ => false
  end.

(** ["%02d" % n] is two digits that read as [n]. *)
Definition two_digits (n : Z) : bool :=
  match pad2 n with
  | String a (String b EmptyString) =>
      is_decimal a && is_decimal b && (Spec.num2 a b =? n)
  | _ => false
  end.

(** The six keys every record starts with. *)
Definition canonical_field (k : string) : bool :=
  existsb (String.eqb k) REQUIRED_FIELDS.

(** The extra columns of a row as they appear in its record: the cells
    under other names that are not [None] and not blank, trimmed, in the
    order of the row. *)
Definition extra_fields (row : dict) : dict :=
  flat_map
    (fun kv : string * pyval =>
       if canonical_field (fst kv) || is_none (snd kv)
          || is_empty (strip (py_str (snd kv)))
       then []
       else [ (fst kv, PStr (strip (py_str (snd kv)))) ])
    row.

(** The six entries of a record, in the order [validate_row] writes them. *)
Definition record_head (fid origin dest : string) (dep arr : DateTime.datetime)
           (price : PyFloat.float) : dict :=
  [ ("flight_id", PStr fid);
    ("origin", PStr origin);
    ("destination", PStr dest);
    ("departure_datetime", PStr (DateTime.strftime dep));
    ("arrival_datetime", PStr (DateTime.strftime arr));
    ("price", PFloat price) ].

(** A row with every text cell trimmed. *)
Definition trim_val (v : pyval) : pyval :=
  match v with
  | PStr s => PStr (strip s)
  | _ => v
  end.

Definition trim_row (row : dict) : dict :=
  map (fun kv : string * pyval => (fst kv, trim_val (snd kv))) row.

(** A trimmed airport code that cannot pass: not three characters, or a
    character that is no letter, or a lowercase letter. *)
Definition airport_bad (t : string) : bool :=
  negb (len t =? 3)
  || any_chars (fun c => negb (is_alpha_chr c)) t
  || any_chars is_lower_chr t.

(** [r] is [l] with some elements left out, the order kept. *)
Inductive subseq {A : Type} : list A -> list A -> Prop :=
| subseq_nil : subseq [] []
| subseq_skip (a : A) (r l : list A) : subseq r l -> subseq r (a :: l)
| subseq_keep (a : A) (r l : list A) : subseq r l -> subseq (a :: r) (a :: l).

(** The bounds of the three range clauses of a query, read as
    [apply_filters] reads them before it looks at any record: [None]
    when the clause is absent. *)
Definition departure_bounds (q : dict)
  : M (option (DateTime.datetime * DateTime.datetime)) :=
  if dict_mem q "departure_between" then
    bounds <- dict_getitem q "departure_between" ;;
    '(start, end_) <- unpack2 bounds ;;
    start_dt <- parse_iso_datetime start ;;
    end_dt <- parse_iso_datetime end_ ;;
    Ret (Some (start_dt, end_dt))
  else Ret None.

Definition single_bound (q : dict) (k : string) : M (option DateTime.datetime) :=
  if dict_mem q k then
    bound <- dict_getitem q k ;;
    dt <- parse_iso_datetime bound ;;
    Ret (Some dt)
  else Ret None.

(** The datetime a record holds under the key [k], when it holds one
    that parses. *)
Definition record_time (f : dict) (k : string) : option DateTime.datetime :=
  match dict_get f k with
  | Some v => match parse_iso_datetime v with
              | Ret d => Some d
              | Raise _ => None
              end
  | None => None
  end.

(** The tests of the three range clauses on one record. *)
Definition between_test (b : option (DateTime.datetime * DateTime.datetime))
           (f : dict) : bool :=
  match b with
  | None => true
  | Some (s, e) =>
      match record_time f "departure" with
      | Some d => DateTime.leb s d && DateTime.leb d e
      | None => false
      end
  end.

Definition before_test (b : option DateTime.datetime) (f : dict) : bool :=
  match b with
  | None => true
  | Some e =>
      match record_time f "arrival" with
      | Some a => DateTime.leb a e
      | None => false
      end
  end.

Definition after_test (b : option DateTime.datetime) (f : dict) : bool :=
  match b with
  | None => true
  | Some s =>
      match record_time f "arrival" with
      | Some a => DateTime.leb s a
      | None => false
      end
  end.

(** A record the range clauses in force can read. *)
Definition readable_for
           (db : option (DateTime.datetime * DateTime.datetime))
           (bb ab : option DateTime.datetime) (f : dict) : Prop :=
  (db <> None -> record_time f "departure" <> None)
  /\ ((bb <> None \/ ab <> None) -> record_time f "arrival" <> None).

(** Each range clause lets the list through, or narrows it with a test
    that depends on the query alone, or raises whatever the list. *)
Definition clause_shape (stage : list dict -> M (list dict)) : Prop :=
  (forall res, stage res = Ret res)
  \/ (exists p : dict -> M bool, forall res, stage res = filterM p res)
  \/ (exists e, forall res, stage res = Raise e).

(** How many entries a source has: its rows, and one more when opening or
    reading it fails. *)
Definition source_entries (fs : string -> source) (p : string) : nat :=
  match fs p with
  | OpenFails _ => 1
  | Reads rows failure =>
      List.length rows + match failure with Some _ => 1 | None => 0 end
  end.

(** ** More sample rows *)

Definition row_with_extras : dict :=
  [ ("flight_id", PStr "AA100"); ("gate", PStr " B12 "); ("origin", PStr "JFK");
    ("destination", PStr "LAX");
    ("departure_datetime", PStr "2025-11-20 08:00");
    ("arrival_datetime", PStr "2025-11-20 11:00");
    ("note", PStr "   "); ("carrier", PNone);
    ("price", PStr "199.99"); ("seats", PStr "180") ].

Definition row_bad_flight_id : dict :=
  [ ("flight_id", PStr "A"); ("origin", PStr "jfk"); ("destination", PStr "LAX");
    ("departure_datetime", PStr "soon"); ("arrival_datetime", PStr "later");
    ("price", PStr "free") ].

Definition row_airports (origin dest : string) : dict :=
  [ ("flight_id", PStr "AA100"); ("origin", PStr origin); ("destination", PStr dest);
    ("departure_datetime", PStr "2025-11-20 08:00");
    ("arrival_datetime", PStr "2025-11-20 11:00"); ("price", PStr "199.99") ].

Definition flights_with_times : list dict :=
  [ [ ("flight_id", PStr "A1"); ("departure", PStr "2025-11-01 00:00");
      ("arrival", PStr "2025-11-01 02:00") ];
    [ ("flight_id", PStr "A2"); ("departure", PStr "2025-11-30 23:59");
      ("arrival", PStr "2025-12-01 03:00") ];
    [ ("flight_id", PStr "A3"); ("departure", PStr "2025-12-01 00:00");
      ("arrival", PStr "2025-12-01 01:00") ] ].

Definition query_november_early : dict :=
  [ ("departure_between", PList [PStr "2025-11-01 00:00"; PStr "2025-11-30 23:59"]);
    ("arrival_before", PStr "2025-11-01 02:00") ].

Definition query_bad_bound : dict :=
  [ ("departure_between", PList [PStr "2025-11-01"; PStr "2025-11-30 23:59"]) ].

Definition query_arrival_before : dict := [ ("arrival_before", PStr "2025-12-31 00:00") ].
Definition query_arrival_after : dict := [ ("arrival_after", PStr "2025-01-01 00:00") ].

(* ================================================================== *)
(** * Lemmas and theorems *)
(* ================================================================== *)

Module CharFacts.

Ltac ascii_cases c := destruct c as [[] [] [] [] [] [] [] []].

Lemma is_decimal_cases (c : ascii) : is_decimal c = true -> In c digit_chars.
Proof.
  ascii_cases c; intro H; try discriminate H; simpl; tauto.
Qed.

Lemma decimal_not_space (c : ascii) : is_decimal c = true -> is_space c = false.
Proof. ascii_cases c; intro H; try discriminate H; reflexivity. Qed.

Lemma upper_not_lower (c : ascii) : is_upper_chr c = true -> is_lower_chr c = false.
Proof. ascii_cases c; intro H; try discriminate H; reflexivity. Qed.

Lemma upper_is_alpha (c : ascii) : is_upper_chr c = true -> is_alpha_chr c = true.
Proof. unfold is_alpha_chr. intros ->. reflexivity. Qed.

(** A property of two digits that holds on the hundred pairs. *)
Lemma all_digits2 (P : ascii -> ascii -> bool) :
  forallb (fun a => forallb (P a) digit_chars) digit_chars = true ->
  forall a b, is_decimal a = true -> is_decimal b = true -> P a b = true.
Proof.
  intros H a b Ha Hb.
  rewrite forallb_forall in H.
  specialize (H a (is_decimal_cases a Ha)).
  rewrite forallb_forall in H.
  exact (H b (is_decimal_cases b Hb)).
Qed.

End CharFacts.

Module DateTimeFacts.
Import CharFacts DateTime Spec.

Section Groups.
Context {A : Type}.
Variable K : string -> captures -> string -> option A.

Ltac digit_pairs a b Ha Hb :=
  apply is_decimal_cases in Ha; apply is_decimal_cases in Hb;
  simpl in Ha, Hb;
  repeat (destruct Ha as [<- | Ha]; [ | ]); try contradiction;
  repeat (destruct Hb as [<- | Hb]; [ | ]); try contradiction.

Ltac group_case H :=
  intros a b rest caps x Ha Hb Hr H;
  digit_pairs a b Ha Hb;
  try discriminate Hr;
  vm_compute; vm_compute in H; rewrite H; reflexivity.

Lemma rmatch_re_Y (a b c d : ascii) (rest : string) (caps : captures) (x : A) :
  is_decimal a = true -> is_decimal b = true ->
  is_decimal c = true -> is_decimal d = true ->
  K (String a (String b (String c (String d EmptyString))))
    (("Y", String a (String b (String c (String d EmptyString)))) :: caps) rest = Some x ->
  rmatch re_Y (String a (String b (String c (String d rest)))) caps K = Some x.
Proof.
  intros Ha Hb Hc Hd H. simpl. rewrite Ha, Hb, Hc, Hd. exact H.
Qed.

Lemma rmatch_re_m : forall (a b : ascii) (rest : string) (caps : captures) (x : A),
  is_decimal a = true -> is_decimal b = true ->
  (1 <=? num2 a b) && (num2 a b <=? 12) = true ->
  K (String a (String b EmptyString))
    (("m", String a (String b EmptyString)) :: caps) rest = Some x ->
  rmatch re_m (String a (String b rest)) caps K = Some x.
Proof. group_case H. Qed.

Lemma rmatch_re_d : forall (a b : ascii) (rest : string) (caps : captures) (x : A),
  is_decimal a = true -> is_decimal b = true ->
  (1 <=? num2 a b) && (num2 a b <=? 31) = true ->
  K (String a (String b EmptyString))
    (("d", String a (String b EmptyString)) :: caps) rest = Some x ->
  rmatch re_d (String a (String b rest)) caps K = Some x.
Proof. group_case H. Qed.

Lemma rmatch_re_H : forall (a b : ascii) (rest : string) (caps : captures) (x : A),
  is_decimal a = true -> is_decimal b = true ->
  (num2 a b <=? 23) = true ->
  K (String a (String b EmptyString))
    (("H", String a (String b EmptyString)) :: caps) rest = Some x ->
  rmatch re_H (String a (String b rest)) caps K = Some x.
Proof. group_case H. Qed.

Lemma rmatch_re_M : forall (a b : ascii) (rest : string) (caps : captures) (x : A),
  is_decimal a = true -> is_decimal b = true ->
  (num2 a b <=? 59) = true ->
  K (String a (String b EmptyString))
    (("M", String a (String b EmptyString)) :: caps) rest = Some x ->
  rmatch re_M (String a (String b rest)) caps K = Some x.
Proof. group_case H. Qed.
End Groups.

Lemma digit_val_range (c : ascii) : is_decimal c = true -> 0 <= digit_val c <= 9.
Proof.
  unfold is_decimal, in_range, digit_val. intro H.
  apply andb_prop in H. destruct H as [H1 H2].
  apply Z.leb_le in H1. apply Z.leb_le in H2. lia.
Qed.

Lemma int_of_group2 (a b : ascii) :
  is_decimal a = true -> is_decimal b = true ->
  int_of_group (String a (String b EmptyString)) = num2 a b.
Proof.
  intros Ha Hb.
  pose proof (decimal_not_space a Ha) as Sa. pose proof (decimal_not_space b Hb) as Sb.
  unfold int_of_group, strip. cbn [lstrip]. rewrite Sa.
  cbn [rstrip]. rewrite Sa, Sb. cbn [andb digits_value].
  unfold num2. lia.
Qed.

Lemma int_of_group4 (a b c d : ascii) :
  is_decimal a = true -> is_decimal b = true ->
  is_decimal c = true -> is_decimal d = true ->
  int_of_group (String a (String b (String c (String d EmptyString)))) = num4 a b c d.
Proof.
  intros Ha Hb Hc Hd.
  pose proof (decimal_not_space a Ha) as Sa. pose proof (decimal_not_space b Hb) as Sb.
  pose proof (decimal_not_space c Hc) as Sc. pose proof (decimal_not_space d Hd) as Sd.
  unfold int_of_group, strip. cbn [lstrip]. rewrite Sa.
  cbn [rstrip]. rewrite Sa, Sb, Sc, Sd. cbn [andb digits_value].
  unfold num4. lia.
Qed.

Lemma pad2_num2 (a b : ascii) :
  is_decimal a = true -> is_decimal b = true ->
  pad2 (num2 a b) = String a (String b EmptyString).
Proof.
  intros Ha Hb. apply String.eqb_eq.
  apply (all_digits2 (fun a b => (pad2 (num2 a b) =? String a (String b EmptyString))%string));
    [ vm_compute; reflexivity | assumption | assumption ].
Qed.

Lemma str_int_num4 (a b c d : ascii) :
  is_decimal a = true -> is_decimal b = true ->
  is_decimal c = true -> is_decimal d = true ->
  1000 <= num4 a b c d ->
  str_int (num4 a b c d) = String a (String b (String c (String d EmptyString))).
Proof.
  intros Ha Hb Hc Hd Hy.
  pose (P := fun a b c d : ascii =>
               implb (1000 <=? num4 a b c d)
                 (str_int (num4 a b c d)
                  =? String a (String b (String c (String d EmptyString))))%string).
  assert (HP : P a b c d = true).
  { apply (all_digits2
             (fun a b => forallb (fun c => forallb (P a b c) digit_chars) digit_chars))
      with (a := a) (b := b) in Ha as Hab; [ | vm_compute; reflexivity | assumption ].
    rewrite forallb_forall in Hab.
    specialize (Hab c (is_decimal_cases c Hc)).
    rewrite forallb_forall in Hab.
    exact (Hab d (is_decimal_cases d Hd)). }
  unfold P in HP. apply Z.leb_le in Hy. rewrite Hy in HP. simpl in HP.
  apply String.eqb_eq. exact HP.
Qed.

(** The sixteen characters of a text in the exact lexical form. *)
Lemma datetime_fields_inv (s : string) (dt : datetime) :
  datetime_fields s = Some dt ->
  exists y1 y2 y3 y4 m1 m2 d1 d2 h1 h2 n1 n2,
    s = String y1 (String y2 (String y3 (String y4 (String "-"
        (String m1 (String m2 (String "-"
        (String d1 (String d2 (String " "
        (String h1 (String h2 (String ":"
        (String n1 (String n2 EmptyString)))))))))))))))
    /\ dt = mkdt (num4 y1 y2 y3 y4) (num2 m1 m2) (num2 d1 d2) (num2 h1 h2) (num2 n1 n2)
    /\ is_decimal y1 = true /\ is_decimal y2 = true
    /\ is_decimal y3 = true /\ is_decimal y4 = true
    /\ is_decimal m1 = true /\ is_decimal m2 = true
    /\ is_decimal d1 = true /\ is_decimal d2 = true
    /\ is_decimal h1 = true /\ is_decimal h2 = true
    /\ is_decimal n1 = true /\ is_decimal n2 = true.
Proof.
  intro H.
  do 16 (destruct s as [| ? s]; [ discriminate H | ]).
  destruct s; [ | discriminate H ].
  unfold datetime_fields in H.
  match type of H with (if ?c then _ else _) = _ => destruct c eqn:Hc end;
    [ | discriminate H ].
  injection H as <-.
  repeat (apply andb_prop in Hc; destruct Hc as [Hc ?]).
  repeat match goal with
         | E : Ascii.eqb _ _ = true |- _ => apply Ascii.eqb_eq in E; subst
         end.
  simpl in Hc.
  repeat match goal with
         | E : _ && _ = true |- _ => apply andb_prop in E; destruct E
         end.
  do 12 eexists. repeat split; try eassumption.
  unfold is_decimal, in_range. apply andb_true_intro. split; assumption.
Qed.

Lemma regex_match_canonical (y1 y2 y3 y4 m1 m2 d1 d2 h1 h2 n1 n2 : ascii) :
  is_decimal y1 = true -> is_decimal y2 = true ->
  is_decimal y3 = true -> is_decimal y4 = true ->
  is_decimal m1 = true -> is_decimal m2 = true ->
  is_decimal d1 = true -> is_decimal d2 = true ->
  is_decimal h1 = true -> is_decimal h2 = true ->
  is_decimal n1 = true -> is_decimal n2 = true ->
  (1 <=? num2 m1 m2) && (num2 m1 m2 <=? 12) = true ->
  (1 <=? num2 d1 d2) && (num2 d1 d2 <=? 31) = true ->
  (num2 h1 h2 <=? 23) = true ->
  (num2 n1 n2 <=? 59) = true ->
  regex_match
    (String y1 (String y2 (String y3 (String y4 (String "-"
    (String m1 (String m2 (String "-"
    (String d1 (String d2 (String " "
    (String h1 (String h2 (String ":"
    (String n1 (String n2 EmptyString))))))))))))))))
  = Some ([ ("M", String n1 (String n2 EmptyString));
            ("H", String h1 (String h2 EmptyString));
            ("d", String d1 (String d2 EmptyString));
            ("m", String m1 (String m2 EmptyString));
            ("Y", String y1 (String y2 (String y3 (String y4 EmptyString)))) ],
          EmptyString).
Proof.
  intros Hy1 Hy2 Hy3 Hy4 Hm1 Hm2 Hd1 Hd2 Hh1 Hh2 Hn1 Hn2 Rm Rd Rh Rn.
  unfold regex_match, format_regex.
  cbn [rmatch]. apply rmatch_re_Y; try assumption.
  cbn [rmatch Ascii.eqb Bool.eqb]. apply rmatch_re_m; try assumption.
  cbn [rmatch Ascii.eqb Bool.eqb]. apply rmatch_re_d; try assumption.
  cbn [rmatch]. replace (is_space " ") with true by reflexivity.
  cbn [star_cls]. rewrite (decimal_not_space h1 Hh1).
  apply rmatch_re_H; try assumption.
  cbn [rmatch Ascii.eqb Bool.eqb]. apply rmatch_re_M; try assumption.
  reflexivity.
Qed.

Lemma days_in_month_le_31 (y m : Z) : days_in_month y m <= 31.
Proof.
  unfold days_in_month.
  repeat match goal with |- context [if ?c then _ else _] => destruct c end; lia.
Qed.

(** [strptime] accepts every text of the grammar whose year is not
    0000, and yields its fields. *)
Lemma strptime_canonical (s : string) (dt : datetime) :
  datetime_fields s = Some dt -> fields_in_range dt = true -> 1 <= year dt ->
  strptime s = Ret dt.
Proof.
  intros Hf Hr Hy.
  destruct (datetime_fields_inv s dt Hf)
    as (y1 & y2 & y3 & y4 & m1 & m2 & d1 & d2 & h1 & h2 & n1 & n2 & -> & -> &
        Hy1 & Hy2 & Hy3 & Hy4 & Hm1 & Hm2 & Hd1 & Hd2 & Hh1 & Hh2 & Hn1 & Hn2).
  unfold fields_in_range in Hr. cbn [year month day hour minute] in Hr, Hy.
  repeat (apply andb_prop in Hr; destruct Hr as [Hr ?]).
  assert (Rd : (1 <=? num2 d1 d2) && (num2 d1 d2 <=? 31) = true).
  { apply andb_true_intro. split; [ assumption | ].
    apply Z.leb_le.
    pose proof (days_in_month_le_31 (num4 y1 y2 y3 y4) (num2 m1 m2)).
    match goal with E : (num2 d1 d2 <=? _) = true |- _ => apply Z.leb_le in E end. lia. }
  unfold strptime.
  rewrite regex_match_canonical; try assumption;
    [ | apply andb_true_intro; split; assumption ].
  cbn [is_empty negb group String.eqb Ascii.eqb Bool.eqb].
  rewrite !int_of_group2, int_of_group4 by assumption.
  pose proof (digit_val_range y1 Hy1). pose proof (digit_val_range y2 Hy2).
  pose proof (digit_val_range y3 Hy3). pose proof (digit_val_range y4 Hy4).
  replace ((1 <=? num4 y1 y2 y3 y4) && (num4 y1 y2 y3 y4 <=? 9999)) with true
    by (symmetry; apply andb_true_intro; split; apply Z.leb_le;
        [ lia | unfold num4; lia ]).
  cbn [negb].
  repeat match goal with E : (_ <=? _) = true |- _ => rewrite E end.
  reflexivity.
Qed.

(** [strftime] renders the fields of a text of the grammar as that
    text, when the year has four significant digits. *)
Lemma strftime_canonical (s : string) (dt : datetime) :
  datetime_fields s = Some dt -> 1000 <= year dt -> strftime dt = s.
Proof.
  intros Hf Hy.
  destruct (datetime_fields_inv s dt Hf)
    as (y1 & y2 & y3 & y4 & m1 & m2 & d1 & d2 & h1 & h2 & n1 & n2 & -> & -> &
        Hy1 & Hy2 & Hy3 & Hy4 & Hm1 & Hm2 & Hd1 & Hd2 & Hh1 & Hh2 & Hn1 & Hn2).
  cbn [year] in Hy. unfold strftime. cbn [year month day hour minute].
  rewrite str_int_num4, !pad2_num2 by assumption.
  reflexivity.
Qed.

(** Below the year 1000 the rendering is shorter than the text read. *)
Remark strftime_year_below_1000 :
  strptime "0999-01-01 00:00" = Ret (mkdt 999 1 1 0 0)
  /\ strftime (mkdt 999 1 1 0 0) = "999-01-01 00:00".
Proof. split; vm_compute; reflexivity. Qed.

End DateTimeFacts.

Module StrFacts.
Import CharFacts.

Lemma append_assoc (s t u : string) : (s ++ t) ++ u = s ++ (t ++ u).
Proof. induction s as [| c s IH]; simpl; [ reflexivity | rewrite IH; reflexivity ]. Qed.

Lemma all_chars_app (p : ascii -> bool) (s t : string) :
  all_chars p (s ++ t) = all_chars p s && all_chars p t.
Proof.
  induction s as [| c s IH]; simpl; [ reflexivity | ].
  rewrite IH. apply andb_assoc.
Qed.

Lemma rstrip_empty (s : string) :
  rstrip s = EmptyString -> all_chars is_space s = true.
Proof.
  induction s as [| c s IH]; simpl; [ reflexivity | ].
  destruct (is_space c); simpl; [ | discriminate ].
  destruct (rstrip s); simpl; [ intros _; apply IH; reflexivity | discriminate ].
Qed.

Lemma lstrip_all_space (s : string) :
  all_chars is_space (lstrip s) = true -> all_chars is_space s = true.
Proof.
  induction s as [| c s IH]; simpl; [ reflexivity | ].
  destruct (is_space c) eqn:E; simpl; [ exact IH | ].
  rewrite E. discriminate.
Qed.

(** A text that trims to nothing is made of white space. *)
Lemma strip_empty (s : string) :
  strip s = EmptyString -> all_chars is_space s = true.
Proof.
  unfold strip. intro H. apply lstrip_all_space, rstrip_empty, H.
Qed.

Lemma is_empty_true (s : string) : is_empty s = true <-> s = EmptyString.
Proof. destruct s; simpl; split; congruence. Qed.

(** A text with a character that is no white space does not trim to
    nothing. *)
Lemma strip_nonblank (p r : string) (c : ascii) :
  is_space c = false -> strip (p ++ String c r) <> EmptyString.
Proof.
  intros Hc H. apply strip_empty in H.
  rewrite all_chars_app in H. simpl in H. rewrite Hc in H.
  rewrite andb_false_r in H. discriminate.
Qed.

Lemma strip_nonblank_head (c : ascii) (r : string) :
  is_space c = false -> strip (String c r) <> EmptyString.
Proof. apply (strip_nonblank EmptyString). Qed.

Lemma digits_fuel_suffix (fuel : nat) :
  forall n acc, exists p, digits_fuel fuel n acc = p ++ acc.
Proof.
  induction fuel as [| fuel IH]; intros n acc; simpl.
  - exists EmptyString. reflexivity.
  - destruct (n <? 10).
    + exists (String (digit_chr (n mod 10)) EmptyString). reflexivity.
    + destruct (IH (n / 10) (String (digit_chr (n mod 10)) acc)) as [p Hp].
      exists (p ++ String (digit_chr (n mod 10)) EmptyString).
      rewrite Hp. rewrite append_assoc. reflexivity.
Qed.

Lemma digit_chr_not_space (d : Z) : 0 <= d < 10 -> is_space (digit_chr d) = false.
Proof.
  intro H.
  assert (C : d = 0 \/ d = 1 \/ d = 2 \/ d = 3 \/ d = 4 \/ d = 5 \/ d = 6 \/ d = 7
              \/ d = 8 \/ d = 9) by lia.
  repeat (destruct C as [-> | C]; [ reflexivity | ]). subst. reflexivity.
Qed.

Lemma str_nat_nonblank (n : Z) : strip (str_nat n) <> EmptyString.
Proof.
  unfold str_nat. cbn [digits_fuel].
  pose proof (digit_chr_not_space (n mod 10) (Z.mod_pos_bound n 10 eq_refl)) as Hd.
  destruct (n <? 10).
  - apply strip_nonblank_head, Hd.
  - destruct (digits_fuel_suffix (Z.to_nat (Z.log2 n)) (n / 10)
                (String (digit_chr (n mod 10)) EmptyString)) as [p ->].
    apply strip_nonblank, Hd.
Qed.

Lemma str_int_nonblank (n : Z) : strip (str_int n) <> EmptyString.
Proof.
  unfold str_int. destruct (n <? 0).
  - apply strip_nonblank_head. reflexivity.
  - apply str_nat_nonblank.
Qed.

Lemma layout_nonblank (ds : string) (decpt : Z) :
  strip (PyFloat.layout ds decpt) <> EmptyString.
Proof.
  unfold PyFloat.layout.
  destruct ((decpt <=? -4) || (16 <? decpt)).
  - apply (strip_nonblank _ _ "e"). reflexivity.
  - destruct (decpt <=? 0).
    + apply strip_nonblank_head. reflexivity.
    + destruct (len ds <=? decpt).
      * rewrite <- append_assoc. apply (strip_nonblank _ _ "."). reflexivity.
      * apply (strip_nonblank _ _ "."). reflexivity.
Qed.

Lemma float_repr_nonblank (x : PyFloat.float) : strip (PyFloat.repr x) <> EmptyString.
Proof.
  destruct x as [s | s | | s m e]; simpl.
  - destruct s; discriminate.
  - destruct s; discriminate.
  - discriminate.
  - destruct s.
    + apply strip_nonblank_head. reflexivity.
    + unfold PyFloat.repr_finite.
      destruct (PyFloat.shortest _ _ _ _ _) as [d p].
      destruct (PyFloat.drop_zeros _ _ _) as [d' p'].
      apply layout_nonblank.
Qed.

(** Only a text can be blank: [str] of any other value, [None] apart,
    has a visible character. *)
Lemma py_str_blank (v : pyval) :
  strip (py_str v) = EmptyString ->
  exists s, v = PStr s /\ strip s = EmptyString.
Proof.
  destruct v as [| b | n | x | s | l | d]; intro H.
  - discriminate H.
  - destruct b; discriminate H.
  - exfalso. exact (str_int_nonblank n H).
  - exfalso. exact (float_repr_nonblank x H).
  - exists s. split; [ reflexivity | exact H ].
  - exfalso. revert H. apply strip_nonblank_head. reflexivity.
  - exfalso. revert H. apply strip_nonblank_head. reflexivity.
Qed.

End StrFacts.

Module RegexFacts.
Import CharFacts StrFacts DateTime.

Lemma star_cls_sound {A : Type} (P p : ascii -> bool) (s : string)
      (K : string -> string -> option A) (x : A) :
  (forall c, p c = true -> P c = true) ->
  star_cls p s K = Some x ->
  exists t rest, s = t ++ rest /\ all_chars P t = true /\ K t rest = Some x.
Proof.
  intro Hp. revert K.
  induction s as [| c s IH]; intros K H; simpl in H.
  - exists EmptyString, EmptyString. repeat split. exact H.
  - destruct (p c) eqn:Hc.
    + destruct (star_cls p s (fun t r => K (String c t) r)) as [y |] eqn:E.
      * injection H as ->. destruct (IH _ E) as (t & rest & -> & Ht & HK).
        exists (String c t), rest. simpl. rewrite (Hp c Hc), Ht. repeat split. exact HK.
      * exists EmptyString, (String c s). repeat split. exact H.
    + exists EmptyString, (String c s). repeat split. exact H.
Qed.

(** A match consumes a prefix made of characters of the expression. *)
Lemma rmatch_sound {A : Type} (P : ascii -> bool) (r : regex) :
  regex_chars P r ->
  forall (s : string) (caps : captures)
         (K : string -> captures -> string -> option A) (x : A),
    rmatch r s caps K = Some x ->
    exists t caps' rest,
      s = t ++ rest /\ all_chars P t = true /\ K t caps' rest = Some x.
Proof.
  induction r as [c | p | p | r1 IH1 r2 IH2 | r1 IH1 r2 IH2 | name r1 IH1];
    intros Hok s caps K x H; simpl in Hok, H.
  - destruct s as [| c' s]; [ discriminate H | ].
    destruct (Ascii.eqb_spec c c') as [<- | _]; [ | discriminate H ].
    exists (String c EmptyString), caps, s. simpl. rewrite Hok. repeat split. exact H.
  - destruct s as [| c' s]; [ discriminate H | ].
    destruct (p c') eqn:Hc; [ | discriminate H ].
    exists (String c' EmptyString), caps, s. simpl. rewrite (Hok c' Hc).
    repeat split. exact H.
  - destruct s as [| c' s]; [ discriminate H | ].
    destruct (p c') eqn:Hc; [ | discriminate H ].
    destruct (star_cls_sound P p s _ x Hok H) as (t & rest & -> & Ht & HK).
    exists (String c' t), caps, rest. simpl. rewrite (Hok c' Hc), Ht.
    repeat split. exact HK.
  - destruct Hok as [Hok1 Hok2].
    destruct (IH1 Hok1 _ _ _ _ H) as (t1 & caps1 & s1 & -> & Ht1 & H1).
    destruct (IH2 Hok2 _ _ _ _ H1) as (t2 & caps2 & s2 & -> & Ht2 & H2).
    exists (t1 ++ t2), caps2, s2. rewrite all_chars_app, Ht1, Ht2, append_assoc.
    repeat split. exact H2.
  - destruct Hok as [Hok1 Hok2].
    destruct (rmatch r1 s caps K) as [y |] eqn:E.
    + injection H as ->. exact (IH1 Hok1 _ _ _ _ E).
    + exact (IH2 Hok2 _ _ _ _ H).
  - destruct (IH1 Hok _ _ _ _ H) as (t & caps1 & rest & -> & Ht & HK).
    exists t, ((name, t) :: caps1), rest. repeat split; assumption.
Qed.

Lemma decimal_datetime_chr (c : ascii) : is_decimal c = true -> datetime_chr c = true.
Proof. unfold datetime_chr. intros ->. reflexivity. Qed.

Lemma range_datetime_chr (lo hi : ascii) :
  is_decimal lo = true -> is_decimal hi = true ->
  forall c, in_range (code lo) (code hi) c = true -> datetime_chr c = true.
Proof.
  intros Hlo Hhi c H. apply decimal_datetime_chr.
  unfold is_decimal, in_range in *.
  apply andb_prop in Hlo, Hhi, H. destruct Hlo as [L1 _], Hhi as [_ U2], H as [H1 H2].
  apply andb_true_intro.
  split; apply Z.leb_le; apply Z.leb_le in L1, U2, H1, H2; lia.
Qed.

Lemma format_regex_chars : regex_chars datetime_chr format_regex.
Proof.
  unfold format_regex, re_Y, re_m, re_d, re_H, re_M, digit, range.
  cbn [regex_chars].
  repeat split;
    try reflexivity;
    try exact decimal_datetime_chr;
    try (apply range_datetime_chr; reflexivity).
  intros c Hc. unfold datetime_chr. rewrite Hc. apply orb_true_r.
Qed.

(** [strptime] accepts only texts of digits, hyphens, colons and white
    space: no letter, so no [T] separator. *)
Lemma strptime_accepts_only (s : string) (dt : datetime) :
  strptime s = Ret dt -> all_chars datetime_chr s = true.
Proof.
  unfold strptime. intro H.
  destruct (regex_match s) as [[caps rest] |] eqn:E; [ | discriminate H ].
  destruct rest; [ | discriminate H ].
  unfold regex_match in E.
  destruct (rmatch_sound datetime_chr format_regex format_regex_chars _ _ _ _ E)
    as (t & caps' & rest' & -> & Ht & HK).
  injection HK as _ ->.
  rewrite all_chars_app, Ht. reflexivity.
Qed.

End RegexFacts.

Module DictFacts.

Lemma dict_get_set_other (d : dict) (k k' : string) (v : pyval) :
  k' <> k -> dict_get (dict_set d k' v) k = dict_get d k.
Proof.
  intro Hne. induction d as [| [k0 v0] d IH]; simpl.
  - destruct (String.eqb_spec k' k); [ contradiction | reflexivity ].
  - destruct (String.eqb_spec k0 k') as [-> | Hk0]; simpl.
    + destruct (String.eqb_spec k' k); [ contradiction | reflexivity ].
    + destruct (String.eqb_spec k0 k); [ reflexivity | exact IH ].
Qed.

(** The loop over the extra fields never touches a key the record
    already has. *)
Lemma copy_extra_fields_get (row flight : dict) (k : string) (v : pyval) :
  dict_get flight k = Some v ->
  dict_get (copy_extra_fields row flight) k = Some v.
Proof.
  unfold copy_extra_fields. revert flight.
  induction row as [| [k' v'] row IH]; intros flight H; simpl; [ exact H | ].
  apply IH.
  destruct (dict_mem flight k') eqn:Hm; simpl; [ exact H | ].
  destruct (is_none v'); [ exact H | ].
  destruct (negb (is_empty (strip (py_str v')))); [ | exact H ].
  rewrite dict_get_set_other; [ exact H | ].
  intros ->. unfold dict_mem in Hm. rewrite H in Hm. discriminate.
Qed.

(** Nor does it add a key the row does not have. *)
Lemma copy_extra_fields_get_none (row flight : dict) (k : string) :
  dict_get row k = None -> dict_get flight k = None ->
  dict_get (copy_extra_fields row flight) k = None.
Proof.
  unfold copy_extra_fields. revert flight.
  induction row as [| [k' v'] row IH]; intros flight Hr Hf; simpl; [ exact Hf | ].
  simpl in Hr. destruct (String.eqb_spec k' k) as [-> | Hne]; [ discriminate Hr | ].
  apply IH; [ exact Hr | ].
  destruct (dict_mem flight k' || is_none v'); [ exact Hf | ].
  destruct (negb (is_empty (strip (py_str v')))); [ | exact Hf ].
  rewrite dict_get_set_other; assumption.
Qed.

End DictFacts.

Module ValidateFacts.
Import StrFacts DictFacts.

(** [validate_row] returns, and a record it returns is not empty. *)
Lemma validate_row_outcome (row : dict) (file : string) (lineno : Z) :
  (exists flight, validate_row row file lineno = Ret (Some flight, EmptyString)
                  /\ truthy (PDict flight) = true)
  \/ (exists msg, validate_row row file lineno = Ret (None, msg)).
Proof.
  unfold validate_row.
  destruct (first_missing REQUIRED_FIELDS row); [ right; eexists; reflexivity | ].
  repeat match goal with
         | |- context [if ?c then _ else _] =>
             destruct c; [ right; eexists; reflexivity | ]
         | |- context [match ?c with Ret _ => _ | Raise _ => _ end] =>
             destruct c; [ | right; eexists; reflexivity ]
         end.
  left. eexists. split; [ reflexivity | ].
  match goal with
  | |- truthy (PDict (copy_extra_fields row ?base)) = true =>
      pose proof (copy_extra_fields_get row base "flight_id" _ eq_refl) as H;
      destruct (copy_extra_fields row base); [ discriminate H | reflexivity ]
  end.
Qed.

(** What an accepted row went through. *)
Lemma validate_row_accepted_inv (row : dict) (file : string) (lineno : Z) (flight : dict) :
  validate_row row file lineno = Ret (Some flight, EmptyString) ->
  exists fid origin dest dep arr price,
    flight = copy_extra_fields row
               [ ("flight_id", PStr fid);
                 ("origin", PStr origin);
                 ("destination", PStr dest);
                 ("departure_datetime", PStr (DateTime.strftime dep));
                 ("arrival_datetime", PStr (DateTime.strftime arr));
                 ("price", PFloat price) ]
    /\ DateTime.leb arr dep = false
    /\ PyFloat.leb price PyFloat.zero = false.
Proof.
  unfold validate_row.
  destruct (first_missing REQUIRED_FIELDS row); [ discriminate | ].
  repeat match goal with
         | |- context [if negb ?c then _ else _] =>
             destruct c; cbn [negb]; [ | discriminate ]
         | |- context [match bind ?c ?k with Ret _ => _ | Raise _ => _ end] =>
             destruct (bind c k); [ | discriminate ]
         end.
  match goal with
  | |- context [if DateTime.leb ?a ?b then _ else _] =>
      destruct (DateTime.leb a b) eqn:Hle; [ discriminate | ]
  end.
  destruct (py_float _) as [price | e]; [ | discriminate ].
  destruct (PyFloat.leb price PyFloat.zero) eqn:Hp; [ discriminate | ].
  intro H. injection H as <-.
  do 6 eexists. split; [ reflexivity | ]. split; assumption.
Qed.

Lemma field_missing_iff (row : dict) (f : string) :
  field_missing row f = true <-> Spec.absent_none_or_blank row f.
Proof.
  unfold field_missing, Spec.absent_none_or_blank.
  destruct (dict_get row f) as [v |]; [ | tauto ].
  split.
  - intro H. apply orb_prop in H. destruct H as [H | H].
    + destruct v; try discriminate H. tauto.
    + apply is_empty_true in H. apply py_str_blank in H.
      destruct H as (s & -> & Hs). right. right. exists s. tauto.
  - intros [H | [H | (s & H & Hs)]]; [ discriminate H | | ];
      injection H as ->; [ reflexivity | ].
    simpl. rewrite Hs. reflexivity.
Qed.

(** The presence loop stops at the first missing field of the list. *)
Lemma first_missing_some (fields : list string) (row : dict) (f : string) :
  In f fields -> field_missing row f = true ->
  exists before g after,
    fields = (before ++ g :: after)%list
    /\ (forall h, In h before -> field_missing row h = false)
    /\ field_missing row g = true
    /\ first_missing fields row = Some g.
Proof.
  induction fields as [| f0 fields IH]; intros Hin Hm; [ contradiction | ].
  simpl. destruct (field_missing row f0) eqn:E0.
  - exists [], f0, fields. repeat split; try assumption. intros h [].
  - destruct Hin as [-> | Hin]; [ congruence | ].
    destruct (IH Hin Hm) as (before & g & after & -> & Hb & Hg & Hfm).
    exists (f0 :: before), g, after. repeat split; try assumption.
    intros h [<- | Hh]; [ exact E0 | exact (Hb h Hh) ].
Qed.

Lemma first_missing_none (fields : list string) (row : dict) :
  first_missing fields row = None <-> forallb (fun f => negb (field_missing row f)) fields = true.
Proof.
  induction fields as [| f fields IH]; simpl; [ tauto | ].
  destruct (field_missing row f); simpl; [ split; discriminate | exact IH ].
Qed.

End ValidateFacts.

Import StrFacts DictFacts ValidateFacts.

(** C10.  [validate_row] returns normally on every row: either a record
    with the empty message, or no record and an error message; no
    exception reaches the caller. *)
Theorem validate_row_never_raises (row : dict) (file : string) (lineno : Z) :
  (exists flight, validate_row row file lineno = Ret (Some flight, EmptyString))
  \/ (exists msg, validate_row row file lineno = Ret (None, msg)).
Proof.
  destruct (validate_row_outcome row file lineno) as [(flight & H & _) | H].
  - left. exists flight. exact H.
  - right. exact H.
Qed.

(** C2.  A row in which a required field is absent, [None] or blank is
    rejected with the message that names the first such field of
    [REQUIRED_FIELDS]; when that field is the only one, it is the one
    named. *)
Theorem missing_required_field_rejected
        (row : dict) (file : string) (lineno : Z) (f : string) :
  In f REQUIRED_FIELDS ->
  Spec.absent_none_or_blank row f ->
  exists before g after,
    REQUIRED_FIELDS = (before ++ g :: after)%list
    /\ (forall h, In h before -> ~ Spec.absent_none_or_blank row h)
    /\ Spec.absent_none_or_blank row g
    /\ validate_row row file lineno
       = Ret (None, "missing required field '" ++ g ++ "'")
    /\ ((forall h, In h REQUIRED_FIELDS -> Spec.absent_none_or_blank row h -> h = f)
        -> g = f).
Proof.
  intros Hin Hf.
  apply field_missing_iff in Hf.
  destruct (first_missing_some REQUIRED_FIELDS row f Hin Hf)
    as (before & g & after & Heq & Hb & Hg & Hfm).
  exists before, g, after. split; [ exact Heq | ].
  split.
  { intros h Hh Habs. apply field_missing_iff in Habs.
    rewrite (Hb h Hh) in Habs. discriminate. }
  apply field_missing_iff in Hg.
  split; [ exact Hg | ].
  split.
  { unfold validate_row. rewrite Hfm. reflexivity. }
  intro Huniq. apply Huniq; [ | exact Hg ].
  rewrite Heq. apply in_or_app. right. left. reflexivity.
Qed.

Lemma missing_required_field_rejected_witness :
  exists before g after,
    REQUIRED_FIELDS = (before ++ g :: after)%list
    /\ (forall h, In h before -> ~ Spec.absent_none_or_blank row_missing_origin h)
    /\ Spec.absent_none_or_blank row_missing_origin g
    /\ validate_row row_missing_origin "sample" 2
       = Ret (None, "missing required field '" ++ g ++ "'")
    /\ ((forall h, In h REQUIRED_FIELDS ->
                   Spec.absent_none_or_blank row_missing_origin h -> h = "origin")
        -> g = "origin").
Proof.
  apply (missing_required_field_rejected row_missing_origin "sample" 2 "origin").
  - simpl. tauto.
  - right. right. exists EmptyString. split; reflexivity.
Defined.

Module RuleFacts.
Import CharFacts DateTime.

Lemma present_get (row : dict) (f : string) :
  Spec.present row f = true ->
  exists s, dict_get row f = Some (PStr s)
            /\ Spec.text_or_empty row f = strip s
            /\ is_empty (strip s) = false.
Proof.
  unfold Spec.present, Spec.text_or_empty, Spec.field_text.
  destruct (dict_get row f) as [[| | | | s | |] |]; try discriminate.
  intro H. exists s. repeat split. apply negb_true_iff. exact H.
Qed.

Lemma present_not_missing (row : dict) (f : string) :
  Spec.present row f = true -> field_missing row f = false.
Proof.
  intro H. destruct (present_get row f H) as (s & Hg & _ & He).
  unfold field_missing. rewrite Hg. simpl. exact He.
Qed.

Lemma present_default (row : dict) (f : string) (d : pyval) :
  Spec.present row f = true ->
  strip (py_str (dict_get_default row f d)) = Spec.text_or_empty row f.
Proof.
  intro H. destruct (present_get row f H) as (s & Hg & Ht & _).
  unfold dict_get_default. rewrite Hg, Ht. reflexivity.
Qed.

Lemma len_pos_not_empty (t : string) : 1 <= len t -> is_empty t = false.
Proof. destruct t; unfold len; simpl; [ lia | reflexivity ]. Qed.

Lemma all_upper_no_lower (t : string) :
  all_chars is_upper_chr t = true -> any_chars is_lower_chr t = false.
Proof.
  induction t as [| c t IH]; simpl; [ reflexivity | ].
  intro H. apply andb_prop in H. destruct H as [Hc Ht].
  rewrite (upper_not_lower c Hc), (IH Ht). reflexivity.
Qed.

Lemma all_upper_all_alpha (t : string) :
  all_chars is_upper_chr t = true -> all_chars is_alpha_chr t = true.
Proof.
  induction t as [| c t IH]; simpl; [ reflexivity | ].
  intro H. apply andb_prop in H. destruct H as [Hc Ht].
  rewrite (upper_is_alpha c Hc), (IH Ht). reflexivity.
Qed.

(** Rule 2 as worded is the test of the code. *)
Lemma flight_id_rule (t : string) :
  Spec.flight_id_ok t = true ->
  negb ((2 <=? len t) && (len t <=? 8) && isalnum t) = false.
Proof.
  unfold Spec.flight_id_ok, isalnum. intro H.
  apply andb_prop in H. destruct H as [H Ha].
  apply andb_prop in H. destruct H as [H2 H8].
  rewrite H2, H8, Ha. apply Z.leb_le in H2.
  rewrite len_pos_not_empty by lia. reflexivity.
Qed.

(** Rule 3 as worded implies the test of the code. *)
Lemma airport_rule (t : string) :
  Spec.airport_ok t = true ->
  negb ((len t =? 3) && isalpha t && isupper t) = false.
Proof.
  unfold Spec.airport_ok, isalpha, isupper. intro H.
  apply andb_prop in H. destruct H as [H3 Hu].
  rewrite H3, (all_upper_all_alpha t Hu), (all_upper_no_lower t Hu).
  apply Z.eqb_eq in H3. rewrite len_pos_not_empty by lia.
  destruct t as [| c t]; [ discriminate H3 | ].
  simpl in Hu |- *. apply andb_prop in Hu. destruct Hu as [-> _]. reflexivity.
Qed.

(** After rules 1 to 3, [validate_row] is its datetime and price part. *)
Lemma validate_row_rules_1_3 (row : dict) (file : string) (lineno : Z) :
  forallb (Spec.present row) REQUIRED_FIELDS = true ->
  Spec.flight_id_ok (Spec.text_or_empty row "flight_id") = true ->
  Spec.airport_ok (Spec.text_or_empty row "origin") = true ->
  Spec.airport_ok (Spec.text_or_empty row "destination") = true ->
  validate_row row file lineno
  = datetime_and_price_rules row (Spec.text_or_empty row "flight_id")
      (Spec.text_or_empty row "origin") (Spec.text_or_empty row "destination").
Proof.
  intros Hp Hf Ho Hd.
  assert (Hall : forall f, In f REQUIRED_FIELDS -> Spec.present row f = true).
  { apply forallb_forall. exact Hp. }
  assert (Hfm : first_missing REQUIRED_FIELDS row = None).
  { apply ValidateFacts.first_missing_none. apply forallb_forall.
    intros f Hin. rewrite (present_not_missing row f (Hall f Hin)). reflexivity. }
  unfold validate_row, datetime_and_price_rules. rewrite Hfm.
  rewrite !present_default by (apply Hall; simpl; tauto).
  rewrite (flight_id_rule _ Hf), (airport_rule _ Ho), (airport_rule _ Hd).
  reflexivity.
Qed.

Lemma compare_antisym (a b : datetime) : compare a b = CompOpp (compare b a).
Proof.
  unfold compare.
  rewrite (Z.compare_antisym (year a) (year b)), (Z.compare_antisym (month a) (month b)),
    (Z.compare_antisym (day a) (day b)), (Z.compare_antisym (hour a) (hour b)),
    (Z.compare_antisym (minute a) (minute b)).
  destruct (year a ?= year b), (month a ?= month b), (day a ?= day b),
    (hour a ?= hour b), (minute a ?= minute b); reflexivity.
Qed.

Lemma ltb_not_leb (d a : datetime) : ltb d a = true -> leb a d = false.
Proof.
  unfold ltb, leb. rewrite (compare_antisym a d).
  destruct (compare d a); simpl; congruence.
Qed.

Lemma leb_compare (a d : datetime) : leb a d = true <-> compare a d <> Gt.
Proof. unfold leb. destruct (compare a d); split; congruence. Qed.

Lemma float_pos_not_le (x : PyFloat.float) :
  PyFloat.ltb PyFloat.zero x = true -> PyFloat.leb x PyFloat.zero = false.
Proof.
  unfold PyFloat.ltb, PyFloat.leb, PyFloat.zero, SFltb, SFleb.
  destruct x as [s | [|] | | [|] m e]; simpl; congruence.
Qed.

Lemma ltb_year (d a : datetime) : ltb d a = true -> year d <= year a.
Proof.
  unfold ltb, compare.
  destruct (Z.compare_spec (year d) (year a)) as [E | E | E]; try discriminate; lia.
Qed.

(** [parse_iso_datetime] on a text that trims to one of the grammar,
    with a year that is not 0000. *)
Lemma parse_iso_datetime_canonical (s : string) (dt : datetime) :
  Spec.datetime_fields (strip s) = Some dt ->
  Spec.fields_in_range dt = true -> 1 <= year dt ->
  parse_iso_datetime (PStr s) = Ret dt.
Proof.
  intros Hf Hr Hy. unfold parse_iso_datetime. simpl.
  destruct (strip s) eqn:E; [ discriminate Hf | ].
  simpl. rewrite (DateTimeFacts.strptime_canonical _ dt Hf Hr Hy). reflexivity.
Qed.

End RuleFacts.

Import RuleFacts.

(** C4.  When rules 1 to 3 pass and both datetime fields parse, the row
    is rejected with the ordering message if the arrival is equal to or
    earlier than the departure, and is not rejected with that message if
    the arrival is strictly later. *)
Theorem arrival_after_departure_rule
        (row : dict) (file : string) (lineno : Z)
        (vdep varr : pyval) (dep arr : DateTime.datetime) :
  forallb (Spec.present row) REQUIRED_FIELDS = true ->
  Spec.flight_id_ok (Spec.text_or_empty row "flight_id") = true ->
  Spec.airport_ok (Spec.text_or_empty row "origin") = true ->
  Spec.airport_ok (Spec.text_or_empty row "destination") = true ->
  dict_get row "departure_datetime" = Some vdep ->
  parse_iso_datetime vdep = Ret dep ->
  dict_get row "arrival_datetime" = Some varr ->
  parse_iso_datetime varr = Ret arr ->
  exists r,
    validate_row row file lineno = Ret r
    /\ (DateTime.compare arr dep <> Gt ->
        r = (None, "arrival_datetime must be after departure_datetime"))
    /\ (DateTime.compare arr dep = Gt ->
        snd r <> "arrival_datetime must be after departure_datetime").
Proof.
  intros Hp Hf Ho Hd Hgd Hpd Hga Hpa.
  rewrite (validate_row_rules_1_3 row file lineno Hp Hf Ho Hd).
  unfold datetime_and_price_rules, dict_getitem.
  rewrite Hgd, Hga. cbn [bind]. rewrite Hpd, Hpa.
  destruct (DateTime.leb arr dep) eqn:Hle.
  - eexists. split; [ reflexivity | ]. split; [ reflexivity | ].
    intro Hgt. apply leb_compare in Hle. contradiction.
  - assert (Hgt : DateTime.compare arr dep = Gt).
    { unfold DateTime.leb in Hle. destruct (DateTime.compare arr dep); congruence. }
    destruct (py_float _) as [price | e].
    + destruct (PyFloat.leb price PyFloat.zero);
        (eexists; split; [ reflexivity | ]; split; [ congruence | ]; intros _; discriminate).
    + eexists. split; [ reflexivity | ]. split; [ congruence | ]. intros _. discriminate.
Qed.

Lemma arrival_after_departure_rule_witness :
  validate_row (row_with_times "2025-11-20 08:00" "2025-11-20 08:00") "sample" 2
  = Ret (None, "arrival_datetime must be after departure_datetime")
  /\ exists r,
      validate_row (row_with_times "2025-11-20 08:00" "2025-11-20 08:01") "sample" 3 = Ret r
      /\ snd r <> "arrival_datetime must be after departure_datetime".
Proof.
  split.
  - destruct (arrival_after_departure_rule
                (row_with_times "2025-11-20 08:00" "2025-11-20 08:00") "sample" 2
                (PStr "2025-11-20 08:00") (PStr "2025-11-20 08:00")
                (DateTime.mkdt 2025 11 20 8 0) (DateTime.mkdt 2025 11 20 8 0)
                eq_refl eq_refl eq_refl eq_refl eq_refl eq_refl eq_refl eq_refl)
      as (r & Hr & Heq & _).
    rewrite Hr. f_equal. apply Heq. discriminate.
  - destruct (arrival_after_departure_rule
                (row_with_times "2025-11-20 08:00" "2025-11-20 08:01") "sample" 3
                (PStr "2025-11-20 08:00") (PStr "2025-11-20 08:01")
                (DateTime.mkdt 2025 11 20 8 0) (DateTime.mkdt 2025 11 20 8 1)
                eq_refl eq_refl eq_refl eq_refl eq_refl eq_refl eq_refl eq_refl)
      as (r & Hr & _ & Hne).
    exists r. split; [ exact Hr | ]. apply Hne. reflexivity.
Defined.

(** C6 (amended).  A row that satisfies every rule of the validation
    sequence and is not dated in the year 0000 (the arrival, being
    later than the departure, then is not either) is accepted; the
    record's [flight_id], [origin] and [destination] are the trimmed
    originals, its price is the parsed float, and each datetime field
    is the parsed value rendered again; for a year written with four
    significant digits (1000 to 9999) the rendering is the trimmed
    input text. *)
Theorem well_formed_row_accepted (row : dict) (file : string) (lineno : Z) :
  Spec.well_formed_row row = true ->
  Spec.year_from_1 (Spec.text_or_empty row "departure_datetime") = true ->
  exists flight vdep varr dep arr price,
    validate_row row file lineno = Ret (Some flight, EmptyString)
    /\ dict_get flight "flight_id" = Some (PStr (Spec.text_or_empty row "flight_id"))
    /\ dict_get flight "origin" = Some (PStr (Spec.text_or_empty row "origin"))
    /\ dict_get flight "destination" = Some (PStr (Spec.text_or_empty row "destination"))
    /\ dict_get row "departure_datetime" = Some vdep
    /\ parse_iso_datetime vdep = Ret dep
    /\ Spec.datetime_fields (Spec.text_or_empty row "departure_datetime") = Some dep
    /\ dict_get flight "departure_datetime" = Some (PStr (DateTime.strftime dep))
    /\ (Spec.year_from_1000 (Spec.text_or_empty row "departure_datetime") = true ->
        DateTime.strftime dep = Spec.text_or_empty row "departure_datetime")
    /\ dict_get row "arrival_datetime" = Some varr
    /\ parse_iso_datetime varr = Ret arr
    /\ Spec.datetime_fields (Spec.text_or_empty row "arrival_datetime") = Some arr
    /\ dict_get flight "arrival_datetime" = Some (PStr (DateTime.strftime arr))
    /\ (Spec.year_from_1000 (Spec.text_or_empty row "arrival_datetime") = true ->
        DateTime.strftime arr = Spec.text_or_empty row "arrival_datetime")
    /\ PyFloat.float_of_string (Spec.text_or_empty row "price") = Some price
    /\ dict_get flight "price" = Some (PFloat price).
Proof.
  intros Hwf Hyd.
  unfold Spec.well_formed_row in Hwf.
  apply andb_prop in Hwf. destruct Hwf as [Hwf Hpr].
  apply andb_prop in Hwf. destruct Hwf as [Hwf Hdt].
  apply andb_prop in Hwf. destruct Hwf as [Hwf Hd].
  apply andb_prop in Hwf. destruct Hwf as [Hwf Ho].
  apply andb_prop in Hwf. destruct Hwf as [Hp Hf].
  rewrite (validate_row_rules_1_3 row file lineno Hp Hf Ho Hd).
  assert (Hall : forall f, In f REQUIRED_FIELDS -> Spec.present row f = true).
  { apply forallb_forall. exact Hp. }
  destruct (present_get row "departure_datetime") as (sd & Hgd & Htd & _);
    [ apply Hall; simpl; tauto | ].
  destruct (present_get row "arrival_datetime") as (sa & Hga & Hta & _);
    [ apply Hall; simpl; tauto | ].
  unfold Spec.datetimes_ok in Hdt. unfold Spec.year_from_1 in Hyd.
  unfold Spec.year_from_1000.
  destruct (Spec.datetime_fields (Spec.text_or_empty row "departure_datetime"))
    as [dep |] eqn:Hfd; [ | discriminate Hdt ].
  destruct (Spec.datetime_fields (Spec.text_or_empty row "arrival_datetime"))
    as [arr |] eqn:Hfa; [ | discriminate Hdt ].
  apply andb_prop in Hdt. destruct Hdt as [Hdt Hlt].
  apply andb_prop in Hdt. destruct Hdt as [Hrd Hra].
  apply Z.leb_le in Hyd.
  pose proof (ltb_year dep arr Hlt) as Hya.
  assert (Hpd : parse_iso_datetime (PStr sd) = Ret dep).
  { apply parse_iso_datetime_canonical; [ rewrite <- Htd; exact Hfd | exact Hrd | lia ]. }
  assert (Hpa : parse_iso_datetime (PStr sa) = Ret arr).
  { apply parse_iso_datetime_canonical; [ rewrite <- Hta; exact Hfa | exact Hra | lia ]. }
  unfold Spec.price_ok in Hpr.
  destruct (PyFloat.float_of_string (Spec.text_or_empty row "price")) as [price |] eqn:Hfl;
    [ | discriminate Hpr ].
  exists (copy_extra_fields row
            [ ("flight_id", PStr (Spec.text_or_empty row "flight_id"));
              ("origin", PStr (Spec.text_or_empty row "origin"));
              ("destination", PStr (Spec.text_or_empty row "destination"));
              ("departure_datetime", PStr (DateTime.strftime dep));
              ("arrival_datetime", PStr (DateTime.strftime arr));
              ("price", PFloat price) ]),
    (PStr sd), (PStr sa), dep, arr, price.
  split.
  { unfold datetime_and_price_rules, dict_getitem.
    rewrite Hgd, Hga. cbn [bind]. rewrite Hpd, Hpa.
    rewrite (ltb_not_leb dep arr Hlt).
    rewrite (present_default row "price" PNone) by (apply Hall; simpl; tauto).
    unfold py_float. rewrite Hfl.
    rewrite (float_pos_not_le price Hpr). reflexivity. }
  repeat match goal with |- _ /\ _ => split end;
    try (apply copy_extra_fields_get; reflexivity);
    try assumption; try reflexivity.
  - intro Hy. apply Z.leb_le in Hy.
    apply DateTimeFacts.strftime_canonical; assumption.
  - intro Hy. apply Z.leb_le in Hy.
    apply DateTimeFacts.strftime_canonical; assumption.
Qed.

Lemma well_formed_row_accepted_witness :
  (Spec.well_formed_row row_aa100 = true
   /\ exists flight,
       validate_row row_aa100 "sample" 2 = Ret (Some flight, EmptyString)
       /\ dict_get flight "flight_id" = Some (PStr "AA100")
       /\ dict_get flight "departure_datetime" = Some (PStr "2025-11-20 08:00")
       /\ dict_get flight "arrival_datetime" = Some (PStr "2025-11-20 11:00"))
  /\ (Spec.well_formed_row row_year_0999 = true
      /\ exists flight,
          validate_row row_year_0999 "sample" 3 = Ret (Some flight, EmptyString)
          /\ dict_get flight "flight_id" = Some (PStr "AA100")
          /\ dict_get flight "arrival_datetime" = Some (PStr "1000-01-01 01:00")).
Proof.
  split.
  - split; [ reflexivity | ].
    destruct (well_formed_row_accepted row_aa100 "sample" 2 eq_refl eq_refl)
      as (flight & vdep & varr & dep & arr & price & Hv & Hid & _ & _ & _ & _ & _ & Hfd
          & Hsd & _ & _ & _ & Hfa & Hsa & _).
    exists flight. split; [ exact Hv | ]. split; [ exact Hid | ].
    rewrite Hfd, Hfa, (Hsd eq_refl), (Hsa eq_refl). split; reflexivity.
  - split; [ reflexivity | ].
    destruct (well_formed_row_accepted row_year_0999 "sample" 3 eq_refl eq_refl)
      as (flight & vdep & varr & dep & arr & price & Hv & Hid & _ & _ & _ & _ & _ & _
          & _ & _ & _ & _ & Hfa & Hsa & _).
    exists flight. split; [ exact Hv | ]. split; [ exact Hid | ].
    rewrite Hfa, (Hsa eq_refl). reflexivity.
Defined.

Lemma well_formed_row_year_0000_rejected :
  Spec.well_formed_row row_year_0000 = true
  /\ validate_row row_year_0000 "sample" 2
     = Ret (None,
            "departure_datetime parse error: invalid datetime format (expected 'YYYY-MM-DD HH:MM'): 0000-01-01 00:00").
Proof. split; vm_compute; reflexivity. Qed.

(** C3.  [parse_iso_datetime] accepts texts outside the grammar
    [YYYY-MM-DD HH:MM]: fields of one digit, and several white-space
    characters between date and time. *)
Theorem parse_iso_datetime_accepts_noncanonical :
  Spec.canonical_datetime "2025-1-5 8:5" = false
  /\ parse_iso_datetime (PStr "2025-1-5 8:5") = Ret (DateTime.mkdt 2025 1 5 8 5)
  /\ Spec.canonical_datetime "2025-11-20  08:00" = false
  /\ parse_iso_datetime (PStr "2025-11-20  08:00") = Ret (DateTime.mkdt 2025 11 20 8 0)
  /\ validate_row (row_with_times "2025-1-5 8:5" "2025-1-5 9:5") "sample" 2
     = Ret (Some [ ("flight_id", PStr "AA100"); ("origin", PStr "JFK");
                   ("destination", PStr "LAX");
                   ("departure_datetime", PStr "2025-01-05 08:05");
                   ("arrival_datetime", PStr "2025-01-05 09:05");
                   ("price", PFloat (S754_finite false 7036522574045512 (-45))) ],
            EmptyString).
Proof. repeat split; vm_compute; reflexivity. Qed.

(** The [T] separator, seconds and the empty text are refused, the
    message of [validate_row] naming the field and holding the text. *)
Lemma parse_iso_datetime_rejections :
  parse_iso_datetime (PStr "2025-11-23T07:30:00")
  = Raise (Exn ValueError
             "invalid datetime format (expected 'YYYY-MM-DD HH:MM'): 2025-11-23T07:30:00")
  /\ parse_iso_datetime (PStr "2025-11-23 07:30:00")
     = Raise (Exn ValueError
                "invalid datetime format (expected 'YYYY-MM-DD HH:MM'): 2025-11-23 07:30:00")
  /\ parse_iso_datetime (PStr "   ") = Raise (Exn ValueError "empty datetime")
  /\ validate_row (row_with_times "2025-11-23T07:30" "2025-11-23 09:30") "sample" 2
     = Ret (None, "departure_datetime parse error: invalid datetime format (expected 'YYYY-MM-DD HH:MM'): 2025-11-23T07:30").
Proof. repeat split; vm_compute; reflexivity. Qed.

(** Every text of the grammar with a year from 0001 on is accepted. *)
Lemma parse_iso_datetime_accepts_canonical (s : string) :
  Spec.canonical_datetime (strip s) = true ->
  (forall dt, Spec.datetime_fields (strip s) = Some dt -> 1 <= DateTime.year dt) ->
  exists dt, parse_iso_datetime (PStr s) = Ret dt
             /\ Spec.datetime_fields (strip s) = Some dt.
Proof.
  unfold Spec.canonical_datetime. intros Hc Hy.
  destruct (Spec.datetime_fields (strip s)) as [dt |] eqn:Hf; [ | discriminate Hc ].
  exists dt. split; [ | reflexivity ].
  apply parse_iso_datetime_canonical; [ exact Hf | exact Hc | apply Hy; reflexivity ].
Qed.

(** A rejection by [parse_iso_datetime] is the tool's [ValueError]: for
    the empty text, or with the trimmed text in the message. *)
Lemma parse_iso_datetime_error (s : string) (e : exn) :
  parse_iso_datetime (PStr s) = Raise e ->
  (strip s = EmptyString /\ e = Exn ValueError "empty datetime")
  \/ e = Exn ValueError
           ("invalid datetime format (expected 'YYYY-MM-DD HH:MM'): " ++ strip s).
Proof.
  unfold parse_iso_datetime. cbn [strip_method bind].
  destruct (strip s) as [| c t] eqn:E; cbn [is_empty].
  - intro H. injection H as <-. left. split; reflexivity.
  - destruct (DateTime.strptime (String c t)); cbn [try_except]; [ discriminate | ].
    intro H. injection H as <-. right. reflexivity.
Qed.

(** A text with a character that is no digit, hyphen, colon or white
    space (a letter such as the [T] separator) is rejected. *)
Lemma parse_iso_datetime_rejects_letters (s : string) :
  all_chars datetime_chr (strip s) = false ->
  parse_iso_datetime (PStr s)
  = Raise (Exn ValueError
             ("invalid datetime format (expected 'YYYY-MM-DD HH:MM'): " ++ strip s)).
Proof.
  intro H. unfold parse_iso_datetime. cbn [strip_method bind].
  destruct (strip s) as [| c t] eqn:E; [ discriminate H | ]. cbn [is_empty].
  destruct (DateTime.strptime (String c t)) as [dt |] eqn:Ep; [ | reflexivity ].
  apply RegexFacts.strptime_accepts_only in Ep. congruence.
Qed.

(** C5.  A row whose price is the text [nan] is accepted, and the price
    of its record is a NaN, which is not greater than zero. *)
Theorem nan_price_accepted :
  validate_row (row_price "nan") "sample" 2
  = Ret (Some [ ("flight_id", PStr "AA100"); ("origin", PStr "JFK");
                ("destination", PStr "LAX");
                ("departure_datetime", PStr "2025-11-20 08:00");
                ("arrival_datetime", PStr "2025-11-20 11:00");
                ("price", PFloat PyFloat.nan) ], EmptyString)
  /\ PyFloat.ltb PyFloat.zero PyFloat.nan = false.
Proof. split; vm_compute; reflexivity. Qed.

(** The price rule on the texts the specification names. *)
Lemma price_rule_examples :
  validate_row (row_price "0") "sample" 2 = Ret (None, "price must be a positive number")
  /\ validate_row (row_price "-5") "sample" 2 = Ret (None, "price must be a positive number")
  /\ validate_row (row_price "abc") "sample" 2 = Ret (None, "price must be a positive float")
  /\ validate_row (row_price "1e-400") "sample" 2 = Ret (None, "price must be a positive number")
  /\ (exists flight, validate_row (row_price "0.01") "sample" 2 = Ret (Some flight, EmptyString))
  /\ (exists flight, validate_row (row_price "1e300") "sample" 2 = Ret (Some flight, EmptyString)).
Proof.
  repeat split; try (vm_compute; reflexivity); eexists; vm_compute; reflexivity.
Qed.

(** A row whose price does not read as a float, or reads as a float that
    is at most zero, is rejected. *)
Lemma bad_price_rejected (row : dict) (file : string) (lineno : Z) :
  match PyFloat.float_of_string (strip (py_str (dict_get_default row "price" PNone))) with
  | Some x => PyFloat.leb x PyFloat.zero = true
  | None => True
  end ->
  exists msg, validate_row row file lineno = Ret (None, msg).
Proof.
  intro H. unfold validate_row, py_float.
  destruct (first_missing REQUIRED_FIELDS row); [ eexists; reflexivity | ].
  repeat match goal with
         | |- context [if negb ?c then _ else _] =>
             destruct c; cbn [negb]; [ | eexists; reflexivity ]
         | |- context [match bind ?c ?k with Ret _ => _ | Raise _ => _ end] =>
             destruct (bind c k); [ | eexists; reflexivity ]
         | |- context [if DateTime.leb ?a ?b then _ else _] =>
             destruct (DateTime.leb a b); [ eexists; reflexivity | ]
         end.
  destruct (PyFloat.float_of_string _) as [x |]; [ | eexists; reflexivity ].
  rewrite H. eexists; reflexivity.
Qed.

(** The price of an accepted record is greater than zero or a NaN. *)
Lemma accepted_price_positive_or_nan
      (row : dict) (file : string) (lineno : Z) (flight : dict) :
  validate_row row file lineno = Ret (Some flight, EmptyString) ->
  exists x, dict_get flight "price" = Some (PFloat x)
            /\ (PyFloat.ltb PyFloat.zero x = true \/ x = PyFloat.nan).
Proof.
  intro H.
  destruct (validate_row_accepted_inv row file lineno flight H)
    as (fid & origin & dest & dep & arr & price & -> & _ & Hp).
  exists price. split; [ apply copy_extra_fields_get; reflexivity | ].
  destruct price as [s | [|] | | [|] m e]; try discriminate Hp;
    solve [ left; reflexivity | right; reflexivity ].
Qed.

(** C1.  On the two records that [validate_row] builds for the rows of
    the query test, the November range query raises [KeyError] for the
    key [departure]: no record is returned. *)
Theorem departure_between_raises_key_error :
  validate_row row_aa100 "sample" 2 = Ret (Some flight_aa100, EmptyString)
  /\ validate_row row_ua400 "sample" 3 = Ret (Some flight_ua400, EmptyString)
  /\ apply_filters [flight_aa100; flight_ua400] query_november
     = Raise (Exn KeyError "'departure'").
Proof. repeat split; vm_compute; reflexivity. Qed.

(** A record of [validate_row] has the key [departure] only when the row
    has a column of that name. *)
Lemma validate_row_no_departure_key
      (row : dict) (file : string) (lineno : Z) (flight : dict) :
  dict_get row "departure" = None ->
  validate_row row file lineno = Ret (Some flight, EmptyString) ->
  dict_get flight "departure" = None.
Proof.
  intros Hrow H.
  destruct (validate_row_accepted_inv row file lineno flight H)
    as (fid & origin & dest & dep & arr & price & -> & _).
  apply copy_extra_fields_get_none; [ exact Hrow | reflexivity ].
Qed.

(** The range clause raises on every non-empty record list whose first
    record has no key [departure], whatever the bounds that parse. *)
Lemma departure_between_key_error
      (f : dict) (flights : list dict) (q : dict)
      (b1 b2 : pyval) (d1 d2 : DateTime.datetime) :
  dict_get q "filter" = None ->
  dict_get q "departure_between" = Some (PList [b1; b2]) ->
  parse_iso_datetime b1 = Ret d1 ->
  parse_iso_datetime b2 = Ret d2 ->
  dict_get f "departure" = None ->
  apply_filters (f :: flights) q = Raise (Exn KeyError "'departure'").
Proof.
  intros Hf Hq H1 H2 Hd.
  unfold apply_filters, filter_items. rewrite Hf. cbn [bind equality_filters fold_left].
  unfold departure_between, dict_mem, dict_getitem. rewrite Hq.
  cbn [bind unpack2]. rewrite H1. cbn [bind]. rewrite H2. cbn [bind filterM].
  rewrite Hd. reflexivity.
Qed.

(** So it does on the records of any rows without such a column. *)
Lemma departure_between_fails_on_validated_records
      (row : dict) (file : string) (lineno : Z) (flight : dict)
      (flights : list dict) (q : dict) (b1 b2 : pyval) (d1 d2 : DateTime.datetime) :
  dict_get row "departure" = None ->
  validate_row row file lineno = Ret (Some flight, EmptyString) ->
  dict_get q "filter" = None ->
  dict_get q "departure_between" = Some (PList [b1; b2]) ->
  parse_iso_datetime b1 = Ret d1 ->
  parse_iso_datetime b2 = Ret d2 ->
  apply_filters (flight :: flights) q = Raise (Exn KeyError "'departure'").
Proof.
  intros Hrow Hv Hf Hq H1 H2.
  apply (departure_between_key_error flight flights q b1 b2 d1 d2); try assumption.
  exact (validate_row_no_departure_key row file lineno flight Hrow Hv).
Qed.

(** What the range clause does on records that do have the key: it keeps
    those whose [departure] lies between the bounds, both included. *)
Lemma departure_between_inclusive :
  apply_filters
    [ [ ("flight_id", PStr "A1"); ("departure", PStr "2025-11-01 00:00") ];
      [ ("flight_id", PStr "A2"); ("departure", PStr "2025-11-30 23:59") ];
      [ ("flight_id", PStr "A3"); ("departure", PStr "2025-12-01 00:00") ] ]
    query_november
  = Ret [ [ ("flight_id", PStr "A1"); ("departure", PStr "2025-11-01 00:00") ];
          [ ("flight_id", PStr "A2"); ("departure", PStr "2025-11-30 23:59") ] ].
Proof. vm_compute. reflexivity. Qed.

Module QueryFacts.

Lemma filter_filter {A : Type} (p q : A -> bool) (l : list A) :
  filter q (filter p l) = filter (fun x => p x && q x) l.
Proof.
  induction l as [| x l IH]; simpl; [ reflexivity | ].
  destruct (p x); simpl; [ destruct (q x) | ]; rewrite IH; reflexivity.
Qed.

Lemma filter_ext_all {A : Type} (p q : A -> bool) (l : list A) :
  (forall x, p x = q x) -> filter p l = filter q l.
Proof.
  intro H. induction l as [| x l IH]; simpl; [ reflexivity | ].
  rewrite H, IH. reflexivity.
Qed.

Lemma filter_all_true {A : Type} (l : list A) : filter (fun _ => true) l = l.
Proof. induction l as [| x l IH]; simpl; [ | rewrite IH ]; reflexivity. Qed.

Lemma filter_none {A : Type} (p : A -> bool) (l : list A) :
  (forall x, In x l -> p x = false) -> filter p l = [].
Proof.
  induction l as [| x l IH]; intro H; simpl; [ reflexivity | ].
  rewrite (H x (or_introl eq_refl)). apply IH. intros y Hy. apply H. right. exact Hy.
Qed.

(** The loop over the pairs narrows to the records all pairs match. *)
Lemma equality_filters_spec (filt : dict) (flights : list dict) :
  equality_filters filt flights = filter (Spec.record_matches filt) flights.
Proof.
  unfold equality_filters. revert flights.
  induction filt as [| kv filt IH]; intro flights; simpl.
  - symmetry. apply filter_all_true.
  - rewrite IH, filter_filter. apply filter_ext_all. intro f. reflexivity.
Qed.

Lemma bind_ret {A : Type} (c : M A) : bind c (fun x => Ret x) = c.
Proof. destruct c; reflexivity. Qed.

Lemma filter_items_dict (q filt : dict) :
  dict_get q "filter" = Some (PDict filt) -> filter_items q = Ret filt.
Proof.
  intro H. unfold filter_items. rewrite H. destruct filt; reflexivity.
Qed.

Lemma run_queries_from_spec (flights : list dict) (qs : list dict) (ms : list (list dict)) :
  Forall2 (fun q m => apply_filters flights q = Ret m) qs ms ->
  forall qi,
  exists results,
    run_queries_from flights qi (map PDict qs) = Ret results
    /\ List.length results = List.length qs
    /\ forall i q m,
        nth_error qs i = Some q -> nth_error ms i = Some m ->
        nth_error results i
        = Some (result_entry (query_name q (qi + Z.of_nat i)) m).
Proof.
  induction 1 as [| q m qs ms Hq _ IH]; intro qi.
  - exists []. repeat split. intros [| i] q m H; discriminate H.
  - destruct (IH (qi + 1)) as (results & Hr & Hl & Hn).
    exists (result_entry (query_name q qi) m :: results).
    split.
    { simpl. rewrite Hq. cbn [bind]. rewrite Hr. reflexivity. }
    split; [ simpl; rewrite Hl; reflexivity | ].
    intros [| i] q' m' Hq' Hm'; simpl in Hq', Hm' |- *.
    + injection Hq' as <-. injection Hm' as <-.
      rewrite Z.add_0_r. reflexivity.
    + rewrite (Hn i q' m' Hq' Hm'). do 3 f_equal. lia.
Qed.

End QueryFacts.

Import QueryFacts.

(** C7.  For a query whose [filter] is a mapping, [apply_filters] hands
    to the range clauses exactly the records that match every pair of
    the filter, in their original order; without range clauses that is
    the result, and it is empty, with count 0, when no record matches. *)
Theorem equality_filter_semantics (flights : list dict) (q filt : dict) :
  dict_get q "filter" = Some (PDict filt) ->
  apply_filters flights q
  = bind (departure_between q (filter (Spec.record_matches filt) flights))
      (fun res => bind (arrival_before q res) (fun res => arrival_after q res))
  /\ (dict_mem q "departure_between" = false ->
      dict_mem q "arrival_before" = false ->
      dict_mem q "arrival_after" = false ->
      apply_filters flights q = Ret (filter (Spec.record_matches filt) flights)
      /\ ((forall f, In f flights -> Spec.record_matches filt f = false) ->
          apply_filters flights q = Ret []
          /\ forall qi,
              run_query flights qi (PDict q)
              = Ret (PDict [ ("name", query_name q qi); ("count", PInt 0);
                             ("results", PList []) ]))).
Proof.
  intro Hf.
  assert (E : apply_filters flights q
              = bind (departure_between q (filter (Spec.record_matches filt) flights))
                  (fun res => bind (arrival_before q res) (fun res => arrival_after q res))).
  { unfold apply_filters. rewrite (filter_items_dict q filt Hf). cbn [bind].
    rewrite equality_filters_spec.
    destruct (departure_between q _) as [r1 |]; cbn [bind]; [ | reflexivity ].
    destruct (arrival_before q r1) as [r2 |]; cbn [bind]; [ | reflexivity ].
    apply bind_ret. }
  split; [ exact E | ].
  intros H1 H2 H3.
  assert (E' : apply_filters flights q = Ret (filter (Spec.record_matches filt) flights)).
  { rewrite E. unfold departure_between, arrival_before, arrival_after.
    rewrite H1. cbn [bind]. rewrite H2. cbn [bind]. rewrite H3. reflexivity. }
  split; [ exact E' | ].
  intro Hnone.
  assert (E0 : apply_filters flights q = Ret []).
  { rewrite E'. rewrite (filter_none _ _ Hnone). reflexivity. }
  split; [ exact E0 | ].
  intro qi. unfold run_query. rewrite E0. reflexivity.
Qed.

Lemma equality_filter_semantics_witness :
  apply_filters [flight_aa100; flight_ua400] query_origin_jfk = Ret [flight_aa100].
Proof.
  destruct (equality_filter_semantics [flight_aa100; flight_ua400] query_origin_jfk
              [ ("origin", PStr "jfk") ] eq_refl) as [_ H].
  destruct (H eq_refl eq_refl eq_refl) as [E _].
  rewrite E. reflexivity.
Defined.

(** C8 (amended).  When every query of the batch is evaluated without
    an exception, [run_queries] returns one entry per query, in input
    order; the entry of the [i]-th query (from 1) carries the matched
    records, their count, and as name the query's [name] when it is
    present and true as a condition, the placeholder [q<i>] when it is
    absent or false as a condition (empty). *)
Theorem run_queries_in_order
        (flights : list dict) (qs : list dict) (ms : list (list dict)) :
  Forall2 (fun q m => apply_filters flights q = Ret m) qs ms ->
  exists results,
    run_queries flights (PList (map PDict qs)) = Ret (PDict [ ("queries", PList results) ])
    /\ List.length results = List.length qs
    /\ forall i q m,
        nth_error qs i = Some q -> nth_error ms i = Some m ->
        exists name,
          nth_error results i
          = Some (PDict [ ("name", name);
                          ("count", PInt (Z.of_nat (List.length m)));
                          ("results", PList (map PDict m)) ])
          /\ (forall v, dict_get q "name" = Some v -> truthy v = true -> name = v)
          /\ (dict_get q "name" = None
              \/ (exists v, dict_get q "name" = Some v /\ truthy v = false) ->
              name = PStr ("q" ++ str_int (Z.of_nat i + 1))).
Proof.
  intro H.
  destruct (run_queries_from_spec flights qs ms H 1) as (results & Hr & Hl & Hn).
  exists results. split; [ unfold run_queries; rewrite Hr; reflexivity | ].
  split; [ exact Hl | ].
  intros i q m Hq Hm. exists (query_name q (1 + Z.of_nat i)).
  split; [ exact (Hn i q m Hq Hm) | ].
  unfold query_name. rewrite (Z.add_comm 1).
  split.
  - intros v Hv Ht. rewrite Hv, Ht. reflexivity.
  - intros [Hnone | (v & Hv & Ht)]; [ rewrite Hnone | rewrite Hv, Ht ]; reflexivity.
Qed.

Lemma run_queries_in_order_witness :
  exists results,
    run_queries [flight_aa100; flight_ua400]
      (PList [ PDict [ ("name", PStr "from JFK"); ("filter", PDict [ ("origin", PStr "jfk") ]) ];
               PDict [ ("filter", PDict [ ("origin", PStr "XXX") ]) ] ])
    = Ret (PDict [ ("queries", PList results) ])
    /\ List.length results = 2%nat.
Proof.
  destruct (run_queries_in_order [flight_aa100; flight_ua400]
              [ [ ("name", PStr "from JFK"); ("filter", PDict [ ("origin", PStr "jfk") ]) ];
                [ ("filter", PDict [ ("origin", PStr "XXX") ]) ] ]
              [ [flight_aa100]; [] ])
    as (results & Hr & Hl & _).
  - repeat constructor.
  - exists results. split; [ exact Hr | exact Hl ].
Defined.

(** A query whose name is present and empty gets the placeholder, not
    the name it supplied. *)
Lemma empty_name_replaced :
  dict_get [ ("name", PStr "") ] "name" = Some (PStr "")
  /\ run_queries [] (PList [ PDict [ ("name", PStr "") ] ])
     = Ret (PDict [ ("queries",
                     PList [ PDict [ ("name", PStr "q1"); ("count", PInt 0);
                                     ("results", PList []) ] ]) ])
  /\ PStr "q1" <> PStr "".
Proof. repeat split; try reflexivity. discriminate. Qed.

(** A query that raises ends the run with its exception. *)
Lemma run_queries_aborts
      (flights : list dict) (qs1 : list dict) (ms1 : list (list dict))
      (q : dict) (qs2 : list pyval) (e : exn) :
  Forall2 (fun q m => apply_filters flights q = Ret m) qs1 ms1 ->
  apply_filters flights q = Raise e ->
  run_queries flights (PList (map PDict qs1 ++ PDict q :: qs2)) = Raise e.
Proof.
  intros H He. unfold run_queries.
  assert (E : forall qi,
             run_queries_from flights qi (map PDict qs1 ++ PDict q :: qs2) = Raise e).
  { induction H as [| q1 m1 qs1 ms1 Hq1 _ IH]; intro qi; simpl.
    - rewrite He. reflexivity.
    - rewrite Hq1. cbn [bind]. rewrite IH. reflexivity. }
  rewrite E. reflexivity.
Qed.

Module ReadFacts.

Lemma row_one_entry (p : string) (lineno : Z) (row : dict) :
  (exists d, row_valid p lineno row = [d] /\ row_errors p lineno row = []
             /\ validate_row row p lineno = Ret (Some d, EmptyString)
             /\ truthy (PDict d) = true)
  \/ (exists msg, row_valid p lineno row = []
                  /\ row_errors p lineno row = [row_error p lineno msg row]
                  /\ validate_row row p lineno = Ret (None, msg)).
Proof.
  unfold row_valid, row_errors.
  destruct (validate_row_outcome row p lineno) as [(d & H & Ht) | (msg & H)]; rewrite H.
  - left. exists d. repeat split. exact Ht.
  - right. exists msg. repeat split.
Qed.

Lemma read_rows_spec (p : string) (rows : list dict) :
  forall lineno valid errors,
    read_rows p lineno rows valid errors
    = ((valid ++ rows_valid p lineno rows)%list,
       (errors ++ rows_errors p lineno rows)%list, None).
Proof.
  induction rows as [| row rows IH]; intros lineno valid errors;
    cbn [read_rows rows_valid rows_errors].
  - rewrite !app_nil_r. reflexivity.
  - destruct (row_one_entry p lineno row)
      as [(d & Hv & He & Hr & Ht) | (msg & Hv & He & Hr)];
      rewrite Hr, Hv, He.
    + rewrite Ht, IH. simpl. rewrite <- app_assoc. reflexivity.
    + rewrite IH. simpl. rewrite <- app_assoc. reflexivity.
Qed.

Lemma read_file_spec (fs : string -> source) (p : string)
      (valid : list dict) (errors : list string) :
  read_file fs p valid errors
  = ((valid ++ source_valid fs p)%list, (errors ++ source_errors fs p)%list).
Proof.
  unfold read_file, source_valid, source_errors.
  destruct (fs p) as [e | rows failure].
  - rewrite app_nil_r. reflexivity.
  - rewrite read_rows_spec. destruct failure as [e |].
    + rewrite <- app_assoc. reflexivity.
    + rewrite !app_nil_r. reflexivity.
Qed.

Lemma parse_fold_spec (fs : string -> source) (paths : list string) :
  forall st,
    fold_left (fun st p => read_file fs p (fst st) (snd st)) paths st
    = ((fst st ++ flat_map (source_valid fs) paths)%list,
       (snd st ++ flat_map (source_errors fs) paths)%list).
Proof.
  induction paths as [| p paths IH]; intros [valid errors]; simpl.
  - rewrite !app_nil_r. reflexivity.
  - rewrite IH, read_file_spec. simpl. rewrite <- !app_assoc. reflexivity.
Qed.

Lemma rows_count (p : string) (rows : list dict) :
  forall lineno,
    (List.length (rows_valid p lineno rows) + List.length (rows_errors p lineno rows)
     = List.length rows)%nat.
Proof.
  induction rows as [| row rows IH]; intro lineno; simpl; [ reflexivity | ].
  rewrite !length_app.
  specialize (IH (lineno + 1)).
  destruct (row_one_entry p lineno row)
    as [(d & Hv & He & _) | (msg & Hv & He & _)]; rewrite Hv, He; simpl; lia.
Qed.

End ReadFacts.

Import ReadFacts.

(** What one path gives when it is read alone. *)
Lemma parse_csv_files_one (fs : string -> source) (p : string) :
  parse_csv_files fs [p] = (source_valid fs p, source_errors fs p).
Proof.
  unfold parse_csv_files. rewrite parse_fold_spec. cbn [fst snd app flat_map].
  rewrite !app_nil_r. reflexivity.
Qed.

(** C9.  For every file system and list of paths, [parse_csv_files]
    returns the records and the error entries that each path gives when
    read alone, joined in the order of the paths: no source stops the
    batch.  A source that cannot be opened gives no record and one
    entry that describes the failure: the file-not-found text with the
    path, or the path with the text of the exception.  A source that is
    read gives the records and the error entries of its rows in line
    order, from line 2 on, as many together as rows read, and after
    them one such entry when the reading fails.  Each row yields exactly
    one of a record and an error entry, the entry of a rejected row being
    built from the path, the line number, the reason and the row, and
    the rows after it are still read. *)
Theorem parse_csv_files_collects (fs : string -> source) (paths : list string) :
  parse_csv_files fs paths
  = (flat_map (fun p => fst (parse_csv_files fs [p])) paths,
     flat_map (fun p => snd (parse_csv_files fs [p])) paths)
  /\ (forall p e,
        fs p = OpenFails e ->
        (exn_cls e = FileNotFoundError ->
         parse_csv_files fs [p] = ([], ["file not found: " ++ p]))
        /\ (exn_cls e <> FileNotFoundError ->
            parse_csv_files fs [p] = ([], [p ++ ": error reading file: " ++ exn_str e])))
  /\ (forall p rows failure,
        fs p = Reads rows failure ->
        exists closing,
          parse_csv_files fs [p]
          = (rows_valid p 2 rows, (rows_errors p 2 rows ++ closing)%list)
          /\ (List.length (rows_valid p 2 rows) + List.length (rows_errors p 2 rows)
              = List.length rows)%nat
          /\ (failure = None -> closing = [])
          /\ (forall e, failure = Some e -> exn_cls e = FileNotFoundError ->
                        closing = ["file not found: " ++ p])
          /\ (forall e, failure = Some e -> exn_cls e <> FileNotFoundError ->
                        closing = [p ++ ": error reading file: " ++ exn_str e]))
  /\ (forall p lineno,
        rows_valid p lineno [] = [] /\ rows_errors p lineno [] = []
        /\ forall row rows,
            (exists d, validate_row row p lineno = Ret (Some d, EmptyString)
                       /\ rows_valid p lineno (row :: rows)
                          = d :: rows_valid p (lineno + 1) rows
                       /\ rows_errors p lineno (row :: rows)
                          = rows_errors p (lineno + 1) rows)
            \/ (exists reason, validate_row row p lineno = Ret (None, reason)
                               /\ rows_valid p lineno (row :: rows)
                                  = rows_valid p (lineno + 1) rows
                               /\ rows_errors p lineno (row :: rows)
                                  = (p ++ ":" ++ str_int lineno ++ ": " ++ reason
                                       ++ " -- " ++ py_repr (PDict row))
                                    :: rows_errors p (lineno + 1) rows)).
Proof.
  split.
  { unfold parse_csv_files at 1. rewrite parse_fold_spec. cbn [fst snd app].
    f_equal; apply flat_map_ext; intro p; rewrite parse_csv_files_one; reflexivity. }
  split.
  { intros p e Hfs. rewrite parse_csv_files_one.
    unfold source_valid, source_errors. rewrite Hfs.
    unfold file_error.
    split; intro H; destruct (exn_cls e);
      first [ reflexivity | discriminate H | exfalso; apply H; reflexivity ]. }
  split.
  { intros p rows failure Hfs. rewrite parse_csv_files_one.
    unfold source_valid, source_errors. rewrite Hfs.
    exists (match failure with Some e => [file_error p e] | None => [] end).
    split; [ reflexivity | ]. split; [ apply rows_count | ].
    split; [ intros ->; reflexivity | ].
    unfold file_error.
    split; intros e -> H; destruct (exn_cls e);
      first [ reflexivity | discriminate H | exfalso; apply H; reflexivity ]. }
  intros p lineno. split; [ reflexivity | ]. split; [ reflexivity | ].
  intros row rows. cbn [rows_valid rows_errors].
  destruct (row_one_entry p lineno row)
    as [(d & Hv & He & Hr & _) | (msg & Hv & He & Hr)]; rewrite Hv, He.
  - left. exists d. repeat split. exact Hr.
  - right. exists msg. repeat split. exact Hr.
Qed.

Lemma parse_csv_files_scenario :
  parse_csv_files sample_fs ["flights.csv"; "absent.csv"]
  = ([ flight_aa100 ],
     [ "flights.csv:3: missing required field 'origin' -- {'flight_id': 'BA200', 'origin': '', 'destination': 'LHR', 'departure_datetime': '2025-11-21 09:00', 'arrival_datetime': '2025-11-21 19:00', 'price': '299.50'}";
       "flights.csv:4: arrival_datetime must be after departure_datetime -- {'flight_id': 'AA100', 'origin': 'JFK', 'destination': 'LAX', 'departure_datetime': '2025-11-22 15:00', 'arrival_datetime': '2025-11-22 14:00', 'price': '199.99'}";
       "file not found: absent.csv" ]).
Proof. vm_compute. reflexivity. Qed.

Import CharFacts StrFacts DictFacts ValidateFacts RuleFacts QueryFacts ReadFacts.

Module MatchFacts.
Import DateTime DateTimeFacts.

Lemma star_cls_inv {A : Type} (p : ascii -> bool) (s : string)
      (K : string -> string -> option A) (x : A) :
  star_cls p s K = Some x ->
  exists t rest, s = t ++ rest /\ all_chars p t = true /\ K t rest = Some x.
Proof.
  revert K.
  induction s as [| c s IH]; intros K H; simpl in H.
  - exists EmptyString, EmptyString. repeat split. exact H.
  - destruct (p c) eqn:Hc.
    + destruct (star_cls p s (fun t r => K (String c t) r)) as [y |] eqn:E.
      * injection H as ->. destruct (IH _ E) as (t & rest & -> & Ht & HK).
        exists (String c t), rest. simpl. rewrite Hc, Ht. repeat split. exact HK.
      * exists EmptyString, (String c s). repeat split. exact H.
    + exists EmptyString, (String c s). repeat split. exact H.
Qed.

(** The matcher is sound for the declarative reading: what it hands to
    its continuation is a text the expression matches, with the captures
    of that match. *)
Lemma rmatch_inv {A : Type} (r : regex) :
  forall (s : string) (caps : captures)
         (K : string -> captures -> string -> option A) (x : A),
    rmatch r s caps K = Some x ->
    exists t caps' rest,
      s = t ++ rest /\ matches r t caps caps' /\ K t caps' rest = Some x.
Proof.
  induction r as [c | p | p | r1 IH1 r2 IH2 | r1 IH1 r2 IH2 | name r1 IH1];
    intros s caps K x H; simpl in H.
  - destruct s as [| c' s]; [ discriminate H | ].
    destruct (Ascii.eqb_spec c c') as [<- | _]; [ | discriminate H ].
    exists (String c EmptyString), caps, s. simpl. repeat split. exact H.
  - destruct s as [| c' s]; [ discriminate H | ].
    destruct (p c') eqn:Hc; [ | discriminate H ].
    exists (String c' EmptyString), caps, s. simpl.
    split; [ reflexivity | ]. split; [ | exact H ].
    exists c'. repeat split. exact Hc.
  - destruct s as [| c' s]; [ discriminate H | ].
    destruct (p c') eqn:Hc; [ | discriminate H ].
    destruct (star_cls_inv p s _ x H) as (t & rest & -> & Ht & HK).
    exists (String c' t), caps, rest. simpl. rewrite Hc, Ht.
    repeat split; [ discriminate | exact HK ].
  - destruct (IH1 _ _ _ _ H) as (t1 & caps1 & s1 & -> & M1 & H1).
    destruct (IH2 _ _ _ _ H1) as (t2 & caps2 & s2 & -> & M2 & H2).
    exists (t1 ++ t2), caps2, s2. rewrite append_assoc.
    split; [ reflexivity | ]. split; [ | exact H2 ].
    simpl. exists t1, t2, caps1. repeat split; assumption.
  - destruct (rmatch r1 s caps K) as [y |] eqn:E.
    + injection H as ->.
      destruct (IH1 _ _ _ _ E) as (t & caps' & rest & -> & M1 & HK).
      exists t, caps', rest. repeat split; [ left; exact M1 | exact HK ].
    + destruct (IH2 _ _ _ _ H) as (t & caps' & rest & -> & M2 & HK).
      exists t, caps', rest. repeat split; [ right; exact M2 | exact HK ].
  - destruct (IH1 _ _ _ _ H) as (t & caps1 & rest & -> & M1 & HK).
    exists t, ((name, t) :: caps1), rest.
    split; [ reflexivity | ]. split; [ | exact HK ].
    simpl. exists caps1. split; [ exact M1 | reflexivity ].
Qed.


Lemma in_range_bounds (lo hi : Z) (c : ascii) :
  in_range lo hi c = true <-> lo <= code c <= hi.
Proof.
  unfold in_range. rewrite andb_true_iff, !Z.leb_le. tauto.
Qed.

Lemma is_decimal_bounds (c : ascii) : is_decimal c = true <-> 48 <= code c <= 57.
Proof. apply in_range_bounds. Qed.

Lemma int_of_group1 (a : ascii) :
  is_decimal a = true -> int_of_group (String a EmptyString) = digit_val a.
Proof.
  intro Ha. pose proof (decimal_not_space a Ha) as Sa.
  unfold int_of_group, strip. cbn [lstrip]. rewrite Sa.
  cbn [rstrip]. rewrite Sa. cbn [andb digits_value]. lia.
Qed.

Lemma int_of_group_blank (a : ascii) :
  is_decimal a = true -> int_of_group (String " " (String a EmptyString)) = digit_val a.
Proof.
  intro Ha. pose proof (decimal_not_space a Ha) as Sa.
  unfold int_of_group, strip. cbn [lstrip].
  replace (is_space " ") with true by reflexivity. rewrite Sa.
  cbn [rstrip]. rewrite Sa. cbn [andb digits_value]. lia.
Qed.

(** Turns the tests of a match into bounds on character codes. *)
Ltac match_cases H :=
  cbn [matches re_Y re_m re_d re_H re_M digit range] in H;
  repeat match goal with
         | E : exists _, _ |- _ => destruct E
         | E : _ /\ _ |- _ => destruct E
         | E : _ \/ _ |- _ => destruct E
         end;
  subst; cbn [append] in *.

Ltac char_bounds :=
  repeat match goal with
         | E : in_range _ _ _ = true |- _ =>
             apply in_range_bounds in E; vm_compute (code "0"%char) in E;
             vm_compute (code "1"%char) in E; vm_compute (code "2"%char) in E;
             vm_compute (code "3"%char) in E; vm_compute (code "5"%char) in E;
             vm_compute (code "9"%char) in E
         | E : is_decimal _ = true |- _ => apply is_decimal_bounds in E
         end.

Ltac group_value :=
  first [ rewrite int_of_group2 by (apply is_decimal_bounds; first [ lia | vm_compute; split; discriminate ])
        | rewrite int_of_group1 by (apply is_decimal_bounds; lia)
        | rewrite int_of_group_blank by (apply is_decimal_bounds; lia) ];
  unfold Spec.num2, digit_val;
  repeat match goal with
         | |- context [code ?c] =>
             lazymatch c with
             | Ascii _ _ _ _ _ _ _ _ => let v := eval vm_compute in (code c) in
                                        change (code c) with v
             end
         end.

Lemma matches_re_H (t : string) (caps caps' : captures) :
  matches re_H t caps caps' ->
  caps' = ("H", t) :: caps /\ 0 <= int_of_group t <= 23.
Proof.
  intro H. match_cases H; (split; [ reflexivity | ]); char_bounds; group_value; lia.
Qed.

Lemma matches_re_M (t : string) (caps caps' : captures) :
  matches re_M t caps caps' ->
  caps' = ("M", t) :: caps /\ 0 <= int_of_group t <= 59.
Proof.
  intro H. match_cases H; (split; [ reflexivity | ]); char_bounds; group_value; lia.
Qed.

Lemma matches_re_m (t : string) (caps caps' : captures) :
  matches re_m t caps caps' ->
  caps' = ("m", t) :: caps /\ 1 <= int_of_group t <= 12.
Proof.
  intro H. match_cases H; (split; [ reflexivity | ]); char_bounds; group_value; lia.
Qed.

Lemma matches_re_d (t : string) (caps caps' : captures) :
  matches re_d t caps caps' ->
  caps' = ("d", t) :: caps /\ 1 <= int_of_group t <= 31.
Proof.
  intro H. match_cases H; (split; [ reflexivity | ]); char_bounds; group_value; lia.
Qed.

Lemma matches_re_Y (t : string) (caps caps' : captures) :
  matches re_Y t caps caps' ->
  caps' = ("Y", t) :: caps /\ 0 <= int_of_group t <= 9999.
Proof.
  intro H. match_cases H. split; [ reflexivity | ].
  rewrite int_of_group4 by assumption.
  char_bounds. unfold Spec.num4, digit_val. lia.
Qed.


Ltac decimal_goal :=
  cbn [all_chars];
  repeat match goal with
         | |- (is_decimal ?c && _)%bool = true =>
             apply andb_true_intro; split;
             [ first [ reflexivity | apply is_decimal_bounds; lia ] | ]
         end;
  reflexivity.

Ltac short_goal :=
  split; [ unfold len; simpl; lia | decimal_goal ].

Lemma matches_re_H_shape (t : string) (caps caps' : captures) :
  matches re_H t caps caps' -> short_number t.
Proof. intro H. match_cases H; char_bounds; short_goal. Qed.

Lemma matches_re_M_shape (t : string) (caps caps' : captures) :
  matches re_M t caps caps' -> short_number t.
Proof. intro H. match_cases H; char_bounds; short_goal. Qed.

Lemma matches_re_m_shape (t : string) (caps caps' : captures) :
  matches re_m t caps caps' -> short_number t.
Proof. intro H. match_cases H; char_bounds; short_goal. Qed.

Lemma matches_re_d_shape (t : string) (caps caps' : captures) :
  matches re_d t caps caps' -> day_text t.
Proof.
  intro H. match_cases H; char_bounds;
    first [ left; short_goal
          | right; eexists; split; [ reflexivity | apply is_decimal_bounds; lia ] ].
Qed.

Lemma matches_re_Y_shape (t : string) (caps caps' : captures) :
  matches re_Y t caps caps' -> len t = 4 /\ all_chars is_decimal t = true.
Proof.
  intro H. match_cases H. split; [ reflexivity | ].
  cbn [all_chars].
  repeat match goal with
         | |- (is_decimal ?c && _)%bool = true =>
             apply andb_true_intro; split; [ assumption | ]
         end.
  reflexivity.
Qed.

End MatchFacts.

Import MatchFacts.

(** What [format_regex.match] returns: the five captured texts, with the
    values [int] gives them in their ranges. *)
Lemma regex_match_inv (s : string) (caps : DateTime.captures) (rest : string) :
  DateTime.regex_match s = Some (caps, rest) ->
  exists tY tm td ws tH tM,
    s = tY ++ "-" ++ tm ++ "-" ++ td ++ ws ++ tH ++ ":" ++ tM ++ rest
    /\ caps = [ ("M", tM); ("H", tH); ("d", td); ("m", tm); ("Y", tY) ]
    /\ ws <> EmptyString /\ all_chars is_space ws = true
    /\ 0 <= DateTime.int_of_group tY <= 9999
    /\ 1 <= DateTime.int_of_group tm <= 12
    /\ 1 <= DateTime.int_of_group td <= 31
    /\ 0 <= DateTime.int_of_group tH <= 23
    /\ 0 <= DateTime.int_of_group tM <= 59.
Proof.
  unfold DateTime.regex_match. intro H.
  destruct (rmatch_inv _ _ _ _ _ H) as (t & caps' & rest' & -> & M & HK).
  injection HK as -> ->.
  unfold DateTime.format_regex in M. cbn [matches] in M.
  destruct M as (tY & t1 & c1 & -> & MY & M).
  destruct M as (h1 & t2 & c2 & -> & [-> ->] & M).
  destruct M as (tm & t3 & c3 & -> & Mm & M).
  destruct M as (h2 & t4 & c4 & -> & [-> ->] & M).
  destruct M as (td & t5 & c5 & -> & Md & M).
  destruct M as (ws & t6 & c6 & -> & (Hws & Hsp & ->) & M).
  destruct M as (tH & t7 & c7 & -> & MH & M).
  destruct M as (h3 & tM & c8 & -> & [-> ->] & MM).
  apply matches_re_Y in MY. destruct MY as [-> BY].
  apply matches_re_m in Mm. destruct Mm as [-> Bm].
  apply matches_re_d in Md. destruct Md as [-> Bd].
  apply matches_re_H in MH. destruct MH as [-> BH].
  apply matches_re_M in MM. destruct MM as [-> BM].
  exists tY, tm, td, ws, tH, tM.
  split; [ rewrite !append_assoc; reflexivity | ].
  repeat split; try assumption; try lia.
Qed.

Lemma append_empty_r (s : string) : s ++ "" = s.
Proof. induction s as [| c s IH]; [ reflexivity | cbn; rewrite IH; reflexivity ]. Qed.

(** The same, with the shape of the five texts. *)
Lemma regex_match_shape (s : string) (caps : DateTime.captures) (rest : string) :
  DateTime.regex_match s = Some (caps, rest) ->
  exists tY tm td ws tH tM,
    s = tY ++ "-" ++ tm ++ "-" ++ td ++ ws ++ tH ++ ":" ++ tM ++ rest
    /\ caps = [ ("M", tM); ("H", tH); ("d", td); ("m", tm); ("Y", tY) ]
    /\ len tY = 4 /\ all_chars is_decimal tY = true
    /\ short_number tm /\ day_text td
    /\ ws <> EmptyString /\ all_chars is_space ws = true
    /\ short_number tH /\ short_number tM.
Proof.
  unfold DateTime.regex_match. intro H.
  destruct (rmatch_inv _ _ _ _ _ H) as (t & caps' & rest' & -> & M & HK).
  injection HK as -> ->.
  unfold DateTime.format_regex in M. cbn [matches] in M.
  destruct M as (tY & t1 & c1 & -> & MY & M).
  destruct M as (h1 & t2 & c2 & -> & [-> ->] & M).
  destruct M as (tm & t3 & c3 & -> & Mm & M).
  destruct M as (h2 & t4 & c4 & -> & [-> ->] & M).
  destruct M as (td & t5 & c5 & -> & Md & M).
  destruct M as (ws & t6 & c6 & -> & (Hws & Hsp & ->) & M).
  destruct M as (tH & t7 & c7 & -> & MH & M).
  destruct M as (h3 & tM & c8 & -> & [-> ->] & MM).
  pose proof (matches_re_Y_shape _ _ _ MY) as [SY1 SY2].
  pose proof (matches_re_m_shape _ _ _ Mm) as Sm.
  pose proof (matches_re_d_shape _ _ _ Md) as Sd.
  pose proof (matches_re_H_shape _ _ _ MH) as SH.
  pose proof (matches_re_M_shape _ _ _ MM) as SM.
  apply matches_re_Y in MY. destruct MY as [-> _].
  apply matches_re_m in Mm. destruct Mm as [-> _].
  apply matches_re_d in Md. destruct Md as [-> _].
  apply matches_re_H in MH. destruct MH as [-> _].
  apply matches_re_M in MM. destruct MM as [-> _].
  exists tY, tm, td, ws, tH, tM.
  split; [ rewrite !append_assoc; reflexivity | ].
  repeat match goal with |- _ /\ _ => split end; try assumption; reflexivity.
Qed.

(** [strptime] returns only datetimes of the calendar. *)
Lemma strptime_valid (s : string) (dt : DateTime.datetime) :
  DateTime.strptime s = Ret dt -> valid_datetime dt.
Proof.
  unfold DateTime.strptime. intro H.
  destruct (DateTime.regex_match s) as [[caps rest] |] eqn:E; [ | discriminate H ].
  destruct (regex_match_inv s caps rest E)
    as (tY & tm & td & ws & tH & tM & _ & -> & _ & _ & BY & Bm & Bd & BH & BM).
  destruct rest; [ | discriminate H ]. cbn [is_empty negb] in H.
  cbn [DateTime.group String.eqb Ascii.eqb Bool.eqb] in H.
  repeat match type of H with
         | (if negb ?c then _ else _) = _ =>
             destruct c eqn:?; cbn [negb] in H; [ | discriminate H ]
         end.
  injection H as <-.
  repeat match goal with
         | E : _ && _ = true |- _ => apply andb_prop in E; destruct E
         | E : (_ <=? _) = true |- _ => apply Z.leb_le in E
         end.
  unfold valid_datetime. cbn [DateTime.year DateTime.month DateTime.day
                               DateTime.hour DateTime.minute].
  lia.
Qed.

(** [parse_iso_datetime] returns only for a text, and what it returns is
    what [strptime] makes of the trimmed text. *)
Lemma parse_iso_datetime_strptime (v : pyval) (dt : DateTime.datetime) :
  parse_iso_datetime v = Ret dt ->
  exists s, v = PStr s /\ DateTime.strptime (strip s) = Ret dt.
Proof.
  unfold parse_iso_datetime. intro H.
  destruct v as [| b | n | x | s | l | d]; try discriminate H.
  cbn [strip_method bind] in H.
  destruct (is_empty (strip s)); [ discriminate H | ].
  destruct (DateTime.strptime (strip s)) as [dt' |] eqn:E; [ | discriminate H ].
  injection H as ->.
  exists s. split; [ reflexivity | exact E ].
Qed.

Lemma parsed_datetime_valid (v : pyval) (dt : DateTime.datetime) :
  parse_iso_datetime v = Ret dt -> valid_datetime dt.
Proof.
  intro H. destruct (parse_iso_datetime_strptime v dt H) as (s & _ & E).
  exact (strptime_valid _ _ E).
Qed.

(** X1.  Whatever [parse_iso_datetime] returns is a datetime of the
    calendar (year 1 to 9999, month 1 to 12, a day of that month, hour 0
    to 23, minute 0 to 59), and it returns only for a text. *)
Theorem parse_iso_datetime_valid (v : pyval) (dt : DateTime.datetime) :
  parse_iso_datetime v = Ret dt ->
  valid_datetime dt /\ exists s, v = PStr s /\ DateTime.strptime (strip s) = Ret dt.
Proof.
  intro H. split.
  - exact (parsed_datetime_valid v dt H).
  - exact (parse_iso_datetime_strptime v dt H).
Qed.

Lemma parse_iso_datetime_valid_witness :
  valid_datetime (DateTime.mkdt 2024 2 29 23 59).
Proof.
  exact (proj1 (parse_iso_datetime_valid (PStr " 2024-2-29  23:59 ")
                  (DateTime.mkdt 2024 2 29 23 59) eq_refl)).
Defined.

Module TrimFacts.

Lemma rstrip_idempotent (s : string) : rstrip (rstrip s) = rstrip s.
Proof.
  induction s as [| c s IH]; simpl; [ reflexivity | ].
  destruct (is_space c && is_empty (rstrip s)) eqn:E; [ reflexivity | ].
  simpl. rewrite IH, E. reflexivity.
Qed.

Lemma lstrip_head (s : string) :
  lstrip s = EmptyString \/ exists c t, lstrip s = String c t /\ is_space c = false.
Proof.
  induction s as [| c s IH]; simpl; [ left; reflexivity | ].
  destruct (is_space c) eqn:E; [ exact IH | ].
  right. exists c, s. split; [ reflexivity | exact E ].
Qed.

(** Trimming twice is trimming once. *)
Lemma strip_idempotent (s : string) : strip (strip s) = strip s.
Proof.
  unfold strip.
  destruct (lstrip_head s) as [-> | (c & t & -> & Hc)]; [ reflexivity | ].
  simpl. rewrite Hc. simpl. rewrite Hc. simpl.
  rewrite rstrip_idempotent, Hc. reflexivity.
Qed.

Lemma rstrip_spaces (s : string) : all_chars is_space s = true -> rstrip s = EmptyString.
Proof.
  induction s as [| c s IH]; simpl; [ reflexivity | ].
  intro H. apply andb_prop in H. destruct H as [Hc Hs].
  rewrite Hc, (IH Hs). reflexivity.
Qed.

Lemma rstrip_app_spaces (s post : string) :
  all_chars is_space post = true -> rstrip (s ++ post) = rstrip s.
Proof.
  intro H. induction s as [| c s IH]; simpl.
  - apply rstrip_spaces, H.
  - rewrite IH. reflexivity.
Qed.

Lemma lstrip_spaces (s : string) : all_chars is_space s = true -> lstrip s = EmptyString.
Proof.
  induction s as [| c s IH]; simpl; [ reflexivity | ].
  intro H. apply andb_prop in H. destruct H as [-> Hs]. exact (IH Hs).
Qed.

(** White space around a text does not change what it trims to. *)
Lemma strip_padding (pre s post : string) :
  all_chars is_space pre = true -> all_chars is_space post = true ->
  strip (pre ++ s ++ post) = strip s.
Proof.
  intros Hpre Hpost. unfold strip.
  induction pre as [| c pre IH]; simpl.
  - clear Hpre. induction s as [| c s IHs]; simpl.
    + rewrite (lstrip_spaces post Hpost). reflexivity.
    + destruct (is_space c) eqn:E; [ exact IHs | ].
      change (String c (s ++ post)) with (String c s ++ post).
      apply rstrip_app_spaces, Hpost.
  - simpl in Hpre. apply andb_prop in Hpre. destruct Hpre as [-> Hpre].
    exact (IH Hpre).
Qed.

Lemma rstrip_end (s : string) (c : ascii) :
  is_space c = false -> rstrip (s ++ String c EmptyString) = s ++ String c EmptyString.
Proof.
  intro Hc. induction s as [| a s IH]; simpl.
  - rewrite Hc. reflexivity.
  - rewrite IH. destruct (s ++ String c EmptyString) eqn:E.
    + destruct s; discriminate E.
    + simpl. rewrite andb_false_r. reflexivity.
Qed.

End TrimFacts.

Import TrimFacts.

(** X2.  White space before and after the text changes neither the
    datetime [parse_iso_datetime] returns nor the exception it raises. *)
Theorem parse_iso_datetime_padding (pre s post : string) :
  all_chars is_space pre = true -> all_chars is_space post = true ->
  parse_iso_datetime (PStr (pre ++ s ++ post)) = parse_iso_datetime (PStr s).
Proof.
  intros Hpre Hpost. unfold parse_iso_datetime. cbn [strip_method bind].
  rewrite (strip_padding pre s post Hpre Hpost). reflexivity.
Qed.

Lemma parse_iso_datetime_padding_witness :
  parse_iso_datetime (PStr "  2025-11-20 08:00 ") = Ret (DateTime.mkdt 2025 11 20 8 0).
Proof.
  exact (eq_trans
           (parse_iso_datetime_padding "  " "2025-11-20 08:00" " " eq_refl eq_refl)
           eq_refl).
Defined.

Module RenderFacts.
Import DateTime.

Lemma zrange_in (lo z n : Z) :
  lo <= z < lo + n -> In z (zrange lo n).
Proof.
  intro H. unfold zrange. apply in_map_iff.
  exists (Z.to_nat (z - lo)). split; [ lia | ].
  apply in_seq. lia.
Qed.

Lemma four_digits_year (y : Z) : 1000 <= y <= 9999 -> four_digits y = true.
Proof.
  intro H.
  assert (A : forallb four_digits (zrange 1000 9000) = true) by (vm_compute; reflexivity).
  rewrite forallb_forall in A. apply A, zrange_in. lia.
Qed.

Lemma two_digits_field (n : Z) : 0 <= n <= 99 -> two_digits n = true.
Proof.
  intro H.
  assert (A : forallb two_digits (zrange 0 100) = true) by (vm_compute; reflexivity).
  rewrite forallb_forall in A. apply A, zrange_in. lia.
Qed.

Lemma days_in_month_bounds (y m : Z) : 28 <= days_in_month y m <= 31.
Proof.
  unfold days_in_month.
  repeat match goal with |- context [if ?c then _ else _] => destruct c end; lia.
Qed.

(** The rendering of a datetime of the calendar, from the year 1000 on,
    is a text of the exact grammar whose fields are that datetime. *)
Lemma strftime_fields (dt : datetime) :
  valid_datetime dt -> 1000 <= year dt ->
  Spec.datetime_fields (strftime dt) = Some dt
  /\ exists t c, strftime dt = t ++ String c EmptyString /\ is_decimal c = true
                 /\ exists c0 t0, strftime dt = String c0 t0 /\ is_decimal c0 = true.
Proof.
  intros (Hy & Hm & Hd & Hh & Hn) Hy1000.
  destruct dt as [y m d h n]. cbn [year month day hour minute] in *.
  pose proof (days_in_month_bounds y m) as Hdm.
  pose proof (four_digits_year y ltac:(lia)) as Fy.
  pose proof (two_digits_field m ltac:(lia)) as Fm.
  pose proof (two_digits_field d ltac:(lia)) as Fd.
  pose proof (two_digits_field h ltac:(lia)) as Fh.
  pose proof (two_digits_field n ltac:(lia)) as Fn.
  unfold strftime. cbn [year month day hour minute].
  unfold four_digits in Fy. unfold two_digits in Fm, Fd, Fh, Fn.
  destruct (str_int y) as [| y1 [| y2 [| y3 [| y4 [| ? ?]]]]]; try discriminate Fy.
  destruct (pad2 m) as [| m1 [| m2 [| ? ?]]]; try discriminate Fm.
  destruct (pad2 d) as [| d1 [| d2 [| ? ?]]]; try discriminate Fd.
  destruct (pad2 h) as [| h1 [| h2 [| ? ?]]]; try discriminate Fh.
  destruct (pad2 n) as [| n1 [| n2 [| ? ?]]]; try discriminate Fn.
  repeat match goal with
         | E : _ && _ = true |- _ => apply andb_prop in E; destruct E
         | E : (_ =? _) = true |- _ => apply Z.eqb_eq in E
         end.
  split.
  - cbn [append Spec.datetime_fields all_chars].
    repeat match goal with E : is_decimal _ = true |- _ => rewrite E; clear E end.
    cbn [andb Ascii.eqb Bool.eqb]. congruence.
  - exists (String y1 (String y2 (String y3 (String y4 (String "-"
           (String m1 (String m2 (String "-" (String d1 (String d2 (String " "
           (String h1 (String h2 (String ":" (String n1 EmptyString))))))))))))))), n2.
    split; [ reflexivity | ]. split; [ assumption | ].
    eexists _, _. split; [ reflexivity | assumption ].
Qed.

Lemma strip_strftime (dt : datetime) :
  valid_datetime dt -> 1000 <= year dt -> strip (strftime dt) = strftime dt.
Proof.
  intros Hv Hy.
  destruct (strftime_fields dt Hv Hy) as (_ & t & c & Ht & Hc & c0 & t0 & H0 & Hc0).
  unfold strip. rewrite H0 at 1. simpl. rewrite (decimal_not_space c0 Hc0).
  rewrite <- H0, Ht. apply rstrip_end, decimal_not_space, Hc.
Qed.

End RenderFacts.

(** X3.  Rendering then parsing is the identity on the datetimes of the
    calendar from the year 1000 on, and the rendering is a text of the
    exact grammar. *)
Theorem strftime_then_parse (dt : DateTime.datetime) :
  valid_datetime dt -> 1000 <= DateTime.year dt ->
  parse_iso_datetime (PStr (DateTime.strftime dt)) = Ret dt
  /\ Spec.canonical_datetime (DateTime.strftime dt) = true.
Proof.
  intros Hv Hy.
  destruct (RenderFacts.strftime_fields dt Hv Hy) as (Hf & _).
  assert (Hr : Spec.fields_in_range dt = true).
  { destruct Hv as (_ & Hm & Hd & Hh & Hn). unfold Spec.fields_in_range.
    repeat (apply andb_true_intro; split); apply Z.leb_le; lia. }
  split.
  - apply parse_iso_datetime_canonical;
      [ rewrite (RenderFacts.strip_strftime dt Hv Hy); exact Hf | exact Hr | lia ].
  - unfold Spec.canonical_datetime. rewrite Hf. exact Hr.
Qed.

Lemma strftime_then_parse_witness :
  parse_iso_datetime (PStr (DateTime.strftime (DateTime.mkdt 2024 2 29 23 59)))
  = Ret (DateTime.mkdt 2024 2 29 23 59).
Proof.
  refine (proj1 (strftime_then_parse (DateTime.mkdt 2024 2 29 23 59) _ _)).
  - unfold valid_datetime. vm_compute. repeat split; discriminate.
  - vm_compute. discriminate.
Defined.

Module RecordFacts.

Lemma dict_get_app (d1 d2 : dict) (k : string) :
  dict_get (d1 ++ d2)%list k
  = match dict_get d1 k with Some v => Some v | None => dict_get d2 k end.
Proof.
  induction d1 as [| [k' v'] d1 IH]; simpl; [ reflexivity | ].
  destruct (k' =? k)%string; [ reflexivity | exact IH ].
Qed.

Lemma dict_set_absent (d : dict) (k : string) (v : pyval) :
  dict_get d k = None -> dict_set d k v = (d ++ [(k, v)])%list.
Proof.
  induction d as [| [k' v'] d IH]; simpl; [ reflexivity | ].
  destruct (k' =? k)%string; [ discriminate | ].
  intro H. rewrite (IH H). reflexivity.
Qed.

Lemma dict_get_in (d : dict) (k : string) :
  dict_get d k = None <-> ~ In k (map fst d).
Proof.
  induction d as [| [k' v'] d IH]; simpl; [ tauto | ].
  destruct (String.eqb_spec k' k) as [-> | Hne].
  - split; [ discriminate | intro H; exfalso; apply H; left; reflexivity ].
  - rewrite IH. tauto.
Qed.

Lemma record_head_mem (fid origin dest : string) (dep arr : DateTime.datetime)
      (price : PyFloat.float) (k : string) :
  dict_mem (record_head fid origin dest dep arr price) k = canonical_field k.
Proof.
  unfold dict_mem, record_head, canonical_field, REQUIRED_FIELDS.
  cbn [dict_get existsb].
  rewrite !(String.eqb_sym k).
  repeat match goal with
         | |- context [(?a =? k)%string] => destruct (a =? k)%string; [ reflexivity | ]
         end.
  reflexivity.
Qed.

(** The loop over the row appends to the record, in row order, the
    extra cells it keeps; with the distinct keys of a dictionary these
    are [extra_fields row]. *)
Lemma copy_extra_fields_spec (row : dict) (head : dict) :
  (forall k, dict_mem head k = canonical_field k) ->
  NoDup (map fst row) ->
  forall acc,
    (forall k, In k (map fst row) -> dict_get acc k = None) ->
    copy_extra_fields row (head ++ acc)%list = (head ++ acc ++ extra_fields row)%list.
Proof.
  intros Hhead. unfold copy_extra_fields.
  induction row as [| [k v] row IH]; intros Hnd acc Hacc; simpl.
  - rewrite app_nil_r. reflexivity.
  - inversion Hnd as [| ? ? Hnotin Hnd']; subst.
    assert (Hk : dict_get acc k = None) by (apply Hacc; left; reflexivity).
    assert (Hmem : dict_mem (head ++ acc)%list k = canonical_field k).
    { rewrite <- Hhead. unfold dict_mem. rewrite dict_get_app, Hk.
      destruct (dict_get head k); reflexivity. }
    rewrite Hmem.
    destruct (canonical_field k) eqn:Hc; cbn [orb].
    { apply IH; [ exact Hnd' | ]. intros k' Hk'. apply Hacc. right. exact Hk'. }
    destruct (is_none v); cbn [orb].
    { apply IH; [ exact Hnd' | ]. intros k' Hk'. apply Hacc. right. exact Hk'. }
    destruct (is_empty (strip (py_str v))); cbn [negb].
    { apply IH; [ exact Hnd' | ]. intros k' Hk'. apply Hacc. right. exact Hk'. }
    rewrite dict_set_absent.
    + rewrite <- app_assoc. rewrite IH; [ | exact Hnd' | ].
      * rewrite <- !app_assoc. reflexivity.
      * intros k' Hk'. rewrite dict_get_app, (Hacc k' (or_intror Hk')). simpl.
        destruct (String.eqb_spec k k') as [-> | _]; [ contradiction | reflexivity ].
    + unfold dict_mem in Hmem. destruct (dict_get (head ++ acc)%list k); [ discriminate | reflexivity ].
Qed.

(** Without that assumption it still only appends trimmed, non-empty
    texts under keys that are none of the six, taken from the row. *)
Lemma copy_extra_fields_appends (row : dict) (head : dict) :
  (forall k, dict_mem head k = canonical_field k) ->
  forall acc,
  exists extras,
    copy_extra_fields row (head ++ acc)%list = (head ++ acc ++ extras)%list
    /\ Forall (fun kv : string * pyval =>
                 canonical_field (fst kv) = false
                 /\ exists v0, In (fst kv, v0) row
                               /\ snd kv = PStr (strip (py_str v0))
                               /\ strip (py_str v0) <> EmptyString)
              extras.
Proof.
  intros Hhead. unfold copy_extra_fields.
  induction row as [| [k v] row IH]; intro acc; simpl.
  - exists []. rewrite app_nil_r. split; [ reflexivity | constructor ].
  - assert (Hweak : forall extras : dict,
               Forall (fun kv : string * pyval =>
                         canonical_field (fst kv) = false
                         /\ exists v0, In (fst kv, v0) row
                                       /\ snd kv = PStr (strip (py_str v0))
                                       /\ strip (py_str v0) <> EmptyString) extras ->
               Forall (fun kv : string * pyval =>
                         canonical_field (fst kv) = false
                         /\ exists v0, ((k, v) = (fst kv, v0) \/ In (fst kv, v0) row)
                                       /\ snd kv = PStr (strip (py_str v0))
                                       /\ strip (py_str v0) <> EmptyString) extras).
    { intros extras HF. eapply Forall_impl; [ | exact HF ].
      intros kv (Hc & v0 & Hin & Hs & Hne). split; [ exact Hc | ].
      exists v0. repeat split; try assumption. right. exact Hin. }
    destruct (dict_mem (head ++ acc)%list k || is_none v) eqn:Hskip.
    { destruct (IH acc) as (extras & He & HF). exists extras.
      split; [ exact He | exact (Hweak extras HF) ]. }
    destruct (is_empty (strip (py_str v))) eqn:Hemp; cbn [negb].
    { destruct (IH acc) as (extras & He & HF). exists extras.
      split; [ exact He | exact (Hweak extras HF) ]. }
    apply orb_false_elim in Hskip. destruct Hskip as [Hmem _].
    assert (Hget : dict_get (head ++ acc)%list k = None).
    { unfold dict_mem in Hmem. destruct (dict_get (head ++ acc)%list k); [ discriminate | reflexivity ]. }
    rewrite (dict_set_absent _ _ _ Hget), <- app_assoc.
    destruct (IH (acc ++ [(k, PStr (strip (py_str v)))])%list) as (extras & He & HF).
    exists ((k, PStr (strip (py_str v))) :: extras).
    split; [ rewrite He, <- !app_assoc; reflexivity | ].
    constructor; [ | exact (Hweak extras HF) ].
    cbn [fst snd]. split.
    + rewrite <- Hhead. unfold dict_mem. rewrite dict_get_app in Hget.
      destruct (dict_get head k); [ discriminate | reflexivity ].
    + exists v. repeat split; [ left; reflexivity | ].
      intro E. rewrite E in Hemp. discriminate.
Qed.

(** Everything an accepted row went through, test by test. *)
Lemma validate_row_accepted_tests (row : dict) (file : string) (lineno : Z) (flight : dict) :
  validate_row row file lineno = Ret (Some flight, EmptyString) ->
  exists vdep varr dep arr price,
    first_missing REQUIRED_FIELDS row = None
    /\ (let fid := strip (py_str (dict_get_default row "flight_id" (PStr ""))) in
        (2 <=? len fid) && (len fid <=? 8) && isalnum fid = true)
    /\ (let origin := strip (py_str (dict_get_default row "origin" (PStr ""))) in
        (len origin =? 3) && isalpha origin && isupper origin = true)
    /\ (let dest := strip (py_str (dict_get_default row "destination" (PStr ""))) in
        (len dest =? 3) && isalpha dest && isupper dest = true)
    /\ dict_get row "departure_datetime" = Some vdep
    /\ parse_iso_datetime vdep = Ret dep
    /\ dict_get row "arrival_datetime" = Some varr
    /\ parse_iso_datetime varr = Ret arr
    /\ DateTime.leb arr dep = false
    /\ PyFloat.float_of_string (strip (py_str (dict_get_default row "price" PNone)))
       = Some price
    /\ PyFloat.leb price PyFloat.zero = false
    /\ flight = copy_extra_fields row
                  (record_head (strip (py_str (dict_get_default row "flight_id" (PStr ""))))
                     (strip (py_str (dict_get_default row "origin" (PStr ""))))
                     (strip (py_str (dict_get_default row "destination" (PStr ""))))
                     dep arr price).
Proof.
  unfold validate_row, dict_getitem, py_float.
  destruct (first_missing REQUIRED_FIELDS row); [ discriminate | ].
  repeat match goal with
         | |- context [if negb ?c then _ else _] =>
             destruct c eqn:?; cbn [negb]; [ | discriminate ]
         end.
  destruct (dict_get row "departure_datetime") as [vdep |]; cbn [bind]; [ | discriminate ].
  destruct (parse_iso_datetime vdep) as [dep |] eqn:Hd; [ | discriminate ].
  destruct (dict_get row "arrival_datetime") as [varr |]; cbn [bind]; [ | discriminate ].
  destruct (parse_iso_datetime varr) as [arr |] eqn:Ha; [ | discriminate ].
  destruct (DateTime.leb arr dep) eqn:Hle; [ discriminate | ].
  destruct (PyFloat.float_of_string _) as [price |] eqn:Hp; [ | discriminate ].
  destruct (PyFloat.leb price PyFloat.zero) eqn:Hz; [ discriminate | ].
  intro H. injection H as <-.
  exists vdep, varr, dep, arr, price.
  repeat split; assumption.
Qed.

End RecordFacts.

Import RecordFacts.

(** X4.  Every record [validate_row] returns starts with the six fields
    in fixed order and satisfies the tests of the validation: a trimmed
    flight id of 2 to 8 alphanumeric characters, trimmed airport codes
    of 3 characters that pass [isalpha] and [isupper], datetimes of the
    calendar with the arrival strictly after the departure, a price that
    is not at most zero; what follows the six fields are trimmed,
    non-empty texts under other keys. *)
Theorem accepted_record_invariant
        (row : dict) (file : string) (lineno : Z) (flight : dict) :
  validate_row row file lineno = Ret (Some flight, EmptyString) ->
  exists fid origin dest dep arr price extras,
    flight = (record_head fid origin dest dep arr price ++ extras)%list
    /\ 2 <= len fid <= 8 /\ isalnum fid = true /\ strip fid = fid
    /\ len origin = 3 /\ isalpha origin = true /\ isupper origin = true
    /\ strip origin = origin
    /\ len dest = 3 /\ isalpha dest = true /\ isupper dest = true
    /\ strip dest = dest
    /\ valid_datetime dep /\ valid_datetime arr
    /\ DateTime.compare arr dep = Gt
    /\ PyFloat.leb price PyFloat.zero = false
    /\ Forall (fun kv : string * pyval =>
                 canonical_field (fst kv) = false
                 /\ exists s, snd kv = PStr s /\ s <> EmptyString /\ strip s = s)
              extras.
Proof.
  intro H.
  destruct (validate_row_accepted_tests row file lineno flight H)
    as (vdep & varr & dep & arr & price & _ & Hf & Ho & Hd & _ & Hpd & _ & Hpa
        & Hle & _ & Hz & ->).
  cbv zeta in Hf, Ho, Hd.
  set (fid := strip (py_str (dict_get_default row "flight_id" (PStr "")))) in *.
  set (origin := strip (py_str (dict_get_default row "origin" (PStr "")))) in *.
  set (dest := strip (py_str (dict_get_default row "destination" (PStr "")))) in *.
  destruct (copy_extra_fields_appends row (record_head fid origin dest dep arr price)
              (record_head_mem fid origin dest dep arr price) [])
    as (extras & He & HF).
  rewrite app_nil_r in He. cbn [app] in He.
  exists fid, origin, dest, dep, arr, price, extras.
  apply andb_prop in Hf. destruct Hf as [Hf Hf3].
  apply andb_prop in Hf. destruct Hf as [Hf1 Hf2].
  apply andb_prop in Ho. destruct Ho as [Ho Ho3].
  apply andb_prop in Ho. destruct Ho as [Ho1 Ho2].
  apply andb_prop in Hd. destruct Hd as [Hd Hd3].
  apply andb_prop in Hd. destruct Hd as [Hd1 Hd2].
  apply Z.leb_le in Hf1, Hf2. apply Z.eqb_eq in Ho1, Hd1.
  split; [ exact He | ].
  repeat match goal with |- _ /\ _ => split end;
    try assumption; try (apply strip_idempotent).
  - exact (parsed_datetime_valid vdep dep Hpd).
  - exact (parsed_datetime_valid varr arr Hpa).
  - unfold DateTime.leb in Hle. destruct (DateTime.compare arr dep); congruence.
  - eapply Forall_impl; [ | exact HF ].
    intros kv (Hc & v0 & _ & Hs & Hne). split; [ exact Hc | ].
    exists (strip (py_str v0)). repeat split; try assumption. apply strip_idempotent.
Qed.

Lemma accepted_record_invariant_witness :
  exists fid origin dest dep arr price extras,
    flight_aa100 = (record_head fid origin dest dep arr price ++ extras)%list
    /\ DateTime.compare arr dep = Gt.
Proof.
  destruct (accepted_record_invariant row_aa100 "sample" 2 flight_aa100 eq_refl)
    as (fid & origin & dest & dep & arr & price & extras & He & H).
  exists fid, origin, dest, dep, arr, price, extras.
  split; [ exact He | ]. tauto.
Defined.

(** X5.  For a row with distinct keys, the record of an accepted row is
    the six fields followed by the row's extra cells, trimmed, in the
    order of the row: cells under one of the six names, [None] cells and
    blank cells are left out, and no other key appears. *)
Theorem extra_fields_passthrough
        (row : dict) (file : string) (lineno : Z) (flight : dict) :
  NoDup (map fst row) ->
  validate_row row file lineno = Ret (Some flight, EmptyString) ->
  exists fid origin dest dep arr price,
    flight = (record_head fid origin dest dep arr price ++ extra_fields row)%list
    /\ forall k, canonical_field k = false ->
                 dict_get flight k = dict_get (extra_fields row) k.
Proof.
  intros Hnd H.
  destruct (validate_row_accepted_tests row file lineno flight H)
    as (vdep & varr & dep & arr & price & _ & _ & _ & _ & _ & _ & _ & _ & _ & _ & _ & ->).
  set (fid := strip (py_str (dict_get_default row "flight_id" (PStr "")))).
  set (origin := strip (py_str (dict_get_default row "origin" (PStr "")))).
  set (dest := strip (py_str (dict_get_default row "destination" (PStr "")))).
  exists fid, origin, dest, dep, arr, price.
  pose proof (copy_extra_fields_spec row (record_head fid origin dest dep arr price)
                (record_head_mem fid origin dest dep arr price) Hnd []
                (fun _ _ => eq_refl)) as E.
  rewrite app_nil_r in E. cbn [app] in E. cbn [app].
  split; [ exact E | ].
  intros k Hk. rewrite E.
  pose proof (record_head_mem fid origin dest dep arr price k) as Hm.
  rewrite Hk in Hm. unfold dict_mem in Hm.
  rewrite dict_get_app.
  destruct (dict_get (record_head fid origin dest dep arr price) k);
    [ discriminate | reflexivity ].
Qed.

Lemma extra_fields_passthrough_witness :
  exists flight,
    validate_row row_with_extras "sample" 2 = Ret (Some flight, EmptyString)
    /\ dict_get flight "gate" = Some (PStr "B12")
    /\ dict_get flight "seats" = Some (PStr "180")
    /\ dict_get flight "note" = None
    /\ dict_get flight "carrier" = None.
Proof.
  destruct (validate_row_outcome row_with_extras "sample" 2)
    as [(flight & Hv & _) | (msg & Hv)]; [ | discriminate Hv ].
  exists flight. split; [ exact Hv | ].
  assert (Hnd : NoDup (map fst row_with_extras)).
  { repeat constructor; simpl; intuition discriminate. }
  destruct (extra_fields_passthrough row_with_extras "sample" 2 flight Hnd Hv)
    as (fid & origin & dest & dep & arr & price & _ & Hk).
  rewrite !Hk by reflexivity. repeat split; reflexivity.
Defined.

Module TrimRowFacts.

Lemma dict_get_trim (row : dict) (k : string) :
  dict_get (trim_row row) k = option_map trim_val (dict_get row k).
Proof.
  induction row as [| [k' v'] row IH]; simpl; [ reflexivity | ].
  destruct (k' =? k)%string; [ reflexivity | exact IH ].
Qed.

Lemma strip_py_str_trim (v : pyval) : strip (py_str (trim_val v)) = strip (py_str v).
Proof. destruct v; try reflexivity. simpl. apply strip_idempotent. Qed.

Lemma is_none_trim (v : pyval) : is_none (trim_val v) = is_none v.
Proof. destruct v; reflexivity. Qed.

Lemma parse_trim (v : pyval) : parse_iso_datetime (trim_val v) = parse_iso_datetime v.
Proof.
  destruct v; try reflexivity.
  unfold parse_iso_datetime. simpl. rewrite strip_idempotent. reflexivity.
Qed.

Lemma text_trim (row : dict) (k : string) (d : pyval) :
  trim_val d = d ->
  strip (py_str (dict_get_default (trim_row row) k d))
  = strip (py_str (dict_get_default row k d)).
Proof.
  intro Hd. unfold dict_get_default. rewrite dict_get_trim.
  destruct (dict_get row k); simpl; [ apply strip_py_str_trim | reflexivity ].
Qed.

Lemma field_missing_trim (row : dict) (f : string) :
  field_missing (trim_row row) f = field_missing row f.
Proof.
  unfold field_missing. rewrite dict_get_trim.
  destruct (dict_get row f); simpl; [ | reflexivity ].
  rewrite is_none_trim, strip_py_str_trim. reflexivity.
Qed.

Lemma first_missing_trim (fields : list string) (row : dict) :
  first_missing fields (trim_row row) = first_missing fields row.
Proof.
  induction fields as [| f fields IH]; simpl; [ reflexivity | ].
  rewrite field_missing_trim, IH. reflexivity.
Qed.

Lemma getitem_parse_trim (row : dict) (k : string) :
  bind (dict_getitem (trim_row row) k) (fun v => parse_iso_datetime v)
  = bind (dict_getitem row k) (fun v => parse_iso_datetime v).
Proof.
  unfold dict_getitem. rewrite dict_get_trim.
  destruct (dict_get row k); simpl; [ apply parse_trim | reflexivity ].
Qed.

Lemma copy_extra_fields_trim (row flight : dict) :
  copy_extra_fields (trim_row row) flight = copy_extra_fields row flight.
Proof.
  unfold copy_extra_fields. revert flight.
  induction row as [| [k v] row IH]; intro flight; simpl; [ reflexivity | ].
  rewrite is_none_trim, strip_py_str_trim. apply IH.
Qed.

End TrimRowFacts.

(** X6.  Trimming every text cell of a row changes nothing in what
    [validate_row] returns: the record or the message is the same. *)
Theorem validate_row_trim (row : dict) (file : string) (lineno : Z) :
  validate_row (trim_row row) file lineno = validate_row row file lineno.
Proof.
  unfold validate_row.
  rewrite TrimRowFacts.first_missing_trim.
  rewrite !TrimRowFacts.text_trim by reflexivity.
  rewrite !TrimRowFacts.getitem_parse_trim.
  repeat match goal with
         | |- context [if ?c then _ else _] => destruct c
         | |- context [match ?c with Ret _ => _ | Raise _ => _ end] => destruct c
         | |- context [match ?c with Some _ => _ | None => _ end] => destruct c
         end;
    try reflexivity.
  rewrite TrimRowFacts.copy_extra_fields_trim. reflexivity.
Qed.

Module RuleRejectFacts.

Lemma any_not_all (p : ascii -> bool) (t : string) :
  any_chars (fun c => negb (p c)) t = true -> all_chars p t = false.
Proof.
  induction t as [| c t IH]; simpl; [ discriminate | ].
  destruct (p c); simpl; [ exact IH | reflexivity ].
Qed.

Lemma flight_id_bad_rule (t : string) :
  Spec.flight_id_ok t = false ->
  negb ((2 <=? len t) && (len t <=? 8) && isalnum t) = true.
Proof.
  unfold Spec.flight_id_ok, isalnum. intro H. apply negb_true_iff.
  destruct ((2 <=? len t) && (len t <=? 8)); [ | reflexivity ].
  simpl in H |- *. rewrite H. apply andb_false_r.
Qed.

Lemma airport_bad_rule (t : string) :
  airport_bad t = true ->
  negb ((len t =? 3) && isalpha t && isupper t) = true.
Proof.
  unfold airport_bad, isalpha, isupper. intro H. apply negb_true_iff.
  apply orb_prop in H. destruct H as [H | H].
  - apply orb_prop in H. destruct H as [H | H].
    + apply negb_true_iff in H. rewrite H. reflexivity.
    + rewrite (any_not_all _ _ H). rewrite andb_false_r, andb_false_r. reflexivity.
  - rewrite H. simpl. apply andb_false_r.
Qed.

Lemma rules_1_to_airports (row : dict) :
  forallb (Spec.present row) REQUIRED_FIELDS = true ->
  first_missing REQUIRED_FIELDS row = None
  /\ forall f d, In f REQUIRED_FIELDS ->
                 strip (py_str (dict_get_default row f d)) = Spec.text_or_empty row f.
Proof.
  intro Hp.
  assert (Hall : forall f, In f REQUIRED_FIELDS -> Spec.present row f = true).
  { apply forallb_forall. exact Hp. }
  split.
  - apply first_missing_none. apply forallb_forall.
    intros f Hin. rewrite (present_not_missing row f (Hall f Hin)). reflexivity.
  - intros f d Hin. apply present_default, Hall, Hin.
Qed.

End RuleRejectFacts.

Import RuleRejectFacts.

(** X7.  A row with all six fields present whose trimmed flight id is
    not 2 to 8 alphanumeric characters is rejected with the flight id
    message, whatever its other fields hold. *)
Theorem flight_id_rule_rejects (row : dict) (file : string) (lineno : Z) :
  forallb (Spec.present row) REQUIRED_FIELDS = true ->
  Spec.flight_id_ok (Spec.text_or_empty row "flight_id") = false ->
  validate_row row file lineno
  = Ret (None, "flight_id must be 2-8 alphanumeric characters").
Proof.
  intros Hp Hf. destruct (rules_1_to_airports row Hp) as [Hfm Ht].
  unfold validate_row. rewrite Hfm.
  rewrite (Ht "flight_id") by (simpl; tauto).
  rewrite (flight_id_bad_rule _ Hf). reflexivity.
Qed.

Lemma flight_id_rule_rejects_witness :
  validate_row row_bad_flight_id "sample" 2
  = Ret (None, "flight_id must be 2-8 alphanumeric characters").
Proof.
  exact (flight_id_rule_rejects row_bad_flight_id "sample" 2 eq_refl eq_refl).
Defined.

(** X8.  With the six fields present and a flight id that passes, a
    trimmed origin that is not three characters, or has a character that
    is no letter, or has a lowercase letter, is rejected with the origin
    message; when the origin is three uppercase letters, such a
    destination is rejected with the destination message. *)
Theorem airport_rule_rejects (row : dict) (file : string) (lineno : Z) :
  forallb (Spec.present row) REQUIRED_FIELDS = true ->
  Spec.flight_id_ok (Spec.text_or_empty row "flight_id") = true ->
  (airport_bad (Spec.text_or_empty row "origin") = true ->
   validate_row row file lineno = Ret (None, "origin must be 3 uppercase letters"))
  /\ (Spec.airport_ok (Spec.text_or_empty row "origin") = true ->
      airport_bad (Spec.text_or_empty row "destination") = true ->
      validate_row row file lineno
      = Ret (None, "destination must be 3 uppercase letters")).
Proof.
  intros Hp Hf. destruct (rules_1_to_airports row Hp) as [Hfm Ht].
  unfold validate_row. rewrite Hfm.
  rewrite (Ht "flight_id"), (Ht "origin"), (Ht "destination") by (simpl; tauto).
  rewrite (flight_id_rule _ Hf).
  split.
  - intro Ho. rewrite (airport_bad_rule _ Ho). reflexivity.
  - intros Ho Hd. rewrite (airport_rule _ Ho), (airport_bad_rule _ Hd). reflexivity.
Qed.

Lemma airport_rule_rejects_witness :
  validate_row (row_airports "jfk" "LAX") "sample" 2
  = Ret (None, "origin must be 3 uppercase letters")
  /\ validate_row (row_airports "JFK" "LA1") "sample" 2
     = Ret (None, "destination must be 3 uppercase letters").
Proof.
  split.
  - exact (proj1 (airport_rule_rejects (row_airports "jfk" "LAX") "sample" 2
                    eq_refl eq_refl) eq_refl).
  - exact (proj2 (airport_rule_rejects (row_airports "JFK" "LA1") "sample" 2
                    eq_refl eq_refl) eq_refl eq_refl).
Defined.

(** X9.  With rules 1 to 3 passed, a departure text that [strptime]
    refuses is reported with the departure message, which ends with the
    trimmed text; when the departure parses, an arrival text that
    [strptime] refuses is reported in the same way under its name. *)
Theorem datetime_parse_error_reported (row : dict) (file : string) (lineno : Z) :
  forallb (Spec.present row) REQUIRED_FIELDS = true ->
  Spec.flight_id_ok (Spec.text_or_empty row "flight_id") = true ->
  Spec.airport_ok (Spec.text_or_empty row "origin") = true ->
  Spec.airport_ok (Spec.text_or_empty row "destination") = true ->
  ((forall dt, DateTime.strptime (Spec.text_or_empty row "departure_datetime") <> Ret dt) ->
   validate_row row file lineno
   = Ret (None,
          "departure_datetime parse error: invalid datetime format (expected 'YYYY-MM-DD HH:MM'): "
            ++ Spec.text_or_empty row "departure_datetime"))
  /\ (forall dep,
        DateTime.strptime (Spec.text_or_empty row "departure_datetime") = Ret dep ->
        (forall dt, DateTime.strptime (Spec.text_or_empty row "arrival_datetime") <> Ret dt) ->
        validate_row row file lineno
        = Ret (None,
               "arrival_datetime parse error: invalid datetime format (expected 'YYYY-MM-DD HH:MM'): "
                 ++ Spec.text_or_empty row "arrival_datetime")).
Proof.
  intros Hp Hf Ho Hd.
  rewrite (validate_row_rules_1_3 row file lineno Hp Hf Ho Hd).
  assert (Hall : forall f, In f REQUIRED_FIELDS -> Spec.present row f = true).
  { apply forallb_forall. exact Hp. }
  destruct (present_get row "departure_datetime") as (sd & Hgd & Htd & Hed);
    [ apply Hall; simpl; tauto | ].
  destruct (present_get row "arrival_datetime") as (sa & Hga & Hta & Hea);
    [ apply Hall; simpl; tauto | ].
  unfold datetime_and_price_rules, dict_getitem. rewrite Hgd, Hga. cbn [bind].
  unfold parse_iso_datetime. cbn [strip_method bind]. rewrite Hed, Hea, Htd, Hta.
  split.
  - intro Hno. destruct (DateTime.strptime (strip sd)) as [dt |] eqn:E.
    + exfalso. exact (Hno dt eq_refl).
    + reflexivity.
  - intros dep Hdep Hno. rewrite Hdep. cbn [try_except].
    destruct (DateTime.strptime (strip sa)) as [dt |] eqn:E.
    + exfalso. exact (Hno dt eq_refl).
    + reflexivity.
Qed.

Lemma datetime_parse_error_reported_witness :
  validate_row (row_with_times " 2025-11-23T07:30 " "2025-11-23 09:30") "sample" 2
  = Ret (None,
         "departure_datetime parse error: invalid datetime format (expected 'YYYY-MM-DD HH:MM'): 2025-11-23T07:30").
Proof.
  refine (proj1 (datetime_parse_error_reported
                   (row_with_times " 2025-11-23T07:30 " "2025-11-23 09:30") "sample" 2
                   eq_refl eq_refl eq_refl eq_refl) _).
  intros dt H. vm_compute in H. discriminate H.
Defined.

Module ReasonFacts.

Lemma first_missing_in (fields : list string) (row : dict) (f : string) :
  first_missing fields row = Some f -> In f fields /\ field_missing row f = true.
Proof.
  induction fields as [| f0 fields IH]; simpl; [ discriminate | ].
  destruct (field_missing row f0) eqn:E.
  - intro H. injection H as <-. split; [ left; reflexivity | exact E ].
  - intro H. destruct (IH H) as [Hin Hm]. split; [ right; exact Hin | exact Hm ].
Qed.

Lemma first_missing_none_field (fields : list string) (row : dict) (f : string) :
  first_missing fields row = None -> In f fields -> field_missing row f = false.
Proof.
  intros H Hin. apply first_missing_none in H.
  rewrite forallb_forall in H. apply negb_true_iff, H, Hin.
Qed.

(** The text of the exception for a field that is present is never the
    one of the empty datetime. *)
Lemma getitem_parse_error (row : dict) (k : string) (e : exn) :
  field_missing row k = false ->
  bind (dict_getitem row k) (fun v => parse_iso_datetime v) = Raise e ->
  exn_str e <> "empty datetime".
Proof.
  unfold field_missing, dict_getitem.
  destruct (dict_get row k) as [v |]; [ | discriminate ].
  cbn [bind]. intros Hm H.
  destruct v as [| b | n | x | s | l | d];
    try (injection H as <-; discriminate).
  simpl in Hm. unfold parse_iso_datetime in H. cbn [strip_method bind] in H.
  rewrite Hm in H.
  destruct (DateTime.strptime (strip s)); [ discriminate H | ].
  injection H as <-. discriminate.
Qed.

End ReasonFacts.

(** X10.  The message of a rejected row is one of nine kinds: a missing
    field of [REQUIRED_FIELDS], the flight id, origin or destination
    message, a departure or arrival parse error, the ordering message,
    or one of the two price messages.  The parse error of a row is never
    the one of the empty datetime: the presence rule catches blank
    cells first. *)
Theorem rejection_reasons (row : dict) (file : string) (lineno : Z) (msg : string) :
  validate_row row file lineno = Ret (None, msg) ->
  (exists f, In f REQUIRED_FIELDS /\ msg = "missing required field '" ++ f ++ "'")
  \/ msg = "flight_id must be 2-8 alphanumeric characters"
  \/ msg = "origin must be 3 uppercase letters"
  \/ msg = "destination must be 3 uppercase letters"
  \/ (exists t, msg = "departure_datetime parse error: " ++ t /\ t <> "empty datetime")
  \/ (exists t, msg = "arrival_datetime parse error: " ++ t /\ t <> "empty datetime")
  \/ msg = "arrival_datetime must be after departure_datetime"
  \/ msg = "price must be a positive number"
  \/ msg = "price must be a positive float".
Proof.
  unfold validate_row.
  destruct (first_missing REQUIRED_FIELDS row) as [f |] eqn:Hfm.
  { intro H. injection H as <-. left. exists f.
    split; [ exact (proj1 (ReasonFacts.first_missing_in _ _ _ Hfm)) | reflexivity ]. }
  pose proof (ReasonFacts.first_missing_none_field _ _ "departure_datetime" Hfm
                ltac:(simpl; tauto)) as Hmd.
  pose proof (ReasonFacts.first_missing_none_field _ _ "arrival_datetime" Hfm
                ltac:(simpl; tauto)) as Hma.
  repeat match goal with
         | |- context [if negb ?c then _ else _] =>
             destruct c; cbn [negb];
             [ | intro H; injection H as <-; tauto ]
         end.
  destruct (bind (dict_getitem row "departure_datetime") _) as [dep | e] eqn:Ed.
  2:{ intro H. injection H as <-. do 4 right. left. exists (exn_str e).
      split; [ reflexivity | exact (ReasonFacts.getitem_parse_error _ _ _ Hmd Ed) ]. }
  destruct (bind (dict_getitem row "arrival_datetime") _) as [arr | e] eqn:Ea.
  2:{ intro H. injection H as <-. do 5 right. left. exists (exn_str e).
      split; [ reflexivity | exact (ReasonFacts.getitem_parse_error _ _ _ Hma Ea) ]. }
  destruct (DateTime.leb arr dep); [ intro H; injection H as <-; tauto | ].
  destruct (py_float _) as [price | e]; [ | intro H; injection H as <-; tauto ].
  destruct (PyFloat.leb price PyFloat.zero); [ intro H; injection H as <-; tauto | ].
  discriminate.
Qed.

Lemma rejection_reasons_witness :
  (exists f, In f REQUIRED_FIELDS
             /\ "missing required field 'origin'" = "missing required field '" ++ f ++ "'")
  \/ "missing required field 'origin'" = "flight_id must be 2-8 alphanumeric characters"
  \/ "missing required field 'origin'" = "origin must be 3 uppercase letters"
  \/ "missing required field 'origin'" = "destination must be 3 uppercase letters"
  \/ (exists t, "missing required field 'origin'" = "departure_datetime parse error: " ++ t
                /\ t <> "empty datetime")
  \/ (exists t, "missing required field 'origin'" = "arrival_datetime parse error: " ++ t
                /\ t <> "empty datetime")
  \/ "missing required field 'origin'" = "arrival_datetime must be after departure_datetime"
  \/ "missing required field 'origin'" = "price must be a positive number"
  \/ "missing required field 'origin'" = "price must be a positive float".
Proof.
  exact (rejection_reasons row_missing_origin "sample" 2
           "missing required field 'origin'" eq_refl).
Defined.

Module FilterFacts.

Lemma filterM_total {A : Type} (p : A -> M bool) (t : A -> bool) (l : list A) :
  (forall a, In a l -> p a = Ret (t a)) -> filterM p l = Ret (filter t l).
Proof.
  induction l as [| a l IH]; intro H; simpl; [ reflexivity | ].
  rewrite (H a (or_introl eq_refl)). cbn [bind].
  rewrite IH by (intros b Hb; apply H; right; exact Hb).
  reflexivity.
Qed.

Lemma filterM_inv {A : Type} (p : A -> M bool) (l r : list A) :
  filterM p l = Ret r ->
  subseq r l /\ Forall (fun a => p a = Ret true) r.
Proof.
  revert r. induction l as [| a l IH]; intros r H; simpl in H.
  - injection H as <-. split; constructor.
  - destruct (p a) as [b |] eqn:Ea; cbn [bind] in H; [ | discriminate H ].
    destruct (filterM p l) as [r' |]; cbn [bind] in H; [ | discriminate H ].
    injection H as <-. destruct (IH r' eq_refl) as [Hs HF].
    destruct b.
    + split; [ apply subseq_keep, Hs | constructor; assumption ].
    + split; [ apply subseq_skip, Hs | exact HF ].
Qed.

Lemma filterM_fixed {A : Type} (p : A -> M bool) (r : list A) :
  Forall (fun a => p a = Ret true) r -> filterM p r = Ret r.
Proof.
  induction 1 as [| a r Ha _ IH]; simpl; [ reflexivity | ].
  rewrite Ha. cbn [bind]. rewrite IH. reflexivity.
Qed.

Lemma subseq_refl {A : Type} (l : list A) : subseq l l.
Proof. induction l; constructor; assumption. Qed.

Lemma subseq_trans {A : Type} (a b c : list A) :
  subseq a b -> subseq b c -> subseq a c.
Proof.
  intros Hab Hbc. revert a Hab.
  induction Hbc as [| x b c _ IH | x b c _ IH]; intros a Hab.
  - exact Hab.
  - apply subseq_skip, IH, Hab.
  - inversion Hab; subst.
    + apply subseq_skip, IH. assumption.
    + apply subseq_keep, IH. assumption.
Qed.

Lemma subseq_in {A : Type} (r l : list A) :
  subseq r l -> forall a, In a r -> In a l.
Proof.
  induction 1 as [| x r l _ IH | x r l _ IH]; intros a Ha.
  - exact Ha.
  - right. exact (IH a Ha).
  - destruct Ha as [-> | Ha]; [ left; reflexivity | right; exact (IH a Ha) ].
Qed.

Lemma subseq_filter {A : Type} (p : A -> bool) (l : list A) : subseq (filter p l) l.
Proof.
  induction l as [| a l IH]; simpl; [ constructor | ].
  destruct (p a); constructor; assumption.
Qed.

Lemma filter_fixed {A : Type} (p : A -> bool) (r : list A) :
  Forall (fun a => p a = true) r -> filter p r = r.
Proof.
  induction 1 as [| a r Ha _ IH]; simpl; [ reflexivity | ].
  rewrite Ha, IH. reflexivity.
Qed.

Lemma Forall_subseq {A : Type} (P : A -> Prop) (r l : list A) :
  subseq r l -> Forall P l -> Forall P r.
Proof.
  intros Hs HF. rewrite Forall_forall in *. intros a Ha.
  apply HF. exact (subseq_in r l Hs a Ha).
Qed.

Lemma departure_between_shape (q : dict) : clause_shape (departure_between q).
Proof.
  unfold clause_shape, departure_between.
  destruct (dict_mem q "departure_between"); [ | left; reflexivity ].
  right.
  destruct (dict_getitem q "departure_between") as [v | e]; cbn [bind];
    [ | right; exists e; reflexivity ].
  destruct (unpack2 v) as [[b1 b2] | e]; cbn [bind];
    [ | right; exists e; reflexivity ].
  destruct (parse_iso_datetime b1) as [d1 | e]; cbn [bind];
    [ | right; exists e; reflexivity ].
  destruct (parse_iso_datetime b2) as [d2 | e]; cbn [bind];
    [ | right; exists e; reflexivity ].
  left. eexists. reflexivity.
Qed.

Lemma arrival_before_shape (q : dict) : clause_shape (arrival_before q).
Proof.
  unfold clause_shape, arrival_before.
  destruct (dict_mem q "arrival_before"); [ | left; reflexivity ].
  right.
  destruct (dict_getitem q "arrival_before") as [v | e]; cbn [bind];
    [ | right; exists e; reflexivity ].
  destruct (parse_iso_datetime v) as [d1 | e]; cbn [bind];
    [ | right; exists e; reflexivity ].
  left. eexists. reflexivity.
Qed.

Lemma arrival_after_shape (q : dict) : clause_shape (arrival_after q).
Proof.
  unfold clause_shape, arrival_after.
  destruct (dict_mem q "arrival_after"); [ | left; reflexivity ].
  right.
  destruct (dict_getitem q "arrival_after") as [v | e]; cbn [bind];
    [ | right; exists e; reflexivity ].
  destruct (parse_iso_datetime v) as [d1 | e]; cbn [bind];
    [ | right; exists e; reflexivity ].
  left. eexists. reflexivity.
Qed.

(** A clause returns a part of its input in order, and returns that part
    unchanged when it is given it again. *)
Lemma clause_narrows (stage : list dict -> M (list dict)) (l r : list dict) :
  clause_shape stage -> stage l = Ret r ->
  subseq r l /\ forall r', subseq r' r -> stage r' = Ret r'.
Proof.
  intros [H | [(p & H) | (e & H)]] Hs; rewrite H in Hs.
  - injection Hs as <-. split; [ apply subseq_refl | intros r' _; apply H ].
  - destruct (filterM_inv p l r Hs) as [Hsub HF].
    split; [ exact Hsub | ].
    intros r' Hr'. rewrite H. apply filterM_fixed.
    exact (Forall_subseq _ r' r Hr' HF).
  - discriminate Hs.
Qed.

End FilterFacts.

Import FilterFacts.

(** X11.  What [apply_filters] returns is a part of the record list in
    its original order, and filtering that result again with the same
    query returns it unchanged. *)
Theorem apply_filters_idempotent (flights : list dict) (q : dict) (res : list dict) :
  apply_filters flights q = Ret res ->
  subseq res flights /\ apply_filters res q = Ret res.
Proof.
  unfold apply_filters. intro H.
  destruct (filter_items q) as [filt |]; cbn [bind] in H |- *; [ | discriminate H ].
  rewrite equality_filters_spec in H. rewrite equality_filters_spec.
  destruct (departure_between q (filter (Spec.record_matches filt) flights))
    as [r1 |] eqn:E1; cbn [bind] in H; [ | discriminate H ].
  destruct (arrival_before q r1) as [r2 |] eqn:E2; cbn [bind] in H; [ | discriminate H ].
  destruct (arrival_after q r2) as [r3 |] eqn:E3; cbn [bind] in H; [ | discriminate H ].
  injection H as <-.
  destruct (clause_narrows _ _ _ (departure_between_shape q) E1) as [S1 F1].
  destruct (clause_narrows _ _ _ (arrival_before_shape q) E2) as [S2 F2].
  destruct (clause_narrows _ _ _ (arrival_after_shape q) E3) as [S3 F3].
  assert (S13 : subseq r3 r1) by (exact (subseq_trans _ _ _ S3 S2)).
  assert (S0 : subseq r3 (filter (Spec.record_matches filt) flights))
    by (exact (subseq_trans _ _ _ S13 S1)).
  split.
  - exact (subseq_trans _ _ _ S0 (subseq_filter _ flights)).
  - rewrite filter_fixed.
    + rewrite (F1 r3 S13). cbn [bind]. rewrite (F2 r3 S3). cbn [bind].
      rewrite (F3 r3 (subseq_refl r3)). reflexivity.
    + apply (Forall_subseq _ r3 _ S0). apply Forall_forall.
      intros f Hf. apply filter_In in Hf. exact (proj2 Hf).
Qed.

Lemma apply_filters_idempotent_witness :
  subseq [flight_aa100] [flight_aa100; flight_ua400]
  /\ apply_filters [flight_aa100] query_origin_jfk = Ret [flight_aa100].
Proof.
  exact (apply_filters_idempotent [flight_aa100; flight_ua400] query_origin_jfk
           [flight_aa100] eq_refl).
Defined.

Module RangeFacts.

Lemma departure_between_bounds (q : dict) (res : list dict) :
  departure_between q res
  = bind (departure_bounds q)
      (fun b => match b with
                | None => Ret res
                | Some (s, e) =>
                    filterM (fun f =>
                               v <- dict_getitem f "departure" ;;
                               d <- parse_iso_datetime v ;;
                               Ret (DateTime.leb s d && DateTime.leb d e)) res
                end).
Proof.
  unfold departure_between, departure_bounds.
  destruct (dict_mem q "departure_between"); [ | reflexivity ].
  destruct (dict_getitem q "departure_between") as [v |]; cbn [bind]; [ | reflexivity ].
  destruct (unpack2 v) as [[b1 b2] |]; cbn [bind]; [ | reflexivity ].
  destruct (parse_iso_datetime b1); cbn [bind]; [ | reflexivity ].
  destruct (parse_iso_datetime b2); reflexivity.
Qed.

Lemma arrival_before_bound (q : dict) (res : list dict) :
  arrival_before q res
  = bind (single_bound q "arrival_before")
      (fun b => match b with
                | None => Ret res
                | Some e =>
                    filterM (fun f =>
                               v <- dict_getitem f "arrival" ;;
                               d <- parse_iso_datetime v ;;
                               Ret (DateTime.leb d e)) res
                end).
Proof.
  unfold arrival_before, single_bound.
  destruct (dict_mem q "arrival_before"); [ | reflexivity ].
  destruct (dict_getitem q "arrival_before") as [v |]; cbn [bind]; [ | reflexivity ].
  destruct (parse_iso_datetime v); reflexivity.
Qed.

Lemma arrival_after_bound (q : dict) (res : list dict) :
  arrival_after q res
  = bind (single_bound q "arrival_after")
      (fun b => match b with
                | None => Ret res
                | Some s =>
                    filterM (fun f =>
                               v <- dict_getitem f "arrival" ;;
                               d <- parse_iso_datetime v ;;
                               Ret (DateTime.leb s d)) res
                end).
Proof.
  unfold arrival_after, single_bound.
  destruct (dict_mem q "arrival_after"); [ | reflexivity ].
  destruct (dict_getitem q "arrival_after") as [v |]; cbn [bind]; [ | reflexivity ].
  destruct (parse_iso_datetime v); reflexivity.
Qed.

Lemma record_time_some (f : dict) (k : string) :
  record_time f k <> None ->
  exists v d, dict_get f k = Some v /\ parse_iso_datetime v = Ret d
              /\ record_time f k = Some d.
Proof.
  unfold record_time. destruct (dict_get f k) as [v |]; [ | congruence ].
  destruct (parse_iso_datetime v) as [d |] eqn:E; [ | congruence ].
  intros _. exists v, d. repeat split. exact E.
Qed.

Lemma read_time (f : dict) (k : string) (t : DateTime.datetime -> bool) :
  record_time f k <> None ->
  bind (dict_getitem f k) (fun v => bind (parse_iso_datetime v) (fun d => Ret (t d)))
  = Ret (match record_time f k with Some d => t d | None => false end).
Proof.
  intro H. destruct (record_time_some f k H) as (v & d & Hg & Hp & ->).
  unfold dict_getitem. rewrite Hg. cbn [bind]. rewrite Hp. reflexivity.
Qed.

End RangeFacts.

(** X12.  When the filter and the bounds of the range clauses are read
    without an exception and every record holds, under [departure] and
    [arrival], the datetimes the clauses in force need, [apply_filters]
    returns exactly the records that pass all the tests at once: the
    equality pairs, departure within the bounds and arrival against its
    bounds, every bound included. *)
Theorem apply_filters_conjunction
        (flights : list dict) (q filt : dict)
        (db : option (DateTime.datetime * DateTime.datetime))
        (bb ab : option DateTime.datetime) :
  filter_items q = Ret filt ->
  departure_bounds q = Ret db ->
  single_bound q "arrival_before" = Ret bb ->
  single_bound q "arrival_after" = Ret ab ->
  Forall (readable_for db bb ab) flights ->
  apply_filters flights q
  = Ret (filter (fun f => Spec.record_matches filt f && between_test db f
                          && before_test bb f && after_test ab f) flights).
Proof.
  intros Hf Hd Hb Ha Hread. unfold apply_filters. rewrite Hf. cbn [bind].
  rewrite equality_filters_spec.
  rewrite RangeFacts.departure_between_bounds, Hd. cbn [bind].
  set (l0 := filter (Spec.record_matches filt) flights).
  assert (R0 : Forall (readable_for db bb ab) l0).
  { exact (Forall_subseq _ _ _ (subseq_filter _ flights) Hread). }
  assert (E1 : match db with
               | None => Ret l0
               | Some (s, e) =>
                   filterM (fun f =>
                              v <- dict_getitem f "departure" ;;
                              d <- parse_iso_datetime v ;;
                              Ret (DateTime.leb s d && DateTime.leb d e)) l0
               end = Ret (filter (between_test db) l0)).
  { destruct db as [[s e] |].
    - apply filterM_total. intros f Hin. rewrite Forall_forall in R0.
      destruct (R0 f Hin) as [Hdep _].
      rewrite (RangeFacts.read_time f "departure"
                 (fun d => DateTime.leb s d && DateTime.leb d e)) by (apply Hdep; discriminate).
      reflexivity.
    - symmetry. f_equal. apply filter_all_true. }
  rewrite E1. cbn [bind].
  set (l1 := filter (between_test db) l0).
  assert (R1 : Forall (readable_for db bb ab) l1).
  { exact (Forall_subseq _ _ _ (subseq_filter _ l0) R0). }
  rewrite RangeFacts.arrival_before_bound, Hb. cbn [bind].
  assert (E2 : match bb with
               | None => Ret l1
               | Some e =>
                   filterM (fun f =>
                              v <- dict_getitem f "arrival" ;;
                              d <- parse_iso_datetime v ;;
                              Ret (DateTime.leb d e)) l1
               end = Ret (filter (before_test bb) l1)).
  { destruct bb as [e |].
    - apply filterM_total. intros f Hin. rewrite Forall_forall in R1.
      destruct (R1 f Hin) as [_ Harr].
      rewrite (RangeFacts.read_time f "arrival" (fun d => DateTime.leb d e))
        by (apply Harr; left; discriminate).
      reflexivity.
    - symmetry. f_equal. apply filter_all_true. }
  rewrite E2. cbn [bind].
  set (l2 := filter (before_test bb) l1).
  assert (R2 : Forall (readable_for db bb ab) l2).
  { exact (Forall_subseq _ _ _ (subseq_filter _ l1) R1). }
  rewrite RangeFacts.arrival_after_bound, Ha. cbn [bind].
  assert (E3 : match ab with
               | None => Ret l2
               | Some s =>
                   filterM (fun f =>
                              v <- dict_getitem f "arrival" ;;
                              d <- parse_iso_datetime v ;;
                              Ret (DateTime.leb s d)) l2
               end = Ret (filter (after_test ab) l2)).
  { destruct ab as [s |].
    - apply filterM_total. intros f Hin. rewrite Forall_forall in R2.
      destruct (R2 f Hin) as [_ Harr].
      rewrite (RangeFacts.read_time f "arrival" (fun d => DateTime.leb s d))
        by (apply Harr; right; discriminate).
      reflexivity.
    - symmetry. f_equal. apply filter_all_true. }
  rewrite E3. cbn [bind]. f_equal.
  unfold l2, l1, l0. rewrite !filter_filter.
  apply filter_ext_all. intro f. rewrite !andb_assoc. reflexivity.
Qed.

Lemma apply_filters_conjunction_witness :
  apply_filters flights_with_times query_november_early
  = Ret [ [ ("flight_id", PStr "A1"); ("departure", PStr "2025-11-01 00:00");
            ("arrival", PStr "2025-11-01 02:00") ] ].
Proof.
  rewrite (apply_filters_conjunction flights_with_times query_november_early []
             (Some (DateTime.mkdt 2025 11 1 0 0, DateTime.mkdt 2025 11 30 23 59))
             (Some (DateTime.mkdt 2025 11 1 2 0)) None
             eq_refl eq_refl eq_refl eq_refl).
  - reflexivity.
  - repeat constructor; intros _; discriminate.
Defined.

(** X13.  A [departure_between] clause that cannot be read (not two
    values, or a bound that does not parse) makes [apply_filters] raise
    for every record list, the empty one included: the bounds are read
    before any record. *)
Theorem bad_departure_bounds_raise (flights : list dict) (q filt : dict) (e : exn) :
  filter_items q = Ret filt ->
  departure_bounds q = Raise e ->
  apply_filters flights q = Raise e.
Proof.
  intros Hf Hd. unfold apply_filters. rewrite Hf. cbn [bind].
  rewrite RangeFacts.departure_between_bounds, Hd. reflexivity.
Qed.

Lemma bad_departure_bounds_raise_witness :
  apply_filters [] query_bad_bound
  = Raise (Exn ValueError
             "invalid datetime format (expected 'YYYY-MM-DD HH:MM'): 2025-11-01").
Proof.
  exact (bad_departure_bounds_raise [] query_bad_bound [] _ eq_refl eq_refl).
Defined.

(** A record of [validate_row] has the key [arrival] only when the row
    has a column of that name. *)
Lemma validate_row_no_arrival_key
      (row : dict) (file : string) (lineno : Z) (flight : dict) :
  dict_get row "arrival" = None ->
  validate_row row file lineno = Ret (Some flight, EmptyString) ->
  dict_get flight "arrival" = None.
Proof.
  intros Hrow H.
  destruct (validate_row_accepted_inv row file lineno flight H)
    as (fid & origin & dest & dep & arr & price & -> & _).
  apply copy_extra_fields_get_none; [ exact Hrow | reflexivity ].
Qed.

(** X14.  On a non-empty list whose first record [validate_row] built
    from a row without an [arrival] column, a query with only an
    [arrival_before] bound, or only an [arrival_after] bound, that
    parses raises [KeyError] for the key [arrival]: the two clauses read
    a key [validate_row] does not write. *)
Theorem arrival_clauses_key_error
        (row : dict) (file : string) (lineno : Z) (flight : dict)
        (flights : list dict) (q : dict) (k : string) (b : pyval)
        (d : DateTime.datetime) :
  dict_get row "arrival" = None ->
  validate_row row file lineno = Ret (Some flight, EmptyString) ->
  q = [ (k, b) ] ->
  k = "arrival_before" \/ k = "arrival_after" ->
  parse_iso_datetime b = Ret d ->
  apply_filters (flight :: flights) q = Raise (Exn KeyError "'arrival'").
Proof.
  intros Hrow Hv -> Hk Hb.
  pose proof (validate_row_no_arrival_key row file lineno flight Hrow Hv) as Hnone.
  destruct Hk as [-> | ->]; unfold apply_filters; cbn;
    rewrite Hb; cbn [bind filterM]; unfold dict_getitem; rewrite Hnone; reflexivity.
Qed.

Lemma arrival_clauses_key_error_witness :
  apply_filters [flight_aa100; flight_ua400] query_arrival_before
  = Raise (Exn KeyError "'arrival'")
  /\ apply_filters [flight_aa100; flight_ua400] query_arrival_after
     = Raise (Exn KeyError "'arrival'").
Proof.
  split.
  - exact (arrival_clauses_key_error row_aa100 "sample" 2 flight_aa100 [flight_ua400]
             query_arrival_before "arrival_before" (PStr "2025-12-31 00:00")
             (DateTime.mkdt 2025 12 31 0 0)
             eq_refl eq_refl eq_refl (or_introl eq_refl) eq_refl).
  - exact (arrival_clauses_key_error row_aa100 "sample" 2 flight_aa100 [flight_ua400]
             query_arrival_after "arrival_after" (PStr "2025-01-01 00:00")
             (DateTime.mkdt 2025 1 1 0 0)
             eq_refl eq_refl eq_refl (or_intror eq_refl) eq_refl).
Defined.

(** X15.  The pairs of a filter can be applied in any order, and a
    filter in two parts is the second part applied to the result of the
    first: the records kept are the same. *)
Theorem equality_filters_order (filt filt' filt1 filt2 : dict) (flights : list dict) :
  Permutation filt filt' ->
  equality_filters filt flights = equality_filters filt' flights
  /\ equality_filters (filt1 ++ filt2)%list flights
     = equality_filters filt2 (equality_filters filt1 flights).
Proof.
  intro Hperm. split.
  - rewrite !equality_filters_spec. apply filter_ext_all. intro f.
    unfold Spec.record_matches.
    induction Hperm as [| kv l l' _ IH | kv1 kv2 l | l l' l'' _ IH1 _ IH2]; simpl.
    + reflexivity.
    + rewrite IH. reflexivity.
    + rewrite !andb_assoc. f_equal. apply andb_comm.
    + rewrite IH1. exact IH2.
  - unfold equality_filters. apply fold_left_app.
Qed.

Lemma equality_filters_order_witness :
  equality_filters [ ("origin", PStr "jfk"); ("destination", PStr "lax") ]
                   [flight_aa100; flight_ua400]
  = equality_filters [ ("destination", PStr "lax"); ("origin", PStr "jfk") ]
                     [flight_aa100; flight_ua400].
Proof.
  exact (proj1 (equality_filters_order
                  [ ("origin", PStr "jfk"); ("destination", PStr "lax") ]
                  [ ("destination", PStr "lax"); ("origin", PStr "jfk") ] [] []
                  [flight_aa100; flight_ua400]
                  (perm_swap _ _ []))).
Defined.

Module BatchFacts.

Lemma run_queries_from_inv (flights : list dict) (data : list pyval) :
  forall qi rs,
    run_queries_from flights qi data = Ret rs ->
    exists qs ms,
      data = map PDict qs
      /\ Forall2 (fun q m => apply_filters flights q = Ret m) qs ms.
Proof.
  induction data as [| qv data IH]; intros qi rs H.
  - exists [], []. split; [ reflexivity | constructor ].
  - simpl in H. unfold run_query in H.
    destruct qv as [| b | n | x | s | l | q]; try discriminate H.
    destruct (apply_filters flights q) as [m |] eqn:Eq; cbn [bind] in H; [ | discriminate H ].
    destruct (run_queries_from flights (qi + 1) data) as [rs' |] eqn:E;
      cbn [bind] in H; [ | discriminate H ].
    destruct (IH _ _ E) as (qs & ms & -> & HF).
    exists (q :: qs), (m :: ms). split; [ reflexivity | ].
    constructor; assumption.
Qed.

End BatchFacts.

(** X16.  [run_queries] returns only when the document is a list of
    objects and every one of them is evaluated without an exception; the
    result then holds one entry per query, in order, whose count is the
    number of its results. *)
Theorem run_queries_success (flights : list dict) (data r : pyval) :
  run_queries flights data = Ret r ->
  exists qs ms results,
    data = PList (map PDict qs)
    /\ Forall2 (fun q m => apply_filters flights q = Ret m) qs ms
    /\ r = PDict [ ("queries", PList results) ]
    /\ List.length results = List.length qs
    /\ forall i q m,
        nth_error qs i = Some q -> nth_error ms i = Some m ->
        nth_error results i
        = Some (PDict [ ("name", query_name q (1 + Z.of_nat i));
                        ("count", PInt (Z.of_nat (List.length m)));
                        ("results", PList (map PDict m)) ]).
Proof.
  unfold run_queries. intro H.
  destruct data as [| b | n | x | s | l | d]; try discriminate H.
  destruct (run_queries_from flights 1 l) as [rs |] eqn:E; cbn [bind] in H;
    [ | discriminate H ].
  injection H as <-.
  destruct (BatchFacts.run_queries_from_inv flights l 1 rs E) as (qs & ms & -> & HF).
  destruct (run_queries_from_spec flights qs ms HF 1) as (results & Hr & Hl & Hn).
  rewrite Hr in E. injection E as <-.
  exists qs, ms, results. repeat split; assumption.
Qed.

Lemma run_queries_success_witness :
  exists (qs : list dict) (ms : list (list dict)) (results : list pyval),
    PList [ PDict query_origin_jfk ] = PList (map PDict qs)
    /\ Forall2 (fun q m => apply_filters [flight_aa100; flight_ua400] q = Ret m) qs ms
    /\ List.length results = List.length qs.
Proof.
  destruct (run_queries_success [flight_aa100; flight_ua400]
              (PList [ PDict query_origin_jfk ])
              (PDict [ ("queries",
                        PList [ PDict [ ("name", PStr "q1"); ("count", PInt 1);
                                        ("results", PList [ PDict flight_aa100 ]) ] ]) ])
              eq_refl)
    as (qs & ms & results & Hd & HF & _ & Hl & _).
  exists qs, ms, results. repeat split; assumption.
Defined.

(** X17.  When a query of the batch raises after queries that were
    evaluated, [run_queries] raises that exception and returns nothing
    of the earlier results, whatever follows the query in the document. *)
Theorem run_queries_all_or_nothing
        (flights : list dict) (qs1 : list dict) (ms1 : list (list dict))
        (q : dict) (qs2 : list pyval) (e : exn) :
  Forall2 (fun q m => apply_filters flights q = Ret m) qs1 ms1 ->
  apply_filters flights q = Raise e ->
  run_queries flights (PList (map PDict qs1 ++ PDict q :: qs2)) = Raise e.
Proof. exact (run_queries_aborts flights qs1 ms1 q qs2 e). Qed.

Lemma run_queries_all_or_nothing_witness :
  run_queries [flight_aa100; flight_ua400]
    (PList [ PDict query_origin_jfk; PDict query_november; PInt 7 ])
  = Raise (Exn KeyError "'departure'").
Proof.
  refine (run_queries_all_or_nothing [flight_aa100; flight_ua400]
            [query_origin_jfk] [[flight_aa100]] query_november [PInt 7]
            (Exn KeyError "'departure'") _ eq_refl).
  repeat constructor.
Defined.

(** X18.  Reading two lists of paths one after the other gives the
    records and the error entries of the first followed by those of the
    second; no path gives an empty result. *)
Theorem parse_csv_files_app (fs : string -> source) (paths1 paths2 : list string) :
  parse_csv_files fs (paths1 ++ paths2)
  = ((fst (parse_csv_files fs paths1) ++ fst (parse_csv_files fs paths2))%list,
     (snd (parse_csv_files fs paths1) ++ snd (parse_csv_files fs paths2))%list)
  /\ parse_csv_files fs [] = ([], []).
Proof.
  split; [ | reflexivity ].
  unfold parse_csv_files. rewrite !parse_fold_spec. cbn [fst snd app].
  rewrite !flat_map_app. reflexivity.
Qed.

(** X19.  Every record [parse_csv_files] returns is the record
    [validate_row] built for a row of a source among the paths, with the
    line number two more than the index of the row. *)
Theorem parse_csv_files_provenance
        (fs : string -> source) (paths : list string) (d : dict) :
  In d (fst (parse_csv_files fs paths)) ->
  exists p rows failure i row,
    In p paths /\ fs p = Reads rows failure
    /\ nth_error rows i = Some row
    /\ validate_row row p (2 + Z.of_nat i) = Ret (Some d, EmptyString).
Proof.
  unfold parse_csv_files. rewrite parse_fold_spec. cbn [fst app].
  intro H. apply in_flat_map in H. destruct H as (p & Hp & Hd).
  unfold source_valid in Hd.
  destruct (fs p) as [e | rows failure] eqn:Efs; [ contradiction | ].
  exists p, rows, failure.
  assert (G : forall lineno,
             In d (rows_valid p lineno rows) ->
             exists i row, nth_error rows i = Some row
                           /\ validate_row row p (lineno + Z.of_nat i)
                              = Ret (Some d, EmptyString)).
  { clear Efs Hd. induction rows as [| row rows IH]; intros lineno Hin; [ contradiction | ].
    simpl in Hin. apply in_app_or in Hin. destruct Hin as [Hin | Hin].
    - exists 0%nat, row. split; [ reflexivity | ].
      rewrite Z.add_0_r.
      destruct (row_one_entry p lineno row)
        as [(d' & Hv & _ & Hr & _) | (msg & Hv & _)]; rewrite Hv in Hin.
      + destruct Hin as [<- | []]. exact Hr.
      + contradiction.
    - destruct (IH (lineno + 1) Hin) as (i & row' & Hn & Hr).
      exists (S i), row'. split; [ exact Hn | ].
      replace (lineno + Z.of_nat (S i)) with (lineno + 1 + Z.of_nat i) by lia.
      exact Hr. }
  destruct (G 2 Hd) as (i & row & Hn & Hr).
  exists i, row. repeat split; assumption.
Qed.

Lemma parse_csv_files_provenance_witness :
  exists p rows failure i row,
    In p ["flights.csv"; "absent.csv"] /\ sample_fs p = Reads rows failure
    /\ nth_error rows i = Some row
    /\ validate_row row p (2 + Z.of_nat i) = Ret (Some flight_aa100, EmptyString).
Proof.
  apply (parse_csv_files_provenance sample_fs ["flights.csv"; "absent.csv"] flight_aa100).
  vm_compute. left. reflexivity.
Defined.

(** X20.  A text that [parse_iso_datetime] accepts is, once trimmed, a
    year of four digits, a hyphen, a month of one or two digits, a
    hyphen, a day of one or two digits (or a blank and a digit), white
    space, an hour and a minute of one or two digits around a colon, and
    nothing else; the datetime returned is made of the values of these
    five numbers. *)
Theorem parse_iso_datetime_reads_fields (s : string) (dt : DateTime.datetime) :
  parse_iso_datetime (PStr s) = Ret dt ->
  exists tY tm td ws tH tM,
    strip s = tY ++ "-" ++ tm ++ "-" ++ td ++ ws ++ tH ++ ":" ++ tM
    /\ len tY = 4 /\ all_chars is_decimal tY = true
    /\ short_number tm /\ day_text td
    /\ ws <> EmptyString /\ all_chars is_space ws = true
    /\ short_number tH /\ short_number tM
    /\ dt = DateTime.mkdt (DateTime.int_of_group tY) (DateTime.int_of_group tm)
              (DateTime.int_of_group td) (DateTime.int_of_group tH)
              (DateTime.int_of_group tM).
Proof.
  intro H. destruct (parse_iso_datetime_strptime _ _ H) as (s' & Hs & Hp).
  injection Hs as <-. unfold DateTime.strptime in Hp.
  destruct (DateTime.regex_match (strip s)) as [[caps rest] |] eqn:E; [ | discriminate Hp ].
  destruct (regex_match_shape _ _ _ E)
    as (tY & tm & td & ws & tH & tM & Hs & -> & HY1 & HY2 & Hm & Hd & Hw1 & Hw2 & HH & HM).
  destruct rest; [ | discriminate Hp ]. cbn [is_empty negb] in Hp.
  cbn [DateTime.group String.eqb Ascii.eqb Bool.eqb] in Hp.
  repeat match type of Hp with
         | (if negb ?c then _ else _) = _ =>
             destruct c; cbn [negb] in Hp; [ | discriminate Hp ]
         end.
  injection Hp as <-.
  exists tY, tm, td, ws, tH, tM.
  split; [ rewrite Hs; repeat f_equal; apply append_empty_r | ].
  repeat match goal with |- _ /\ _ => split end; try assumption; reflexivity.
Qed.

Lemma parse_iso_datetime_reads_fields_witness :
  exists tY tm td ws tH tM,
    strip " 2025-1-5  8:05 " = tY ++ "-" ++ tm ++ "-" ++ td ++ ws ++ tH ++ ":" ++ tM
    /\ DateTime.mkdt 2025 1 5 8 5
       = DateTime.mkdt (DateTime.int_of_group tY) (DateTime.int_of_group tm)
           (DateTime.int_of_group td) (DateTime.int_of_group tH)
           (DateTime.int_of_group tM).
Proof.
  destruct (parse_iso_datetime_reads_fields " 2025-1-5  8:05 "
              (DateTime.mkdt 2025 1 5 8 5) eq_refl)
    as (tY & tm & td & ws & tH & tM & Hs & _ & _ & _ & _ & _ & _ & _ & _ & Hdt).
  exists tY, tm, td, ws, tH, tM. split; assumption.
Defined.

(** X21.  The price rule, for a row that passes rules 1 to 4 (six fields
    present, flight id, airports, datetimes that parse with the arrival
    after the departure): a trimmed price that [float] refuses is
    rejected with the positive float message; one that reads as a float
    at most zero, with the positive number message; any other is
    accepted, and the record holds that float under [price]. *)
Theorem price_rule_outcomes
        (row : dict) (file : string) (lineno : Z) (dep arr : DateTime.datetime) :
  forallb (Spec.present row) REQUIRED_FIELDS = true ->
  Spec.flight_id_ok (Spec.text_or_empty row "flight_id") = true ->
  Spec.airport_ok (Spec.text_or_empty row "origin") = true ->
  Spec.airport_ok (Spec.text_or_empty row "destination") = true ->
  DateTime.strptime (Spec.text_or_empty row "departure_datetime") = Ret dep ->
  DateTime.strptime (Spec.text_or_empty row "arrival_datetime") = Ret arr ->
  DateTime.compare arr dep = Gt ->
  (PyFloat.float_of_string (Spec.text_or_empty row "price") = None ->
   validate_row row file lineno = Ret (None, "price must be a positive float"))
  /\ (forall x,
        PyFloat.float_of_string (Spec.text_or_empty row "price") = Some x ->
        PyFloat.leb x PyFloat.zero = true ->
        validate_row row file lineno = Ret (None, "price must be a positive number"))
  /\ (forall x,
        PyFloat.float_of_string (Spec.text_or_empty row "price") = Some x ->
        PyFloat.leb x PyFloat.zero = false ->
        exists flight,
          validate_row row file lineno = Ret (Some flight, EmptyString)
          /\ dict_get flight "price" = Some (PFloat x)).
Proof.
  intros Hp Hf Ho Hd Hdep Harr Hgt.
  rewrite (validate_row_rules_1_3 row file lineno Hp Hf Ho Hd).
  assert (Hall : forall f, In f REQUIRED_FIELDS -> Spec.present row f = true).
  { apply forallb_forall. exact Hp. }
  destruct (present_get row "departure_datetime") as (sd & Hgd & Htd & Hed);
    [ apply Hall; simpl; tauto | ].
  destruct (present_get row "arrival_datetime") as (sa & Hga & Hta & Hea);
    [ apply Hall; simpl; tauto | ].
  unfold datetime_and_price_rules, dict_getitem. rewrite Hgd, Hga. cbn [bind].
  unfold parse_iso_datetime. cbn [strip_method bind]. rewrite Hed, Hea.
  rewrite <- Htd, <- Hta, Hdep, Harr. cbn [try_except].
  unfold DateTime.leb. rewrite Hgt.
  rewrite (present_default row "price" PNone (Hall "price" ltac:(simpl; tauto))).
  unfold py_float.
  split; [ | split ].
  - intros ->. reflexivity.
  - intros x -> ->. reflexivity.
  - intros x -> ->. eexists. split; [ reflexivity | ].
    apply copy_extra_fields_get. reflexivity.
Qed.

Lemma price_rule_outcomes_witness :
  validate_row (row_price "12,50") "sample" 2
  = Ret (None, "price must be a positive float")
  /\ validate_row (row_price " -0.0 ") "sample" 2
     = Ret (None, "price must be a positive number").
Proof.
  split.
  - exact (proj1 (price_rule_outcomes (row_price "12,50") "sample" 2
                    (DateTime.mkdt 2025 11 20 8 0) (DateTime.mkdt 2025 11 20 11 0)
                    eq_refl eq_refl eq_refl eq_refl eq_refl eq_refl eq_refl) eq_refl).
  - exact (proj1 (proj2 (price_rule_outcomes (row_price " -0.0 ") "sample" 2
                    (DateTime.mkdt 2025 11 20 8 0) (DateTime.mkdt 2025 11 20 11 0)
                    eq_refl eq_refl eq_refl eq_refl eq_refl eq_refl eq_refl))
             (S754_zero true) eq_refl eq_refl).
Defined.

Module CountFacts.

Lemma rows_entries (p : string) (rows : list dict) :
  forall lineno,
    (List.length (rows_valid p lineno rows) + List.length (rows_errors p lineno rows)
     = List.length rows)%nat.
Proof.
  induction rows as [| row rows IH]; intro lineno; [ reflexivity | ].
  cbn [rows_valid rows_errors]. rewrite !length_app.
  specialize (IH (lineno + 1)).
  destruct (row_one_entry p lineno row)
    as [(d & -> & -> & _) | (msg & -> & -> & _)]; simpl; lia.
Qed.

Lemma rows_errors_inv (p : string) (rows : list dict) (err : string) :
  forall lineno,
    In err (rows_errors p lineno rows) ->
    exists i row msg,
      nth_error rows i = Some row
      /\ validate_row row p (lineno + Z.of_nat i) = Ret (None, msg)
      /\ err = row_error p (lineno + Z.of_nat i) msg row.
Proof.
  induction rows as [| row rows IH]; intros lineno Hin; [ contradiction | ].
  cbn [rows_errors] in Hin. apply in_app_or in Hin. destruct Hin as [Hin | Hin].
  - exists 0%nat, row. rewrite Z.add_0_r.
    destruct (row_one_entry p lineno row)
      as [(d & _ & He & _) | (msg & _ & He & Hr)]; rewrite He in Hin.
    + contradiction.
    + destruct Hin as [<- | []]. exists msg. repeat split. exact Hr.
  - destruct (IH (lineno + 1) Hin) as (i & row' & msg & Hn & Hr & He).
    exists (S i), row', msg.
    replace (lineno + Z.of_nat (S i)) with (lineno + 1 + Z.of_nat i) by lia.
    repeat split; assumption.
Qed.

End CountFacts.

(** X22.  No row is lost and none is counted twice: the records and the
    error entries [parse_csv_files] returns are together as many as the
    rows of the sources, plus one for each source that could not be
    opened or read to its end. *)
Theorem parse_csv_files_accounts (fs : string -> source) (paths : list string) :
  (List.length (fst (parse_csv_files fs paths))
   + List.length (snd (parse_csv_files fs paths))
   = list_sum (map (source_entries fs) paths))%nat.
Proof.
  unfold parse_csv_files. rewrite parse_fold_spec. cbn [fst snd app].
  induction paths as [| p paths IH]; [ reflexivity | ].
  cbn [flat_map map list_sum]. rewrite !length_app.
  assert (H : (List.length (source_valid fs p) + List.length (source_errors fs p)
               = source_entries fs p)%nat).
  { unfold source_valid, source_errors, source_entries.
    destruct (fs p) as [e | rows failure]; [ reflexivity | ].
    rewrite length_app. pose proof (CountFacts.rows_entries p rows 2) as Hr.
    destruct failure; simpl; lia. }
  change (list_sum (source_entries fs p :: map (source_entries fs) paths))
    with (source_entries fs p + list_sum (map (source_entries fs) paths))%nat.
  lia.
Qed.

(** X23.  Every error entry [parse_csv_files] returns is the entry of a
    source that failed (the file-not-found or the reading-error text for
    its path), or the entry of a row that [validate_row] rejected: path,
    line number (two more than the index of the row), the message of
    [validate_row] and the row. *)
Theorem parse_csv_files_error_provenance
        (fs : string -> source) (paths : list string) (err : string) :
  In err (snd (parse_csv_files fs paths)) ->
  exists p, In p paths
    /\ ((exists e, (fs p = OpenFails e \/ exists rows, fs p = Reads rows (Some e))
                   /\ err = file_error p e)
        \/ (exists rows failure i row msg,
              fs p = Reads rows failure
              /\ nth_error rows i = Some row
              /\ validate_row row p (2 + Z.of_nat i) = Ret (None, msg)
              /\ err = row_error p (2 + Z.of_nat i) msg row)).
Proof.
  unfold parse_csv_files. rewrite parse_fold_spec. cbn [snd app].
  intro H. apply in_flat_map in H. destruct H as (p & Hp & He).
  exists p. split; [ exact Hp | ].
  unfold source_errors in He.
  destruct (fs p) as [e | rows failure] eqn:Efs.
  - destruct He as [<- | []]. left. exists e. split; [ left; reflexivity | reflexivity ].
  - apply in_app_or in He. destruct He as [He | He].
    + right. destruct (CountFacts.rows_errors_inv p rows err 2 He)
        as (i & row & msg & Hn & Hr & ->).
      exists rows, failure, i, row, msg. repeat split; assumption.
    + destruct failure as [e |]; [ | contradiction ].
      destruct He as [<- | []]. left. exists e.
      split; [ right; exists rows; reflexivity | reflexivity ].
Qed.

Lemma parse_csv_files_error_provenance_witness :
  exists p, In p ["flights.csv"; "absent.csv"]
    /\ ((exists e, (sample_fs p = OpenFails e \/ exists rows, sample_fs p = Reads rows (Some e))
                   /\ "file not found: absent.csv" = file_error p e)
        \/ (exists rows failure i row msg,
              sample_fs p = Reads rows failure
              /\ nth_error rows i = Some row
              /\ validate_row row p (2 + Z.of_nat i) = Ret (None, msg)
              /\ "file not found: absent.csv" = row_error p (2 + Z.of_nat i) msg row)).
Proof.
  apply (parse_csv_files_error_provenance sample_fs ["flights.csv"; "absent.csv"]
           "file not found: absent.csv").
  vm_compute. tauto.
Defined.

(** X24.  On a text, [parse_iso_datetime] raises nothing but its own two
    [ValueError]s: the empty datetime one exactly when the trimmed text
    is empty, and otherwise the invalid format one, whose message ends
    with the trimmed text; no exception of [strptime] gets through. *)
Theorem parse_iso_datetime_raises_own_errors (s : string) (e : exn) :
  parse_iso_datetime (PStr s) = Raise e ->
  (strip s = EmptyString /\ e = Exn ValueError "empty datetime")
  \/ (strip s <> EmptyString
      /\ e = Exn ValueError
               ("invalid datetime format (expected 'YYYY-MM-DD HH:MM'): " ++ strip s)).
Proof.
  unfold parse_iso_datetime. cbn [strip_method bind].
  destruct (strip s) as [| c t] eqn:E; cbn [is_empty].
  - intro H. injection H as <-. left. split; reflexivity.
  - destruct (DateTime.strptime (String c t)); cbn [try_except]; [ discriminate | ].
    intro H. injection H as <-. right. split; [ discriminate | reflexivity ].
Qed.

Lemma parse_iso_datetime_raises_own_errors_witness :
  (strip " 2025-02-30 10:00 " = EmptyString
   /\ Exn ValueError "invalid datetime format (expected 'YYYY-MM-DD HH:MM'): 2025-02-30 10:00"
      = Exn ValueError "empty datetime")
  \/ (strip " 2025-02-30 10:00 " <> EmptyString
      /\ Exn ValueError "invalid datetime format (expected 'YYYY-MM-DD HH:MM'): 2025-02-30 10:00"
         = Exn ValueError
             ("invalid datetime format (expected 'YYYY-MM-DD HH:MM'): "
                ++ strip " 2025-02-30 10:00 ")).
Proof.
  exact (parse_iso_datetime_raises_own_errors " 2025-02-30 10:00 "
           (Exn ValueError
              "invalid datetime format (expected 'YYYY-MM-DD HH:MM'): 2025-02-30 10:00")
           eq_refl).
Defined.
